(** * simpleauth: the [SimpleAuthHandler] mixin of [simpleauth/handler.py]

    A shallow embedding of the protocol dispatcher (the provider registry,
    the OAuth2 / OAuth1 / OpenID init and callback flows, the CSRF state
    token) together with the properties stated about it.

    The handler is Python 2 code.  Python strings are byte strings and are
    modelled by [string]; the mutable session and the effects a request
    handler has on the outside (redirects, log lines, outbound HTTP calls,
    host callbacks) are threaded through an explicit state-and-exception
    monad.  Library routines the handler calls (base64, urllib, json,
    long/str, dict iteration order) are modelled after CPython 2.7. *)

From Stdlib Require Import ZArith NArith String Ascii List Bool Lia.
From Stdlib Require Import DecimalString DecimalZ DecimalPos.
From stdpp Require Import base option gmap strings.
Import ListNotations.

Set Warnings "-register-all".

Local Open Scope string_scope.
Local Open Scope list_scope.

(* ===================================================================== *)
(** ** Byte strings *)
(* ===================================================================== *)

Module Str.

Definition ord (c : ascii) : N := N_of_ascii c.
Definition chr (n : N) : ascii := ascii_of_N n.

Definition to_list : string -> list ascii := list_ascii_of_string.
Definition of_list : list ascii -> string := string_of_list_ascii.

(** [c in s] for a one-character needle. *)
Fixpoint mem (c : ascii) (s : string) : bool :=
  match s with
  | EmptyString => false
  | String d r => Ascii.eqb c d || mem c r
  end.

(** ASCII letters and digits. *)
Definition is_digit (c : ascii) : bool :=
  ((48 <=? ord c) && (ord c <=? 57))%N.
Definition is_alpha (c : ascii) : bool :=
  (((65 <=? ord c) && (ord c <=? 90)) || ((97 <=? ord c) && (ord c <=? 122)))%N.

(** C [isspace] in the "C" locale: space, \t, \n, \v, \f, \r. *)
Definition is_space (c : ascii) : bool :=
  ((ord c =? 32) || ((9 <=? ord c) && (ord c <=? 13)))%N.

Fixpoint lstrip (s : string) : string :=
  match s with
  | EmptyString => EmptyString
  | String c r => if is_space c then lstrip r else s
  end.

(** The longest prefix of decimal digits, and what follows it. *)
Fixpoint span_digits (s : string) : string * string :=
  match s with
  | EmptyString => (EmptyString, EmptyString)
  | String c r =>
      if is_digit c
      then let '(ds, rest) := span_digits r in (String c ds, rest)
      else (EmptyString, s)
  end.

(** [sep.join(parts)]. *)
Fixpoint join (sep : string) (parts : list string) : string :=
  match parts with
  | [] => EmptyString
  | [p] => p
  | p :: ps => p ++ sep ++ join sep ps
  end.

(** [s.rsplit(sep, 1)] for a one-character separator: [Some (a, b)] when
    the separator occurs (the split is at its last occurrence), [None]
    when it does not and Python returns the one-element list [[s]]. *)
Fixpoint rsplit1 (sep : ascii) (s : string) : option (string * string) :=
  match s with
  | EmptyString => None
  | String c r =>
      match rsplit1 sep r with
      | Some (a, b) => Some (String c a, b)
      | None => if Ascii.eqb c sep then Some (EmptyString, r) else None
      end
  end.

(** [s.startswith(p)] returning the remainder. *)
Fixpoint strip_prefix (p s : string) : option string :=
  match p, s with
  | EmptyString, _ => Some s
  | String a p', String b s' => if Ascii.eqb a b then strip_prefix p' s' else None
  | String _ _, EmptyString => None
  end.

(** [s.replace(old, new)] for a non-empty [old]; [skip] counts the
    characters of a match that are still to be dropped. *)
Fixpoint replace_from (skip : nat) (old new s : string) : string :=
  match s with
  | EmptyString => EmptyString
  | String c r =>
      match skip with
      | S k => replace_from k old new r
      | O =>
          match strip_prefix old s with
          | Some _ => new ++ replace_from (String.length old - 1) old new r
          | None => String c (replace_from 0 old new r)
          end
      end
  end.
Definition replace : string -> string -> string -> string := replace_from 0.

(** [needle in s]. *)
Fixpoint contains (needle s : string) : bool :=
  match strip_prefix needle s with
  | Some _ => true
  | None => match s with
            | EmptyString => false
            | String _ r => contains needle r
            end
  end.

(** [s.split(sep)] for a one-character separator. *)
Fixpoint split (sep : ascii) (s : string) : list string :=
  match s with
  | EmptyString => [EmptyString]
  | String c r =>
      if Ascii.eqb c sep then EmptyString :: split sep r
      else match split sep r with
           | [] => [String c EmptyString]
           | p :: ps => String c p :: ps
           end
  end.

(** [s.split(sep, 1)]: at the first occurrence only. *)
Fixpoint split1 (sep : ascii) (s : string) : option (string * string) :=
  match s with
  | EmptyString => None
  | String c r =>
      if Ascii.eqb c sep then Some (EmptyString, r)
      else match split1 sep r with
           | Some (a, b) => Some (String c a, b)
           | None => None
           end
  end.

(** [all(ord(c) < 128 for c in s)]: what [s.encode('ascii')] needs. *)
Fixpoint is_ascii (s : string) : bool :=
  match s with
  | EmptyString => true
  | String c r => (ord c <? 128)%N && is_ascii r
  end.

(** [str(n)] and [long(s)] for Python 2 longs. *)
Definition of_long (z : Z) : string := NilZero.string_of_int (Z.to_int z).

(** An optional sign at the head of a number. *)
Definition split_sign (s : string) : bool * string :=
  match s with
  | String c r =>
      if Ascii.eqb c "-" then (true, r)
      else if Ascii.eqb c "+" then (false, r)
      else (false, s)
  | EmptyString => (false, s)
  end.

(** An optional [L] or [l] after the digits of a long. *)
Definition drop_long_suffix (s : string) : string :=
  match s with
  | String c r => if (Ascii.eqb c "L" || Ascii.eqb c "l")%char then r else s
  | EmptyString => s
  end.

(** [long(s)], after CPython 2.7's [PyLong_FromString] in base 10:
    leading white space, an optional sign, white space again, at least
    one digit, an optional [L] or [l], trailing white space.  [None] is
    [ValueError]. *)
Definition to_long (s : string) : option Z :=
  let '(negative, s2) := split_sign (lstrip s) in
  let '(ds, rest) := span_digits (lstrip s2) in
  match lstrip (drop_long_suffix rest) with
  | EmptyString =>
      match NilZero.uint_of_string ds with
      | Some d => Some (if negative then - Z.of_uint d else Z.of_uint d)%Z
      | None => None
      end
  | String _ _ => None
  end.

End Str.

(* ===================================================================== *)
(** ** base64 (CPython 2.7 [binascii] and [base64]) *)
(* ===================================================================== *)

Module Base64.

Definition alphabet : list ascii :=
  Str.to_list "ABCDEFGHIJKLMNOPQRSTUVWXYZabcdefghijklmnopqrstuvwxyz0123456789+/".

Definition PAD : ascii := "="%char.

Definition table_b2a (v : N) : ascii := nth (N.to_nat v) alphabet PAD.

Fixpoint index_of (c : ascii) (l : list ascii) (i : N) : option N :=
  match l with
  | [] => None
  | d :: r => if Ascii.eqb c d then Some i else index_of c r (N.succ i)
  end.

(** [table_a2b_base64]: the value of a character of the alphabet. *)
Definition table_a2b (c : ascii) : option N := index_of c alphabet 0%N.

(** The four six-bit groups of three bytes, and the last group of an
    input that ends one or two bytes into a triple. *)
Definition sextet1 (a : ascii) : N := N.shiftr (Str.ord a) 2.
Definition sextet2 (a b : ascii) : N :=
  N.lor (N.shiftl (N.land (Str.ord a) 3) 4) (N.shiftr (Str.ord b) 4).
Definition sextet3 (b c : ascii) : N :=
  N.lor (N.shiftl (N.land (Str.ord b) 15) 2) (N.shiftr (Str.ord c) 6).
Definition sextet4 (c : ascii) : N := N.land (Str.ord c) 63.
Definition sextet2_last (a : ascii) : N := N.shiftl (N.land (Str.ord a) 3) 4.
Definition sextet3_last (b : ascii) : N := N.shiftl (N.land (Str.ord b) 15) 2.

(** [binascii.b2a_base64(s)[:-1]]: three bytes become four characters, a
    last group of one or two bytes is padded. *)
Fixpoint b2a (bs : list ascii) : list ascii :=
  match bs with
  | [] => []
  | [a] => [table_b2a (sextet1 a); table_b2a (sextet2_last a); PAD; PAD]
  | [a; b] =>
      [table_b2a (sextet1 a); table_b2a (sextet2 a b); table_b2a (sextet3_last b); PAD]
  | a :: b :: c :: rest =>
      table_b2a (sextet1 a) :: table_b2a (sextet2 a b)
      :: table_b2a (sextet3 b c) :: table_b2a (sextet4 c) :: b2a rest
  end.

(** [binascii_find_valid(s, slen, 1)] called at a pad character: the
    next character after it that the decoder would not skip. *)
Fixpoint find_valid (s : list ascii) : option ascii :=
  match s with
  | [] => None
  | c :: r =>
      if ((Str.ord c <=? 127)%N && (Ascii.eqb c PAD || bool_decide (is_Some (table_a2b c))))
      then Some c
      else find_valid r
  end.

(** Characters the decoder passes over: bytes above 127, CR, LF, space. *)
Definition skipped (ch : ascii) : bool :=
  (127 <? Str.ord ch)%N || Ascii.eqb ch "013" || Ascii.eqb ch "010" || Ascii.eqb ch " ".

(** A pad character that is ignored: one in the first half of a quad, or
    a single one where two are due. *)
Definition pad_ignored (quad_pos : N) (rest : list ascii) : bool :=
  (quad_pos <? 2)%N
  || ((quad_pos =? 2)%N && negb (bool_decide (find_valid rest = Some PAD))).

(** The loop of [binascii.a2b_base64]: characters outside the alphabet are
    skipped, a pad character in a position where padding may stand ends
    the input.  Returns the bytes and the number of bits left over. *)
Fixpoint a2b_loop (s : list ascii) (quad_pos leftchar leftbits : N)
  : list ascii * N :=
  match s with
  | [] => ([], leftbits)
  | ch :: rest =>
      if skipped ch then a2b_loop rest quad_pos leftchar leftbits
      else if Ascii.eqb ch PAD then
        if pad_ignored quad_pos rest
        then a2b_loop rest quad_pos leftchar leftbits
        else ([], 0%N)
      else
        match table_a2b ch with
        | None => a2b_loop rest quad_pos leftchar leftbits
        | Some v =>
            let quad_pos := N.land (quad_pos + 1) 3 in
            let leftchar := N.lor (N.shiftl leftchar 6) v in
            let leftbits := (leftbits + 6)%N in
            if (8 <=? leftbits)%N then
              let leftbits := (leftbits - 8)%N in
              let '(out, fin) :=
                a2b_loop rest quad_pos
                         (N.land leftchar (N.shiftl 1 leftbits - 1)) leftbits in
              (Str.chr (N.land (N.shiftr leftchar leftbits) 255) :: out, fin)
            else a2b_loop rest quad_pos leftchar leftbits
        end
  end.

(** [binascii.a2b_base64]; [None] is [binascii.Error("Incorrect padding")]. *)
Definition a2b (s : list ascii) : option (list ascii) :=
  let '(out, leftbits) := a2b_loop s 0 0 0 in
  if (leftbits =? 0)%N then Some out else None.

(** [s.translate(string.maketrans(from, to))] for two-character tables. *)
Definition translate (f1 f2 t1 t2 : ascii) (s : list ascii) : list ascii :=
  map (fun c => if Ascii.eqb c f1 then t1 else if Ascii.eqb c f2 then t2 else c) s.

(** [base64.urlsafe_b64encode(s)]. *)
Definition urlsafe_b64encode (s : string) : string :=
  Str.of_list (translate "+" "/" "-" "_" (b2a (Str.to_list s))).

(** [base64.urlsafe_b64decode(s)]; [None] is the [TypeError] that
    [b64decode] raises for [binascii.Error]. *)
Definition urlsafe_b64decode (s : string) : option string :=
  option_map Str.of_list (a2b (translate "-" "_" "+" "/" (Str.to_list s))).

End Base64.

(* ===================================================================== *)
(** ** Python values *)
(* ===================================================================== *)

(** The values the handler passes around: [None], booleans, numbers,
    byte strings, lists, string-keyed dicts and bound methods.  A dict that
    is only read by key (a decoded token response, a profile) keeps its
    items as an association list with one entry per key. *)
Inductive pyval : Type :=
| PyNone
| PyBool (b : bool)
| PyInt (z : Z)
| PyFloat (lexeme : string)
| PyStr (s : string)
| PyList (l : list pyval)
| PyDict (items : list (string * pyval))
| PyMethod (name : string).

Module Py.

(** Does a float literal denote zero: no digit 1..9 in its mantissa. *)
Fixpoint float_is_zero (lexeme : string) : bool :=
  match lexeme with
  | EmptyString => true
  | String c r =>
      if (Ascii.eqb c "e" || Ascii.eqb c "E")%char then true
      else if (Str.is_digit c && negb (Ascii.eqb c "0"))%char then false
      else float_is_zero r
  end.

(** Truth value testing: [bool(v)]. *)
Definition truthy (v : pyval) : bool :=
  match v with
  | PyNone => false
  | PyBool b => b
  | PyInt z => negb (z =? 0)%Z
  | PyFloat x => negb (float_is_zero x)
  | PyStr s => negb (String.eqb s "")
  | PyList l => match l with [] => false | _ => true end
  | PyDict d => match d with [] => false | _ => true end
  | PyMethod _ => true
  end.

(** [a and b], [a or b]: they return one of their operands. *)
Definition and_ (a b : pyval) : pyval := if truthy a then b else a.
Definition or_ (a b : pyval) : pyval := if truthy a then a else b.

(** ['...'] around a string, as [repr] shows a plain string. *)
Definition quoted (s : string) : string := "'" ++ s ++ "'".

(** [str(v)].  Exact for [None], booleans, integers and strings, which is
    all [urlencode] and the URL templates are given; lists and dicts are
    rendered item by item in stored order, which only shows inside the
    text of one error message. *)
Fixpoint str (v : pyval) : string :=
  let repr (v : pyval) : string :=
    match v with
    | PyStr s => quoted s
    | _ => str v
    end in
  match v with
  | PyNone => "None"
  | PyBool true => "True"
  | PyBool false => "False"
  | PyInt z => Str.of_long z
  | PyFloat x => x
  | PyStr s => s
  | PyList l => "[" ++ Str.join ", " (map repr l) ++ "]"
  | PyDict d =>
      "{" ++ Str.join ", "
               (map (fun kv => (quoted (fst kv) ++ ": " ++ repr (snd kv))%string) d)
          ++ "}"
  | PyMethod name => "<bound method SimpleAuthHandler." ++ name ++ ">"
  end.

(** Association-list dicts: [d.get(k)], [d[k] = v]. *)
Fixpoint assoc {V : Type} (k : string) (d : list (string * V)) : option V :=
  match d with
  | [] => None
  | (k', v) :: r => if String.eqb k k' then Some v else assoc k r
  end.

Fixpoint assoc_set {V : Type} (k : string) (v : V) (d : list (string * V))
  : list (string * V) :=
  match d with
  | [] => [(k, v)]
  | (k', v') :: r =>
      if String.eqb k k' then (k, v) :: r else (k', v') :: assoc_set k v r
  end.

(** [d.setdefault(k, v)]: only a missing key is set. *)
Definition assoc_setdefault {V : Type} (k : string) (v : V) (d : list (string * V))
  : list (string * V) :=
  match assoc k d with
  | Some _ => d
  | None => d ++ [(k, v)]
  end.

(** [dict(pairs)]: a later pair replaces an earlier one with its key. *)
Definition dict_of_pairs {V : Type} (pairs : list (string * V)) : list (string * V) :=
  fold_left (fun d kv => assoc_set (fst kv) (snd kv) d) pairs [].

End Py.

(* ===================================================================== *)
(** ** Dicts that are iterated: CPython 2.7's hash table *)
(* ===================================================================== *)

(** [urlencode] walks the items of the dict it is given, so the order of the
    parameters in a URL is the order of the dict's slots.  This is CPython
    2.7's [dictobject.c] for string keys on a 64-bit build without hash
    randomisation: open addressing in a table of eight slots, the first
    slot is [hash & mask], a collision moves on by
    [i = (i << 2) + i + perturb + 1] with [perturb >>= 5].  A table of eight
    slots is resized when a sixth key comes in; the handler never builds a
    dict of more than five keys, and resizing is not modelled. *)
Module Dict.

Definition word : Z := 2 ^ 64.
Definition mask : Z := 7.
Definition PERTURB_SHIFT : Z := 5.

(** [string_hash] of [stringobject.c], as an unsigned word. *)
Fixpoint hash_loop (s : string) (x : Z) : Z :=
  match s with
  | EmptyString => x
  | String c r => hash_loop r (Z.lxor ((1000003 * x) mod word) (Z.of_N (Str.ord c)))
  end.

Definition string_hash (s : string) : Z :=
  match s with
  | EmptyString => 0
  | String c _ =>
      let x := hash_loop s (Z.shiftl (Z.of_N (Str.ord c)) 7) in
      let x := Z.lxor x (Z.of_nat (String.length s)) in
      if (x =? word - 1)%Z then (word - 2)%Z else x
  end.

Definition t (V : Type) : Type := list (option (string * V)).

Definition empty {V : Type} : t V := repeat None 8.

Definition slot {V : Type} (d : t V) (i : Z) : nat := Z.to_nat (Z.land i mask).

(** The collision loop of [lookdict_string]: the slot that holds [key], or
    the first free slot of its probe sequence. *)
Fixpoint probe {V : Type} (fuel : nat) (d : t V) (key : string) (i perturb : Z)
  : option nat :=
  match fuel with
  | O => None
  | S fuel' =>
      let i := ((Z.shiftl i 2 + i + perturb + 1) mod word)%Z in
      match nth (slot d i) d None with
      | None => Some (slot d i)
      | Some (k, _) =>
          if String.eqb k key then Some (slot d i)
          else probe fuel' d key i (Z.shiftr perturb PERTURB_SHIFT)
      end
  end.

Definition lookdict {V : Type} (d : t V) (key : string) : option nat :=
  let h := string_hash key in
  let i := Z.land h mask in
  match nth (slot d i) d None with
  | None => Some (slot d i)
  | Some (k, _) =>
      if String.eqb k key then Some (slot d i) else probe 64 d key i h
  end.

Fixpoint set_nth {A : Type} (n : nat) (x : A) (l : list A) : list A :=
  match l, n with
  | [], _ => []
  | _ :: r, O => x :: r
  | y :: r, S m => y :: set_nth m x r
  end.

(** [d[key] = value]. *)
Definition setitem {V : Type} (key : string) (value : V) (d : t V) : t V :=
  match lookdict d key with
  | Some n => set_nth n (Some (key, value)) d
  | None => d
  end.

(** [d.items()]: the used slots, in table order. *)
Definition items {V : Type} (d : t V) : list (string * V) :=
  omap id d.

(** A dict display [{k1: v1, k2: v2, ...}]: the items are stored in the
    order they are written. *)
Definition of_list {V : Type} (kvs : list (string * V)) : t V :=
  fold_left (fun d kv => setitem (fst kv) (snd kv) d) kvs empty.

End Dict.

(* ===================================================================== *)
(** ** urllib and urlparse (Python 2.7) *)
(* ===================================================================== *)

Module Urllib.

Definition hex_digit (n : N) : ascii :=
  if (n <? 10)%N then Str.chr (48 + n) else Str.chr (55 + n).

(** [always_safe]: letters, digits and [_.-]. *)
Definition always_safe (c : ascii) : bool :=
  Str.is_alpha c || Str.is_digit c
  || Ascii.eqb c "_" || Ascii.eqb c "." || Ascii.eqb c "-".

(** [quote(s, safe)]: every other character becomes [%XX]. *)
Fixpoint quote (safe : string) (s : string) : string :=
  match s with
  | EmptyString => EmptyString
  | String c r =>
      if always_safe c || Str.mem c safe then String c (quote safe r)
      else String "%" (String (hex_digit (Str.ord c / 16))
                         (String (hex_digit (Str.ord c mod 16)) (quote safe r)))
  end.

Fixpoint spaces_to_plus (s : string) : string :=
  match s with
  | EmptyString => EmptyString
  | String c r => String (if Ascii.eqb c " " then "+"%char else c) (spaces_to_plus r)
  end.

(** [quote_plus(s)] with the default [safe='']. *)
Definition quote_plus (s : string) : string :=
  if Str.mem " " s then spaces_to_plus (quote " " s) else quote "" s.

(** [urlencode(query)] for a dict [query]. *)
Definition urlencode (query : Dict.t pyval) : string :=
  Str.join "&"
    (map (fun kv => (quote_plus (fst kv) ++ "=" ++ quote_plus (Py.str (snd kv)))%string)
         (Dict.items query)).

Definition hex_value (c : ascii) : option N :=
  let n := Str.ord c in
  if Str.is_digit c then Some (n - 48)%N
  else if ((65 <=? n) && (n <=? 70))%N then Some (n - 55)%N
  else if ((97 <=? n) && (n <=? 102))%N then Some (n - 87)%N
  else None.

(** [unquote(s)]: [%XX] with two hex digits is a byte, any other [%]
    stays. *)
Fixpoint unquote (s : string) : string :=
  match s with
  | EmptyString => EmptyString
  | String c r =>
      match Ascii.eqb c "%", r with
      | true, String h (String l r') =>
          match hex_value h, hex_value l with
          | Some a, Some b =>
              String (Str.chr (16 * a + b)) (unquote r')
          | _, _ => String c (unquote r)
          end
      | _, _ => String c (unquote r)
      end
  end.

Fixpoint plus_to_space (s : string) : string :=
  match s with
  | EmptyString => EmptyString
  | String c r => String (if Ascii.eqb c "+" then " "%char else c) (plus_to_space r)
  end.

(** [urlparse.parse_qsl(qs)] with its defaults: fields are separated by
    [&] or [;], a field without [=] or with a blank value is dropped. *)
Definition parse_qsl (qs : string) : list (string * string) :=
  let pairs := concat (map (Str.split ";") (Str.split "&" qs)) in
  omap (fun name_value =>
          match Str.split1 "=" name_value with
          | Some (name, value) =>
              if String.eqb value "" then None
              else Some (unquote (plus_to_space name), unquote (plus_to_space value))
          | None => None
          end) pairs.

(** [template.format(arg)] for a template whose only replacement field is
    [{0}], as all URL templates of the registry are.  For such a template
    [str.format] puts [arg] in the place of the field; for a template with
    another field, a doubled brace or a lone brace it does something else
    or raises, and statements about a formatted URL are made for templates
    of the first kind only. *)
Definition format (template arg : string) : string :=
  Str.replace "{0}" arg template.

End Urllib.

(* ===================================================================== *)
(** ** json.loads *)
(* ===================================================================== *)

(** A reader for JSON text: objects, arrays, strings with their escapes,
    numbers, [true], [false], [null].  Integers become [PyInt], other
    numbers keep their text; a [\u] escape is stored as UTF-8.  [None] is
    the [ValueError] of [json.loads].  The literals [NaN] and [Infinity],
    which Python reads as well, are not read. *)
Module Json.

Definition DQ : ascii := "034"%char.

Definition is_ws (c : ascii) : bool :=
  Ascii.eqb c " " || Ascii.eqb c "009" || Ascii.eqb c "010" || Ascii.eqb c "013".

Fixpoint skip_ws (s : string) : string :=
  match s with
  | EmptyString => EmptyString
  | String c r => if is_ws c then skip_ws r else s
  end.

Definition utf8 (n : N) : string :=
  if (n <? 128)%N then String (Str.chr n) EmptyString
  else if (n <? 2048)%N then
    String (Str.chr (192 + n / 64)) (String (Str.chr (128 + n mod 64)) EmptyString)
  else
    String (Str.chr (224 + n / 4096))
      (String (Str.chr (128 + (n / 64) mod 64))
         (String (Str.chr (128 + n mod 64)) EmptyString)).

Definition hex4 (a b c d : ascii) : option N :=
  match Urllib.hex_value a, Urllib.hex_value b, Urllib.hex_value c, Urllib.hex_value d with
  | Some a, Some b, Some c, Some d => Some (((a * 16 + b) * 16 + c) * 16 + d)%N
  | _, _, _, _ => None
  end.

Definition simple_escape (e : ascii) : option ascii :=
  if Ascii.eqb e DQ then Some DQ
  else if Ascii.eqb e "\" then Some "\"%char
  else if Ascii.eqb e "/" then Some "/"%char
  else if Ascii.eqb e "b" then Some "008"%char
  else if Ascii.eqb e "f" then Some "012"%char
  else if Ascii.eqb e "n" then Some "010"%char
  else if Ascii.eqb e "r" then Some "013"%char
  else if Ascii.eqb e "t" then Some "009"%char
  else None.

(** The body of a string, after its opening quote: the text and what
    follows the closing quote. *)
Fixpoint scan_string (s : string) : option (string * string) :=
  match s with
  | EmptyString => None
  | String c r =>
      if Ascii.eqb c DQ then Some (EmptyString, r)
      else if Ascii.eqb c "\" then
        match r with
        | String e r1 =>
            if Ascii.eqb e "u" then
              match r1 with
              | String h1 (String h2 (String h3 (String h4 r2))) =>
                  match hex4 h1 h2 h3 h4, scan_string r2 with
                  | Some n, Some (t, rest) => Some ((utf8 n ++ t)%string, rest)
                  | _, _ => None
                  end
              | _ => None
              end
            else
              match simple_escape e, scan_string r1 with
              | Some x, Some (t, rest) => Some (String x t, rest)
              | _, _ => None
              end
        | EmptyString => None
        end
      else if (Str.ord c <? 32)%N then None
      else
        match scan_string r with
        | Some (t, rest) => Some (String c t, rest)
        | None => None
        end
  end.

(** A number at the head of [s]: an optional minus, then [0] or digits
    that do not start with [0], then an optional fraction (a dot and
    digits) and an optional exponent ([e] or [E], a sign, digits). *)
Definition scan_number (s : string) : option (pyval * string) :=
  let '(sign, s1) :=
    match s with
    | String "-" r => ("-", r)
    | _ => (EmptyString, s)
    end in
  let int_part : option (string * string) :=
    match s1 with
    | String "0" r => Some ("0", r)
    | _ => match Str.span_digits s1 with
           | (EmptyString, _) => None
           | (ds, r) => Some (ds, r)
           end
    end in
  match int_part with
  | None => None
  | Some (ds, s2) =>
      let '(frac, s3) :=
        match s2 with
        | String "." r =>
            match Str.span_digits r with
            | (EmptyString, _) => (EmptyString, s2)
            | (fs, r') => (String "." fs, r')
            end
        | _ => (EmptyString, s2)
        end in
      let '(exp, s4) :=
        match s3 with
        | String e r =>
            if (Ascii.eqb e "e" || Ascii.eqb e "E")%char then
              let '(sg, r1) :=
                match r with
                | String "+" r1 => ("+", r1)
                | String "-" r1 => ("-", r1)
                | _ => (EmptyString, r)
                end in
              match Str.span_digits r1 with
              | (EmptyString, _) => (EmptyString, s3)
              | (es, r2) => ((String e sg ++ es)%string, r2)
              end
            else (EmptyString, s3)
        | EmptyString => (EmptyString, s3)
        end in
      match frac, exp with
      | EmptyString, EmptyString =>
          match Str.to_long (sign ++ ds) with
          | Some z => Some (PyInt z, s4)
          | None => None
          end
      | _, _ => Some (PyFloat (sign ++ ds ++ frac ++ exp), s4)
      end
  end.

(** What the reader is in the middle of. *)
Inductive context : Type :=
| Value
| Members (acc : list (string * pyval))
| Elements (acc : list pyval).

Fixpoint scan (fuel : nat) (ctx : context) (s : string) : option (pyval * string) :=
  match fuel with
  | O => None
  | S fuel' =>
      match ctx with
      | Value =>
          match skip_ws s with
          | EmptyString => None
          | String c r =>
              if Ascii.eqb c "{" then
                match skip_ws r with
                | String "}" r' => Some (PyDict [], r')
                | _ => scan fuel' (Members []) r
                end
              else if Ascii.eqb c "[" then
                match skip_ws r with
                | String "]" r' => Some (PyList [], r')
                | _ => scan fuel' (Elements []) r
                end
              else if Ascii.eqb c DQ then
                match scan_string r with
                | Some (t, rest) => Some (PyStr t, rest)
                | None => None
                end
              else
                match Str.strip_prefix "null" (String c r),
                      Str.strip_prefix "true" (String c r),
                      Str.strip_prefix "false" (String c r) with
                | Some rest, _, _ => Some (PyNone, rest)
                | _, Some rest, _ => Some (PyBool true, rest)
                | _, _, Some rest => Some (PyBool false, rest)
                | None, None, None => scan_number (String c r)
                end
          end
      | Members acc =>
          match skip_ws s with
          | String c r =>
              if Ascii.eqb c DQ then
                match scan_string r with
                | Some (key, r1) =>
                    match skip_ws r1 with
                    | String ":" r2 =>
                        match scan fuel' Value r2 with
                        | Some (v, r3) =>
                            let acc := Py.assoc_set key v acc in
                            match skip_ws r3 with
                            | String "," r4 => scan fuel' (Members acc) r4
                            | String "}" r4 => Some (PyDict acc, r4)
                            | _ => None
                            end
                        | None => None
                        end
                    | _ => None
                    end
                | None => None
                end
              else None
          | EmptyString => None
          end
      | Elements acc =>
          match scan fuel' Value s with
          | Some (v, r1) =>
              match skip_ws r1 with
              | String "," r2 => scan fuel' (Elements (acc ++ [v])) r2
              | String "]" r2 => Some (PyList (acc ++ [v]), r2)
              | _ => None
              end
          | None => None
          end
      end
  end.

(** [json.loads(body)]: one value, then nothing but white space. *)
Definition loads (body : string) : option pyval :=
  match scan (S (String.length body)) Value body with
  | Some (v, rest) =>
      match skip_ws rest with
      | EmptyString => Some v
      | String _ _ => None
      end
  | None => None
  end.

End Json.

(* ===================================================================== *)
(** ** Exceptions, effects and the request monad *)
(* ===================================================================== *)

Inductive exn_class : Type :=
| Exception | ValueError | TypeError | KeyError | AttributeError
| UnicodeDecodeError | DownloadError.

(** A raised exception: its class and [str(exception)]. *)
Record exn : Type := mk_exn { exn_type : exn_class; exn_str : string }.

Inductive result (A : Type) : Type :=
| Ok (a : A)
| Raise (e : exn).
Arguments Ok {A} a.
Arguments Raise {A} e.

(** python-oauth2 ([import oauth2 as oauth1]): a token with its verifier,
    and a client made of a consumer and, possibly, a token. *)
Record oauth1_token : Type := mk_token {
  token_key : pyval;
  token_secret : pyval;
  token_verifier : pyval
}.

Record oauth1_client : Type := mk_client {
  consumer_key : pyval;
  consumer_secret : pyval;
  client_token : option oauth1_token
}.

(** The App Engine user behind [users.get_current_user()]. *)
Record user : Type := mk_user {
  federated_identity : pyval;
  nickname : pyval;
  email : pyval;
  federated_provider : pyval
}.

Inductive level : Type := DEBUG | ERROR.

(** What a request handler does that is visible from outside, in order. *)
Inductive event : Type :=
| Log (lvl : level) (msg : string)                       (* logging.debug / logging.error *)
| Redirect (uri : string)                                (* self.redirect(uri) *)
| ProviderNotSupported (provider : string)               (* self._provider_not_supported(provider) is entered *)
| AuthError (provider : string) (msg : string)           (* self._auth_error(provider, msg) is entered *)
| OnSignin (user_data auth_info : pyval) (provider : string) (* self._on_signin(...) *)
| UrlFetch (url : string) (payload : option string) (method : string) (* urlfetch.fetch *)
| OAuth1Request (client : oauth1_client) (uri method : string).       (* client.request *)

(** The state a handler call changes: the host's session, the events so
    far (oldest first), and how much of the random source is used up. *)
Record world : Type := mk_world {
  session : gmap string pyval;
  trace : list event;
  rng_pos : nat
}.

(** What one request finds outside the handler: the request parameters,
    the clock in whole seconds ([long(time.time())]), the random source, the
    answers of the network ([urlfetch.fetch(...).content], and the status
    and body of a signed [client.request]), the App Engine users service,
    and what lxml makes of an XML document: the tag and text of each child
    of its root. *)
Record env : Type := mk_env {
  request : gmap string string;
  time_time : Z;
  entropy : nat -> nat;
  urlfetch_fetch : string -> option string -> string -> result string;
  oauth1_request : oauth1_client -> string -> string -> result (Z * string);
  users_create_login_url : pyval -> pyval -> result string;
  users_get_current_user : option user;
  etree_fromstring : string -> result (list (string * pyval))
}.

Definition M (A : Type) : Type := world -> result A * world.

Definition ret {A : Type} (a : A) : M A := fun w => (Ok a, w).

Definition bind {A B : Type} (m : M A) (k : A -> M B) : M B :=
  fun w =>
    match m w with
    | (Ok a, w') => k a w'
    | (Raise e, w') => (Raise e, w')
    end.

Definition raise {A : Type} (c : exn_class) (msg : string) : M A :=
  fun w => (Raise (mk_exn c msg), w).

Definition lift {A : Type} (r : result A) : M A := fun w => (r, w).

(** [try: body except: handler] with a bare [except]. *)
Definition try_except {A : Type} (body : M A) (handler : exn -> M A) : M A :=
  fun w =>
    match body w with
    | (Ok a, w') => (Ok a, w')
    | (Raise e, w') => handler e w'
    end.

Declare Scope py_scope.
Delimit Scope py_scope with py.
Notation "x <- m ;; k" := (bind m (fun x => k))
  (at level 100, m at next level, right associativity) : py_scope.
Notation "m ;; k" := (bind m (fun _ => k))
  (at level 100, right associativity) : py_scope.

Definition emit (ev : event) : M unit :=
  fun w => (Ok tt, mk_world (session w) (trace w ++ [ev]) (rng_pos w)).

Definition log (lvl : level) (msg : string) : M unit := emit (Log lvl msg).

(** [self.redirect(uri)]. *)
Definition redirect (uri : string) : M unit := emit (Redirect uri).

(** [self.session.pop(key, default)]. *)
Definition session_pop (key : string) (dflt : pyval) : M pyval :=
  fun w =>
    (Ok (default dflt (session w !! key)),
     mk_world (delete key (session w)) (trace w) (rng_pos w)).

(** [self.session[key] = value]. *)
Definition session_set (key : string) (value : pyval) : M unit :=
  fun w => (Ok tt, mk_world (<[key := value]> (session w)) (trace w) (rng_pos w)).

(** Tuple unpacking, [a, b = t] and [a, b, c = t]. *)
Definition unpack_error {A : Type} (n : nat) (got : nat) : M A :=
  if (n <? got)%nat then raise ValueError "too many values to unpack"
  else raise ValueError
         ("need more than " ++ Str.of_long (Z.of_nat got)
          ++ (if (got =? 1)%nat then " value" else " values") ++ " to unpack").

Definition unpack2 (t : list pyval) : M (pyval * pyval) :=
  match t with
  | [a; b] => ret (a, b)
  | _ => unpack_error 2 (length t)
  end.

Definition unpack3 (t : list pyval) : M (pyval * pyval * pyval) :=
  match t with
  | [a; b; c] => ret (a, b, c)
  | _ => unpack_error 3 (length t)
  end.

(** [d.get(key, None)] and [d[key]] on a value that should be a dict. *)
Definition py_get (d : pyval) (key : string) : M pyval :=
  match d with
  | PyDict items => ret (default PyNone (Py.assoc key items))
  | _ => raise AttributeError "object has no attribute 'get'"
  end.

(** [d.update(key=value)] and [d.setdefault(key, value)], returning the
    dict. *)
Definition py_setitem (d : pyval) (key : string) (value : pyval) : M pyval :=
  match d with
  | PyDict items => ret (PyDict (Py.assoc_set key value items))
  | _ => raise AttributeError "object has no attribute 'update'"
  end.

Definition py_setdefault (d : pyval) (key : string) (value : pyval) : M pyval :=
  match d with
  | PyDict items => ret (PyDict (Py.assoc_setdefault key value items))
  | _ => raise AttributeError "object has no attribute 'setdefault'"
  end.

Definition py_getitem (d : pyval) (key : string) : M pyval :=
  match d with
  | PyDict items =>
      match Py.assoc key items with
      | Some v => ret v
      | None => raise KeyError (Py.quoted key)
      end
  | _ => raise TypeError "indices must be integers"
  end.

(** [webapp2_extras.security.generate_random_string(length, pool=pool)]:
    [length] characters, each chosen from [pool] by the random source. *)
Definition generate_random_string (e : env) (length : nat) (pool : list ascii) : M string :=
  fun w =>
    (Ok (Str.of_list
           (map (fun i => nth (entropy e (rng_pos w + i) mod List.length pool) pool " "%char)
                (seq 0 length))),
     mk_world (session w) (trace w) (rng_pos w + length)).

(** Modelled from the spec: the pool [security.ASCII_PRINTABLE] of
    webapp2_extras, "a printable character set": the 94 visible ASCII
    characters. *)
Definition ASCII_PRINTABLE : list ascii := map (fun n => ascii_of_nat (33 + n)) (seq 0 94).

(** python-oauth2: [Consumer(key, secret)] and [Token(key, secret)] refuse
    [None]. *)
Definition oauth1_Consumer (key secret : pyval) : M (pyval * pyval) :=
  match key, secret with
  | PyNone, _ | _, PyNone => raise ValueError "Key and secret must be set."
  | _, _ => ret (key, secret)
  end.

Definition oauth1_Token (key secret : pyval) : M oauth1_token :=
  match key, secret with
  | PyNone, _ | _, PyNone => raise ValueError "Key and secret must be set."
  | _, _ => ret (mk_token key secret PyNone)
  end.

Definition set_verifier (token : oauth1_token) (verifier : pyval) : oauth1_token :=
  mk_token (token_key token) (token_secret token) verifier.

(* ===================================================================== *)
(** ** The handler *)
(* ===================================================================== *)

(** An entry of [PROVIDERS]: [('oauth2', auth_url, access_token_url)],
    [('oauth1', {'request': ..., 'auth': ...}, access_token_url)] or
    [('openid', None)].  The first component selects the methods
    [_<authtype>_init] and [_<authtype>_callback]; the handler has them for
    these three auth types.  An entry with another auth type, for which the
    class has no methods and the dispatchers call
    [_provider_not_supported], is not represented. *)
Inductive provider_cfg : Type :=
| cfg_oauth2 (auth_url access_token_url : string)
| cfg_oauth1 (auth_urls : gmap string string) (access_token_url : string)
| cfg_openid.

(** The class attributes and the two methods a host is meant to
    override.  An OAuth2 consumer is a [(key, secret, scope)] tuple, an
    OAuth1 consumer a [(key, secret)] tuple. *)
Record handler : Type := mk_handler {
  PROVIDERS : gmap string provider_cfg;
  TOKEN_RESPONSE_PARSERS : gmap string string;
  OAUTH2_CSRF_STATE : bool;
  OAUTH2_CSRF_SESSION_PARAM : string;
  OAUTH2_CSRF_TOKEN_TIMEOUT : Z;
  _callback_uri_for : string -> pyval;
  _get_consumer_info_for : string -> list pyval
}.

(** [OAUTH2_CSRF_DELIMITER = ':'], which a handler does not normally
    override. *)
Definition OAUTH2_CSRF_DELIMITER : ascii := ":"%char.

(** The registry and the decoder table of the class. *)
Definition base_PROVIDERS : gmap string provider_cfg :=
  list_to_map
    [ ("google", cfg_oauth2 "https://accounts.google.com/o/oauth2/auth?{0}"
                            "https://accounts.google.com/o/oauth2/token");
      ("windows_live", cfg_oauth2 "https://oauth.live.com/authorize?{0}"
                                  "https://oauth.live.com/token");
      ("facebook", cfg_oauth2 "https://www.facebook.com/dialog/oauth?{0}"
                              "https://graph.facebook.com/oauth/access_token");
      ("linkedin", cfg_oauth1
                     (list_to_map
                        [("request", "https://api.linkedin.com/uas/oauth/requestToken");
                         ("auth", "https://www.linkedin.com/uas/oauth/authenticate?{0}")])
                     "https://api.linkedin.com/uas/oauth/accessToken");
      ("twitter", cfg_oauth1
                    (list_to_map
                       [("request", "https://api.twitter.com/oauth/request_token");
                        ("auth", "https://api.twitter.com/oauth/authenticate?{0}")])
                    "https://api.twitter.com/oauth/access_token");
      ("openid", cfg_openid) ].

Definition base_TOKEN_RESPONSE_PARSERS : gmap string string :=
  list_to_map
    [ ("google", "_json_parser");
      ("windows_live", "_json_parser");
      ("facebook", "_query_string_parser");
      ("linkedin", "_query_string_parser");
      ("twitter", "_query_string_parser") ].

Section Handler.

Variable h : handler.
Variable e : env.

Local Open Scope py_scope.

(** [self.request.get(name, default)].  The values of a request are kept
    as byte strings.  A host that hands them out as unicode text gives the
    same values as long as they are ASCII; where a statement depends on what
    [str] or [urlencode] make of a request value it is made for such
    requests. *)
Definition request_get (name : string) (dflt : pyval) : pyval :=
  match request e !! name with
  | Some v => PyStr v
  | None => dflt
  end.

(** *** Host callbacks *)

(** [_provider_not_supported]: "Defaults to redirecting to / (root)". *)
Definition _provider_not_supported (provider : string) : M unit :=
  emit (ProviderNotSupported provider) ;;
  redirect "/".

(** [_auth_error]: "Defaults to redirecting to /". *)
Definition _auth_error (provider : string) (msg : string) : M unit :=
  emit (AuthError provider msg) ;;
  redirect "/".

(** [_on_signin] is the host application's: what it is called with is
    recorded. *)
Definition _on_signin (user_data auth_info : pyval) (provider : string) : M unit :=
  emit (OnSignin user_data auth_info provider).

(** *** Token response decoders *)

Definition _query_string_parser (body : string) : M pyval :=
  ret (PyDict (Py.dict_of_pairs
                 (map (fun kv => (fst kv, PyStr (snd kv))) (Urllib.parse_qsl body)))).

Definition _json_parser (body : string) : M pyval :=
  match Json.loads body with
  | Some v => ret v
  | None => raise ValueError "No JSON object could be decoded"
  end.

(** [getattr(self, name, None)] for the name of a decoder. *)
Definition getattr_parser (name : string) : pyval :=
  if String.eqb name "_json_parser" then PyMethod name
  else if String.eqb name "_query_string_parser" then PyMethod name
  else PyNone.

(** Calling what [getattr] returned. *)
Definition call_parser (parser : pyval) (body : string) : M pyval :=
  match parser with
  | PyMethod name =>
      if String.eqb name "_json_parser" then _json_parser body
      else _query_string_parser body
  | _ => raise TypeError "'NoneType' object is not callable"
  end.

(** [self.TOKEN_RESPONSE_PARSERS[provider]]. *)
Definition parser_name_for (provider : string) : M string :=
  match TOKEN_RESPONSE_PARSERS h !! provider with
  | Some name => ret name
  | None => raise KeyError (Py.quoted provider)
  end.

Definition no_attribute {A : Type} (name : string) : M A :=
  raise AttributeError
        ("'SimpleAuthHandler' object has no attribute " ++ Py.quoted name).

(** [getattr(self, self.TOKEN_RESPONSE_PARSERS[provider])]. *)
Definition getattr_parser_strict (provider : string) : M pyval :=
  name <- parser_name_for provider ;;
  match getattr_parser name with
  | PyNone => no_attribute name
  | parser => ret parser
  end.

(** *** Auxiliary methods *)

(** [_oauth1_client(token, consumer_key, consumer_secret)]. *)
Definition _oauth1_client (token : option oauth1_token)
           (consumer_key consumer_secret : pyval) : M oauth1_client :=
  consumer <- oauth1_Consumer consumer_key consumer_secret ;;
  ret (mk_client (fst consumer) (snd consumer) token).

(** [client.request(uri, method)]. *)
Definition client_request (client : oauth1_client) (uri method : string)
  : M (Z * string) :=
  emit (OAuth1Request client uri method) ;;
  lift (oauth1_request e client uri method).

(** [urlfetch.fetch(url=..., payload=..., method=urlfetch.POST, ...).content]. *)
Definition urlfetch_post (url payload : string) : M string :=
  emit (UrlFetch url (Some payload) "POST") ;;
  lift (urlfetch_fetch e url (Some payload) "POST").

(** [urlfetch.fetch(url).content]. *)
Definition urlfetch_get (url : string) : M string :=
  emit (UrlFetch url None "GET") ;;
  lift (urlfetch_fetch e url None "GET").

(** [_oauth2_request(url, token)]. *)
Definition _oauth2_request (url : string) (token : pyval) : M string :=
  let target_url :=
    Urllib.format url (Urllib.urlencode (Dict.of_list [("access_token", token)])) in
  urlfetch_get target_url.

(** *** User profiles *)

Definition _get_google_user_info (auth_info key secret : pyval) : M pyval :=
  token <- py_getitem auth_info "access_token" ;;
  resp <- _oauth2_request "https://www.googleapis.com/oauth2/v1/userinfo?{0}" token ;;
  _json_parser resp.

Definition _get_windows_live_user_info (auth_info key secret : pyval) : M pyval :=
  token <- py_getitem auth_info "access_token" ;;
  resp <- _oauth2_request "https://apis.live.net/v5.0/me?{0}" token ;;
  uinfo <- _json_parser resp ;;
  id <- py_getitem uinfo "id" ;;
  let avurl := Urllib.format "https://apis.live.net/v5.0/{0}/picture" (Py.str id) in
  py_setitem uinfo "avatar_url" (PyStr avurl).

Definition _get_facebook_user_info (auth_info key secret : pyval) : M pyval :=
  token <- py_getitem auth_info "access_token" ;;
  resp <- _oauth2_request "https://graph.facebook.com/me?{0}" token ;;
  _json_parser resp.

Definition _get_linkedin_user_info (auth_info key secret : pyval) : M pyval :=
  token_key <- py_getitem auth_info "oauth_token" ;;
  token_secret <- py_getitem auth_info "oauth_token_secret" ;;
  token <- oauth1_Token token_key token_secret ;;
  client <- _oauth1_client (Some token) key secret ;;
  let fields := "id,first-name,last-name,picture-url,public-profile-url,headline" in
  let url := ("http://api.linkedin.com/v1/people/~:(" ++ fields ++ ")")%string in
  response <- client_request client url "GET" ;;
  person <- lift (etree_fromstring e (snd response)) ;;
  ret (PyDict (fold_left (fun uinfo child => Py.assoc_setdefault (fst child) (snd child) uinfo)
                         person [])).

Definition _get_twitter_user_info (auth_info key secret : pyval) : M pyval :=
  token_key <- py_getitem auth_info "oauth_token" ;;
  token_secret <- py_getitem auth_info "oauth_token_secret" ;;
  token <- oauth1_Token token_key token_secret ;;
  client <- _oauth1_client (Some token) key secret ;;
  response <-
    client_request client "https://api.twitter.com/1/account/verify_credentials.json" "GET" ;;
  uinfo <- _json_parser (snd response) ;;
  screen_name <- py_getitem uinfo "screen_name" ;;
  py_setdefault uinfo "link" (PyStr ("http://twitter.com/" ++ Py.str screen_name)%string).

(** [getattr(self, '_get_%s_user_info' % provider)]: the class has such a
    method for five providers. *)
Definition getattr_fetcher (provider : string) : M pyval :=
  let name := ("_get_" ++ provider ++ "_user_info")%string in
  if bool_decide (provider ∈ ["google"; "windows_live"; "facebook"; "linkedin"; "twitter"])
  then ret (PyMethod name)
  else no_attribute name.

(** [_fetcher(auth_info, key=..., secret=...)]. *)
Definition call_fetcher (fetcher : pyval) (auth_info key secret : pyval) : M pyval :=
  match fetcher with
  | PyMethod name =>
      if String.eqb name "_get_google_user_info"
      then _get_google_user_info auth_info key secret
      else if String.eqb name "_get_windows_live_user_info"
      then _get_windows_live_user_info auth_info key secret
      else if String.eqb name "_get_facebook_user_info"
      then _get_facebook_user_info auth_info key secret
      else if String.eqb name "_get_linkedin_user_info"
      then _get_linkedin_user_info auth_info key secret
      else _get_twitter_user_info auth_info key secret
  | _ => raise TypeError "'NoneType' object is not callable"
  end.

(** *** The CSRF state token *)

Definition _generate_csrf_token (_time : option Z) : M string :=
  let now :=
    Str.of_long (match _time with
                 | Some t => if (t =? 0)%Z then time_time e else t
                 | None => time_time e
                 end) in
  secret <- generate_random_string e 30 ASCII_PRINTABLE ;;
  let token := Str.join (String OAUTH2_CSRF_DELIMITER EmptyString) [secret; now] in
  ret (Base64.urlsafe_b64encode token).

(** The [try] block of [_validate_csrf_token]: the time stamp of the
    token, or [None] where the method returns [False] for an empty key. *)
Definition csrf_token_time (expected : string) : result (option Z) :=
  if negb (Str.is_ascii expected)
  then Raise (mk_exn UnicodeDecodeError "'ascii' codec can't decode byte")
  else
    match Base64.urlsafe_b64decode expected with
    | None => Raise (mk_exn TypeError "Incorrect padding")
    | Some decoded =>
        match Str.rsplit1 OAUTH2_CSRF_DELIMITER decoded with
        | None => Raise (mk_exn ValueError "need more than 1 value to unpack")
        | Some (token_key, token_time) =>
            match Str.to_long token_time with
            | None => Raise (mk_exn ValueError "invalid literal for long() with base 10")
            | Some token_time =>
                if String.eqb token_key "" then Ok None else Ok (Some token_time)
            end
        end
    end.

(** [_validate_csrf_token(expected, actual)].  [actual] is the string read
    from the request; [expected] comes out of the session, and a value
    that is not a string differs from every string. *)
Definition _validate_csrf_token (expected : pyval) (actual : string) : M bool :=
  match expected with
  | PyStr expected =>
      if negb (String.eqb expected actual) then ret false
      else
        match csrf_token_time expected with
        | Raise ex =>
            match exn_type ex with
            | TypeError | ValueError | UnicodeDecodeError => ret false
            | _ => lift (Raise ex)
            end
        | Ok None => ret false
        | Ok (Some token_time) =>
            let now := time_time e in
            let timeout := (OAUTH2_CSRF_TOKEN_TIMEOUT h <? now - token_time)%Z in
            (if timeout
             then log ERROR ("CSRF token timeout (issued at "
                             ++ Str.of_long token_time ++ ")")
             else ret tt) ;;
            ret (negb timeout)
        end
  | _ => ret false
  end.

(** *** OAuth 2.0 *)

Definition _oauth2_init (provider : string) (auth_url : string) : M unit :=
  info <- unpack3 (_get_consumer_info_for h provider) ;;
  let '(key, secret, scope) := info in
  let callback_url := _callback_uri_for h provider in
  let _valid :=
    Py.and_ (Py.and_ (Py.and_ key secret) (PyStr auth_url)) callback_url in
  if negb (Py.truthy _valid) then
    log ERROR ("Provider " ++ provider ++ " is not supported") ;;
    _provider_not_supported provider
  else
    let params :=
      Dict.of_list [("response_type", PyStr "code");
                    ("client_id", key);
                    ("redirect_uri", callback_url)] in
    let params :=
      if Py.truthy scope then Dict.setitem "scope" scope params else params in
    params <-
      (if OAUTH2_CSRF_STATE h then
         state <- _generate_csrf_token None ;;
         let params := Dict.setitem "state" (PyStr state) params in
         session_set (OAUTH2_CSRF_SESSION_PARAM h) (PyStr state) ;;
         ret params
       else ret params) ;;
    let target_url := Urllib.format auth_url (Urllib.urlencode params) in
    log DEBUG ("Redirecting user to " ++ target_url) ;;
    redirect target_url.

Definition _oauth2_callback (provider : string) (access_token_url : string)
  : M (pyval * pyval) :=
  let code := request_get "code" PyNone in
  let error := request_get "error" PyNone in
  let callback_url := _callback_uri_for h provider in
  info <- unpack3 (_get_consumer_info_for h provider) ;;
  let '(client_id, client_secret, scope) := info in
  (if Py.truthy error then raise Exception (Py.str error) else ret tt) ;;
  (if OAUTH2_CSRF_STATE h then
     _expected <- session_pop (OAUTH2_CSRF_SESSION_PARAM h) (PyStr "") ;;
     let _actual := Py.str (request_get "state" (PyStr "")) in
     valid <- _validate_csrf_token _expected _actual ;;
     if negb valid then
       raise Exception ("State parameter is not valid. Expected ["
                        ++ Py.str _expected ++ "], got [" ++ _actual ++ "]")
     else ret tt
   else ret tt) ;;
  let payload :=
    Dict.of_list [("code", code);
                  ("client_id", client_id);
                  ("client_secret", client_secret);
                  ("redirect_uri", callback_url);
                  ("grant_type", PyStr "authorization_code")] in
  content <- urlfetch_post access_token_url (Urllib.urlencode payload) ;;
  _parser <- getattr_parser_strict provider ;;
  _fetcher <- getattr_fetcher provider ;;
  auth_info <- call_parser _parser content ;;
  user_data <- call_fetcher _fetcher auth_info client_id client_secret ;;
  ret (user_data, auth_info).

(** *** OAuth 1.0 *)

(** [auth_urls.get(key, None)] and [auth_urls[key]]. *)
Definition auth_urls_get (auth_urls : gmap string string) (key : string) : pyval :=
  match auth_urls !! key with
  | Some url => PyStr url
  | None => PyNone
  end.

Definition auth_urls_item (auth_urls : gmap string string) (key : string) : M string :=
  match auth_urls !! key with
  | Some url => ret url
  | None => raise KeyError (Py.quoted key)
  end.

Definition _oauth1_init (provider : string) (auth_urls : gmap string string) : M unit :=
  info <- unpack2 (_get_consumer_info_for h provider) ;;
  let '(key, secret) := info in
  let callback_url := _callback_uri_for h provider in
  let token_request_url := auth_urls_get auth_urls "request" in
  let auth_url := auth_urls_get auth_urls "auth" in
  name <- parser_name_for provider ;;
  let _parser := getattr_parser name in
  let _valid :=
    Py.or_ (Py.or_ (Py.or_ (Py.or_ (Py.or_ key secret) token_request_url) auth_url)
                   callback_url) _parser in
  if negb (Py.truthy _valid) then
    raise Exception ("Provider " ++ provider ++ " is not supported")
  else
    client <- _oauth1_client None key secret ;;
    request_url <- auth_urls_item auth_urls "request" ;;
    response <- client_request client request_url "GET" ;;
    let '(status, content) := response in
    if negb (status =? 200)%Z then
      raise Exception ("Could not fetch a valid response from " ++ provider)
    else
      request_token <- call_parser _parser content ;;
      oauth_token <- py_get request_token "oauth_token" ;;
      if negb (Py.truthy oauth_token) then
        raise Exception ("Couldn't get a valid token from " ++ provider
                         ++ String "010" (Py.str request_token))
      else
        auth_template <- auth_urls_item auth_urls "auth" ;;
        oauth_token <- py_get request_token "oauth_token" ;;
        let target_url :=
          Urllib.format auth_template
            (Urllib.urlencode
               (Dict.of_list [("oauth_token", oauth_token);
                              ("oauth_callback", callback_url)])) in
        log DEBUG ("Redirecting user to " ++ target_url) ;;
        session_set "req_token" request_token ;;
        redirect target_url.

Definition _oauth1_callback (provider : string) (access_token_url : string)
  : M (pyval * pyval) :=
  request_token <- session_pop "req_token" PyNone ;;
  let verifier := request_get "oauth_verifier" PyNone in
  info <- unpack2 (_get_consumer_info_for h provider) ;;
  let '(consumer_key, consumer_secret) := info in
  if negb (Py.truthy request_token) then
    raise Exception "Couldn't find request token"
  else if negb (Py.truthy verifier) then
    raise Exception "No OAuth verifier was provided"
  else
    token_key <- py_getitem request_token "oauth_token" ;;
    token_secret <- py_getitem request_token "oauth_token_secret" ;;
    token <- oauth1_Token token_key token_secret ;;
    let token := set_verifier token verifier in
    client <- _oauth1_client (Some token) consumer_key consumer_secret ;;
    response <- client_request client access_token_url "POST" ;;
    let '(resp, content) := response in
    _parser <- getattr_parser_strict provider ;;
    _fetcher <- getattr_fetcher provider ;;
    auth_info <- call_parser _parser content ;;
    user_data <- call_fetcher _fetcher auth_info consumer_key consumer_secret ;;
    ret (user_data, auth_info).

(** *** OpenID *)

Definition _openid_init (provider : string) (identity : pyval) : M unit :=
  let identity_url := Py.or_ identity (request_get "identity_url" PyNone) in
  let callback_url := _callback_uri_for h provider in
  if Py.truthy (Py.and_ identity_url callback_url) then
    target_url <- lift (users_create_login_url e callback_url identity_url) ;;
    log DEBUG ("Redirecting user to " ++ target_url) ;;
    redirect target_url
  else
    log ERROR ("Either identity or callback were not specified ("
               ++ Py.str identity_url ++ ", " ++ Py.str callback_url ++ ")") ;;
    _provider_not_supported provider.

Definition _openid_callback (provider : string) (_identity : pyval)
  : M (pyval * pyval) :=
  match users_get_current_user e with
  | Some u =>
      if Py.truthy (federated_identity u) then
        let uinfo :=
          PyDict [("id", federated_identity u);
                  ("nickname", nickname u);
                  ("email", email u)] in
        ret (uinfo, PyDict [("provider", federated_provider u)])
      else raise Exception "OpenID Authentication failed"
  | None => raise Exception "OpenID Authentication failed"
  end.

(** *** The dispatchers *)

(** The [except:] clause of both dispatchers.  [str(sys.exc_info()[1])] is
    the message of the exception; it only fails for a message that is
    unicode text with a character outside ASCII, which a message made from
    a request value or a session value can be. *)
Definition on_error (provider : string) (ex : exn) : M unit :=
  let error_msg := exn_str ex in
  log ERROR error_msg ;;
  _auth_error provider error_msg.

Definition _simple_auth (provider : string) : M unit :=
  match PROVIDERS h !! provider with
  | Some cfg =>
      try_except
        (match cfg with
         | cfg_oauth2 auth_url _ => _oauth2_init provider auth_url
         | cfg_oauth1 auth_urls _ => _oauth1_init provider auth_urls
         | cfg_openid => _openid_init provider PyNone
         end)
        (on_error provider)
  | None =>
      log ERROR ("Provider " ++ provider ++ " is not supported") ;;
      _provider_not_supported provider
  end.

Definition _auth_callback (provider : string) : M unit :=
  match PROVIDERS h !! provider with
  | Some cfg =>
      try_except
        (signed_in <-
           match cfg with
           | cfg_oauth2 _ access_token_url => _oauth2_callback provider access_token_url
           | cfg_oauth1 _ access_token_url => _oauth1_callback provider access_token_url
           | cfg_openid => _openid_callback provider PyNone
           end ;;
         let '(user_data, auth_info) := signed_in in
         _on_signin user_data auth_info provider)
        (on_error provider)
  | None =>
      log ERROR ("Provider " ++ provider ++ " is not supported") ;;
      _provider_not_supported provider
  end.

End Handler.

(** *** Reading a trace *)

Definition is_network (ev : event) : bool :=
  match ev with
  | UrlFetch _ _ _ | OAuth1Request _ _ _ => true
  | _ => false
  end.

Definition is_auth_error (ev : event) : bool :=
  match ev with AuthError _ _ => true | _ => false end.

Definition is_provider_not_supported (ev : event) : bool :=
  match ev with ProviderNotSupported _ => true | _ => false end.

(** A world at the start of a request: a session, nothing done yet. *)
Definition fresh (s : gmap string pyval) : world := mk_world s [] 0.

(** The same surroundings at another time of day. *)
Definition at_time (e : env) (t : Z) : env :=
  mk_env (request e) t (entropy e) (urlfetch_fetch e) (oauth1_request e)
         (users_create_login_url e) (users_get_current_user e) (etree_fromstring e).

(** The class as it is written: CSRF protection off, one hour of token
    life, no callback URL and an all-[None] consumer until the host
    overrides them. *)
Definition SimpleAuthHandler : handler :=
  mk_handler base_PROVIDERS base_TOKEN_RESPONSE_PARSERS
             false "oauth2_state" 3600
             (fun _ => PyNone)
             (fun _ => [PyNone; PyNone; PyNone]).

(* ===================================================================== *)
(** ** Definitions used by the proofs *)
(* ===================================================================== *)

(** *** Exhaustive checks over bytes *)

Definition all_bytes : list ascii := map ascii_of_nat (seq 0 256).

Definition all_sextets : list N := map N.of_nat (seq 0 64).

(** A character of the alphabet is neither skipped nor padding, its value
    is its index, and it is a character the decoder reads. *)
Definition is_b64_char (c : ascii) : bool :=
  Ascii.eqb c Base64.PAD || bool_decide (is_Some (Base64.table_a2b c)).

Definition alphabet_ok (v : N) : bool :=
  negb (Base64.skipped (Base64.table_b2a v))
  && negb (Ascii.eqb (Base64.table_b2a v) Base64.PAD)
  && bool_decide (Base64.table_a2b (Base64.table_b2a v) = Some v)
  && is_b64_char (Base64.table_b2a v).

(** The arithmetic of the decoder on the four characters of one group:
    what it emits and what it carries over after the second, the third and
    the fourth character. *)
Definition group_ok2 (a b : ascii) : bool :=
  let lc := N.lor (N.shiftl (N.lor (N.shiftl 0 6) (Base64.sextet1 a)) 6)
                  (Base64.sextet2 a b) in
  (Base64.sextet2 a b <? 64)%N
  && Ascii.eqb (Str.chr (N.land (N.shiftr lc 4) 255)) a
  && (N.land lc (N.shiftl 1 4 - 1) =? N.shiftr (Str.ord b) 4)%N.

Definition group_ok3 (b c : ascii) : bool :=
  let lc := N.lor (N.shiftl (N.shiftr (Str.ord b) 4) 6) (Base64.sextet3 b c) in
  (Base64.sextet3 b c <? 64)%N
  && Ascii.eqb (Str.chr (N.land (N.shiftr lc 2) 255)) b
  && (N.land lc (N.shiftl 1 2 - 1) =? N.shiftr (Str.ord c) 6)%N.

Definition group_ok4 (c : ascii) : bool :=
  let lc := N.lor (N.shiftl (N.shiftr (Str.ord c) 6) 6) (Base64.sextet4 c) in
  (Base64.sextet1 c <? 64)%N && (Base64.sextet4 c <? 64)%N
  && Ascii.eqb (Str.chr (N.land (N.shiftr lc 0) 255)) c
  && (N.land lc (N.shiftl 1 0 - 1) =? 0)%N.

(** A padded last group of one byte decodes to that byte. *)
Definition tail1_ok (a : ascii) : bool :=
  bool_decide
    (Base64.a2b_loop [Base64.table_b2a (Base64.sextet1 a);
                      Base64.table_b2a (Base64.sextet2_last a);
                      Base64.PAD; Base64.PAD] 0 0 0
     = ([a], 0%N)).

(** The third character of a group of two bytes completes the second
    byte. *)
Definition tail2_ok (b : ascii) : bool :=
  let lc := N.lor (N.shiftl (N.shiftr (Str.ord b) 4) 6) (Base64.sextet3_last b) in
  (Base64.sextet3_last b <? 64)%N
  && Ascii.eqb (Str.chr (N.land (N.shiftr lc 2) 255)) b.

(** The two translations of the URL-safe alphabet, character by
    character. *)
Definition to_urlsafe (c : ascii) : ascii :=
  if Ascii.eqb c "+" then "-"%char else if Ascii.eqb c "/" then "_"%char else c.

Definition from_urlsafe (c : ascii) : ascii :=
  if Ascii.eqb c "-" then "+"%char else if Ascii.eqb c "_" then "/"%char else c.

Definition urlsafe_ok (c : ascii) : bool :=
  implb (is_b64_char c)
        (Ascii.eqb (from_urlsafe (to_urlsafe c)) c && (Str.ord (to_urlsafe c) <? 128)%N).

(** *** Decimal text *)

Fixpoint all_digits (s : string) : bool :=
  match s with
  | EmptyString => true
  | String c r => Str.is_digit c && all_digits r
  end.

(** A digit is not white space, not a sign and not the delimiter. *)
Definition digit_plain (c : ascii) : bool :=
  implb (Str.is_digit c)
        (negb (Str.is_space c) && negb (Ascii.eqb c "-") && negb (Ascii.eqb c "+")
         && negb (Ascii.eqb c OAUTH2_CSRF_DELIMITER)).

(** *** Relations that handler code keeps *)

(** A relation between the world before and after a piece of handler code
    that holds across every step that only returns, raises or emits an
    event. *)
Class Stable (R : world -> world -> Prop) : Prop := {
  stable_refl : forall w, R w w;
  stable_trans : forall a b c, R a b -> R b c -> R a c;
  stable_emit : forall ev w, R w (snd (emit ev w))
}.

Definition keeps (R : world -> world -> Prop) {A : Type} (m : M A) : Prop :=
  forall w, R w (snd (m w)).

(** The session is left as it is. *)
Definition same_session (w w' : world) : Prop := session w' = session w.

(** Events are only ever added to the trace. *)
Definition trace_grows (w w' : world) : Prop := exists tail, trace w' = trace w ++ tail.

(** The events a call added to the trace. *)
Definition added (w w' : world) : list event := drop (length (trace w)) (trace w').

Definition redirects (evs : list event) : list string :=
  omap (fun ev => match ev with Redirect uri => Some uri | _ => None end) evs.

Definition posts (evs : list event) : list (string * string) :=
  omap (fun ev => match ev with
                  | UrlFetch url (Some payload) "POST" => Some (url, payload)
                  | _ => None
                  end) evs.

(** The three ways in which a dispatcher hands a request back to the
    host: the entry into [_on_signin], [_auth_error] or
    [_provider_not_supported]. *)
Definition is_signin (ev : event) : bool :=
  match ev with OnSignin _ _ _ => true | _ => false end.

Definition is_outcome (ev : event) : bool :=
  is_signin ev || is_auth_error ev || is_provider_not_supported ev.

(** The events up to the point where a host callback is entered: what the
    dispatcher and the flow have done themselves.  What follows that point
    is done by the callback. *)
Fixpoint before_host_callback (evs : list event) : list event :=
  match evs with
  | [] => []
  | ev :: rest => if is_outcome ev then [] else ev :: before_host_callback rest
  end.

(** CSRF protection is off, or the state of the request validates against
    the token of the session. *)
Definition csrf_passes (h : handler) (e : env) (w : world) : Prop :=
  OAUTH2_CSRF_STATE h = false
  \/ fst (_validate_csrf_token h e
            (default (PyStr "") (session w !! OAUTH2_CSRF_SESSION_PARAM h))
            (default "" (request e !! "state")) w) = Ok true.

(** *** Hosts and requests of the examples *)

Definition no_network : exn := mk_exn DownloadError "no network".

(** A request with the given parameters, in surroundings where no network
    call succeeds and nobody is logged in. *)
Definition quiet_env (query : list (string * string)) : env :=
  mk_env (list_to_map query) 0 (fun _ => 0)
         (fun _ _ _ => Raise no_network)
         (fun _ _ _ => Raise no_network)
         (fun _ _ => Raise no_network)
         None
         (fun _ => Raise no_network).

(** A host with key "k", secret "s", callback URL "https://host/cb", no
    scope, and CSRF protection as given. *)
Definition scenario_handler (csrf : bool) : handler :=
  mk_handler base_PROVIDERS base_TOKEN_RESPONSE_PARSERS csrf "oauth2_state" 3600
             (fun _ => PyStr "https://host/cb")
             (fun _ => [PyStr "k"; PyStr "s"; PyNone]).

Definition json_quote (s : string) : string := String Json.DQ (s ++ String Json.DQ "").

(** The bodies [{"access_token":"tok1"}] and [{"id":"1"}]. *)
Definition token_response : string :=
  "{" ++ json_quote "access_token" ++ ":" ++ json_quote "tok1" ++ "}".

Definition profile_response : string :=
  "{" ++ json_quote "id" ++ ":" ++ json_quote "1" ++ "}".

(** A request to a host whose provider answers a POST with
    [token_response] and a GET with [profile_response]. *)
Definition scenario_env (query : list (string * string)) : env :=
  mk_env (list_to_map query) 0 (fun _ => 0)
         (fun _ _ method =>
            if String.eqb method "POST" then Ok token_response else Ok profile_response)
         (fun _ _ _ => Raise no_network)
         (fun _ _ => Raise no_network)
         None
         (fun _ => Raise no_network).

Definition google_token_url : string := "https://accounts.google.com/o/oauth2/token".

(** An OAuth1 host with consumer ("k", "s") that has not overridden
    [_callback_uri_for], and a provider that hands out the request token
    (rt1, rts1). *)
Definition oauth1_handler (key secret : pyval) : handler :=
  mk_handler base_PROVIDERS base_TOKEN_RESPONSE_PARSERS false "oauth2_state" 3600
             (fun _ => PyNone)
             (fun _ => [key; secret]).

Definition oauth1_env : env :=
  mk_env ∅ 0 (fun _ => 0)
         (fun _ _ _ => Raise no_network)
         (fun _ _ _ => Ok (200%Z, "oauth_token=rt1&oauth_token_secret=rts1"))
         (fun _ _ => Raise no_network)
         None
         (fun _ => Raise no_network).

(** An OAuth1 host for which nothing is configured: a provider "bare"
    without URLs, a decoder name that is no method, no consumer, no
    callback URL. *)
Definition bare_handler : handler :=
  mk_handler {[ "bare" := cfg_oauth1 ∅ "" ]} {[ "bare" := "_no_such_parser" ]}
             false "oauth2_state" 3600
             (fun _ => PyNone)
             (fun _ => [PyNone; PyNone]).

(** *** The statements that do not hold, as they were made *)

(** "Whenever the error parameter is present in the query string the
    OAuth2 callback fails and never performs the token exchange." *)
Definition error_param_always_stops : Prop :=
  forall h e provider url w,
    is_Some (request e !! "error") ->
    (exists ex w', _oauth2_callback h e provider url w = (Raise ex, w'))
    /\ posts (added w (snd (_oauth2_callback h e provider url w))) = [].

(** "Init redirects to a URL that contains
    client_id=k&redirect_uri=https%3A%2F%2Fhost%2Fcb&response_type=code, and
    the callback posts the body
    grant_type=authorization_code&code=abc123&client_id=k&client_secret=s&redirect_uri=https%3A%2F%2Fhost%2Fcb." *)
Definition claimed_query : string :=
  "client_id=k&redirect_uri=https%3A%2F%2Fhost%2Fcb&response_type=code".
Definition claimed_body : string :=
  "grant_type=authorization_code&code=abc123&client_id=k&client_secret=s&redirect_uri=https%3A%2F%2Fhost%2Fcb".

Definition scenario_redirects : list string :=
  redirects (trace (snd (_simple_auth (scenario_handler false) (scenario_env [])
                                      "google" (fresh ∅)))).

Definition scenario_posts : list (string * string) :=
  posts (trace (snd (_auth_callback (scenario_handler false)
                                    (scenario_env [("code", "abc123")])
                                    "google" (fresh ∅)))).

Definition scenario_as_claimed : Prop :=
  (exists uri, scenario_redirects = [uri] /\ Str.contains claimed_query uri = true)
  /\ scenario_posts = [(google_token_url, claimed_body)].


(* ===================================================================== *)
(** ** Definitions used by the further properties *)
(* ===================================================================== *)


(** *** Relations that are closed under sequencing *)

(** A relation between the worlds before and after that holds for code
    that does nothing and for one piece of code run after another.  Which
    events and which session operations it admits is said where it is
    used. *)
Class Closed (R : world -> world -> Prop) : Prop := {
  closed_refl : forall w, R w w;
  closed_trans : forall a b c, R a b -> R b c -> R a c
}.

(** The world is as it was. *)
Definition same_world (w w' : world) : Prop := w' = w.

(** Every event that was added is one that [P] admits. *)
Definition adds_only (P : event -> bool) (w w' : world) : Prop :=
  exists tail, trace w' = trace w ++ tail /\ forallb P tail = true.

(** The session is as it was, or as it was without the entry at [key]. *)
Definition session_popped (key : string) (w w' : world) : Prop :=
  session w' = session w \/ session w' = delete key (session w).

(** The session is as it was, or as it was with a new entry at [key]. *)
Definition session_put (key : string) (w w' : world) : Prop :=
  session w' = session w \/ exists v, session w' = <[key := v]> (session w).

(** *** Where the byte-string model of text is exact *)

(** Every value of the request is ASCII text.  For such a request it makes
    no difference that the host hands the values out as unicode text:
    [str] and [urlencode] take them, and an exception made from one has a
    message that [str] can return. *)
Definition ascii_request (e : env) : bool :=
  forallb (fun kv => Str.is_ascii (snd kv)) (map_to_list (request e)).

(** The state token in the session, if there is one and it is text, is
    ASCII text. *)
Definition ascii_state (h : handler) (w : world) : bool :=
  match session w !! OAUTH2_CSRF_SESSION_PARAM h with
  | Some (PyStr s) => Str.is_ascii s
  | _ => true
  end.

(** The values of which [Py.str] is exactly Python's [str]: [None],
    booleans, integers and ASCII text. *)
Definition str_is_exact (v : pyval) : bool :=
  match v with
  | PyNone | PyBool _ | PyInt _ => true
  | PyStr s => Str.is_ascii s
  | _ => false
  end.

(** A URL template that ends in its one replacement field [{0}] and has no
    other brace, as the templates of the registry are. *)
Definition is_template (prefix : string) : bool :=
  negb (Str.mem "{" prefix) && negb (Str.mem "}" prefix).

(** *** Kinds of events *)

(** What a callback flow does on its own: log lines and network
    requests. *)
Definition is_quiet (ev : event) : bool :=
  match ev with
  | Log _ _ | UrlFetch _ _ _ | OAuth1Request _ _ _ => true
  | _ => false
  end.

(** The flow a dispatcher selects for a registry entry. *)
Definition init_flow (h : handler) (e : env) (provider : string) (cfg : provider_cfg)
  : M unit :=
  match cfg with
  | cfg_oauth2 auth_url _ => _oauth2_init h e provider auth_url
  | cfg_oauth1 auth_urls _ => _oauth1_init h e provider auth_urls
  | cfg_openid => _openid_init h e provider PyNone
  end.

Definition callback_flow (h : handler) (e : env) (provider : string) (cfg : provider_cfg)
  : M (pyval * pyval) :=
  match cfg with
  | cfg_oauth2 _ access_token_url => _oauth2_callback h e provider access_token_url
  | cfg_oauth1 _ access_token_url => _oauth1_callback h e provider access_token_url
  | cfg_openid => _openid_callback e provider PyNone
  end.

(** How an init flow for [provider] ends, said of the events [tail] it
    added: after log lines and network requests it has redirected the user
    or called [_provider_not_supported], which redirects to [/]; or it has
    raised. *)
Definition init_flow_post (provider : string) (r : result unit) (tail : list event) : Prop :=
  exists quiet,
    forallb is_quiet quiet = true
    /\ match r with
       | Ok _ =>
           (exists uri, tail = quiet ++ [Redirect uri])
           \/ tail = quiet ++ [ProviderNotSupported provider; Redirect "/"]
       | Raise _ => tail = quiet
       end.

Definition ends_as_init (provider : string) (m : M unit) : Prop :=
  forall w, exists tail,
    trace (snd (m w)) = trace w ++ tail /\ init_flow_post provider (fst (m w)) tail.

(** *** OAuth 2.0 *)

(** The parameters [_oauth2_init] sends, in the order in which [urlencode]
    finds them in the dict [params]: [state] is there when CSRF protection
    is on, [scope] when the host asks for one. *)
Definition oauth2_init_params (key callback_url scope : pyval) (state : option string)
  : list (string * pyval) :=
  (if Py.truthy scope then [("scope", scope)] else [])
  ++ match state with Some s => [("state", PyStr s)] | None => [] end
  ++ [("redirect_uri", callback_url); ("response_type", PyStr "code"); ("client_id", key)].

(** The query string [urlencode] makes of a dict with these items. *)
Definition query_string (items : list (string * pyval)) : string :=
  Str.join "&"
    (map (fun kv => (Urllib.quote_plus (fst kv) ++ "="
                     ++ Urllib.quote_plus (Py.str (snd kv)))%string) items).

(** The body [_oauth2_callback] posts to the token endpoint: the five
    parameters of the payload in the order in which [urlencode] finds them
    in the dict. *)
Definition token_request_body (code client_id client_secret callback_url : pyval) : string :=
  query_string [("client_secret", client_secret);
                ("code", code);
                ("grant_type", PyStr "authorization_code");
                ("client_id", client_id);
                ("redirect_uri", callback_url)].

(** The last part of [_oauth2_callback], from the POST to the token
    endpoint on. *)
Definition token_exchange (h : handler) (e : env) (provider access_token_url : string)
           (code client_id client_secret : pyval) : M (pyval * pyval) :=
  let payload :=
    Dict.of_list [("code", code);
                  ("client_id", client_id);
                  ("client_secret", client_secret);
                  ("redirect_uri", _callback_uri_for h provider);
                  ("grant_type", PyStr "authorization_code")] in
  bind (urlfetch_post e access_token_url (Urllib.urlencode payload)) (fun content =>
  bind (getattr_parser_strict h provider) (fun _parser =>
  bind (getattr_fetcher provider) (fun _fetcher =>
  bind (call_parser _parser content) (fun auth_info =>
  bind (call_fetcher e _fetcher auth_info client_id client_secret) (fun user_data =>
  ret (user_data, auth_info)))))).

(** The token that [_generate_csrf_token] makes at time 0 from a random
    source that always draws the first character of the pool: the base64
    text of thirty exclamation marks, a colon and [0]. *)
Definition scenario_state : string := "ISEhISEhISEhISEhISEhISEhISEhISEhISEhISEhOjA=".

(** *** OAuth 1.0 *)

(** How a call of [_oauth1_init] from the world [w] can end.  If it
    returns, the consumer was a key and a secret, the provider has a decoder
    and a request-token URL, the one network request was the signed GET of
    that URL by the client of the consumer, the provider answered it with
    status 200, and what is in the session at ['req_token'] is what the
    decoder makes of the body of that answer, a dict whose [oauth_token] is
    not empty; the last thing done was the one redirect.  If it raises, the
    session is as it was and nobody was redirected. *)
Definition oauth1_init_post (h : handler) (e : env) (provider : string)
           (auth_urls : gmap string string) (w : world) (r : result unit) (w' : world)
  : Prop :=
  match r with
  | Ok _ =>
      exists key secret name url content items before uri,
        _get_consumer_info_for h provider = [key; secret]
        /\ TOKEN_RESPONSE_PARSERS h !! provider = Some name
        /\ auth_urls !! "request" = Some url
        /\ oauth1_request e (mk_client key secret None) url "GET" = Ok (200%Z, content)
        /\ (forall w0, call_parser (getattr_parser name) content w0 = (Ok (PyDict items), w0))
        /\ Py.truthy (default PyNone (Py.assoc "oauth_token" items)) = true
        /\ session w' = <["req_token" := PyDict items]> (session w)
        /\ added w w' = before ++ [Redirect uri]
        /\ redirects before = []
        /\ filter is_network (added w w')
           = [OAuth1Request (mk_client key secret None) url "GET"]
  | Raise _ => session w' = session w /\ redirects (added w w') = []
  end.

(** What [_validate_csrf_token] asks of its two arguments, said without
    the method: the expected token is the string that was received, that
    string is ASCII and decodes from URL-safe base64 to a key, the
    delimiter and a text without delimiter; the key is not empty, the text
    reads as an integer, and that time stamp is at most
    [OAUTH2_CSRF_TOKEN_TIMEOUT] seconds before now. *)
Definition csrf_accepts (h : handler) (e : env) (expected : pyval) (actual : string)
  : Prop :=
  expected = PyStr actual
  /\ Str.is_ascii actual = true
  /\ exists token_key time_text token_time,
       Base64.urlsafe_b64decode actual
       = Some (token_key ++ String OAUTH2_CSRF_DELIMITER time_text)%string
       /\ Str.mem OAUTH2_CSRF_DELIMITER time_text = false
       /\ token_key <> ""%string
       /\ Str.to_long time_text = Some token_time
       /\ (time_time e - token_time <= OAUTH2_CSRF_TOKEN_TIMEOUT h)%Z.

(** A provider that hands out a request token without its secret. *)
Definition careless_env (query : list (string * string)) : env :=
  mk_env (list_to_map query) 0 (fun _ => 0)
         (fun _ _ _ => Raise no_network)
         (fun _ _ _ => Ok (200%Z, "oauth_token=rt1"))
         (fun _ _ => Raise no_network)
         None
         (fun _ => Raise no_network).

(** *** OpenID *)

(** What the dispatcher does when a callback flow has raised [msg]. *)
Definition auth_error_events (provider msg : string) : list event :=
  [Log ERROR msg; AuthError provider msg; Redirect "/"].

(** Surroundings in which a user is logged in with OpenID. *)
Definition openid_user : user :=
  mk_user (PyStr "https://id.example/ann") (PyStr "ann") (PyStr "ann@example.org")
          (PyStr "id.example").

Definition openid_env (query : list (string * string)) (current : option user) : env :=
  mk_env (list_to_map query) 0 (fun _ => 0)
         (fun _ _ _ => Raise no_network)
         (fun _ _ _ => Raise no_network)
         (fun dest_url federated_identity =>
            Ok ("/_ah/login?continue=" ++ Py.str dest_url)%string)
         current
         (fun _ => Raise no_network).

(** *** The CSRF state token *)

(** The characters of a URL-safe base64 text: letters, digits, [-], [_]
    and the padding [=]. *)
Definition url_safe_char (c : ascii) : bool :=
  Str.is_alpha c || Str.is_digit c
  || Ascii.eqb c "-" || Ascii.eqb c "_" || Ascii.eqb c "=".

Definition url_safe_ok (c : ascii) : bool :=
  implb (is_b64_char c) (url_safe_char (to_urlsafe c)).

(** *** User profiles *)

(** The key under which a profile method looks for the token in the auth
    info: the OAuth 1.0 providers have an [oauth_token], the OAuth 2.0
    providers an [access_token]. *)
Definition token_key_of (provider : string) : string :=
  if bool_decide (provider ∈ ["linkedin"; "twitter"]) then "oauth_token" else "access_token".


Definition linkedin_profile_url : string :=
  "http://api.linkedin.com/v1/people/~:(id,first-name,last-name,picture-url,public-profile-url,headline)".

(** A provider that answers every signed request with [content], which
    lxml reads as a document with the children [person]. *)
Definition profile_env (content : string) (person : list (string * pyval)) : env :=
  mk_env ∅ 0 (fun _ => 0)
         (fun _ _ _ => Raise no_network)
         (fun _ _ _ => Ok (200%Z, content))
         (fun _ _ => Raise no_network)
         None
         (fun _ => Ok person).

(* ===================================================================== *)
(** ** Properties *)
(* ===================================================================== *)

(** *** The library models on known values *)

(** [hash('a')] on a 64-bit CPython 2.7. *)
Example string_hash_a : Dict.string_hash "a" = 12416037344%Z.
Proof. reflexivity. Qed.

(** Three keys of a dict display land in slots 5, 6 and 3 of the table, and
    are found again in the order 3, 5, 6. *)
Example dict_order :
  map fst (Dict.items (Dict.of_list [("response_type", 1); ("client_id", 2);
                                     ("redirect_uri", 3)]))
  = ["redirect_uri"; "response_type"; "client_id"].
Proof. reflexivity. Qed.

Example quote_plus_url : Urllib.quote_plus "https://host/cb" = "https%3A%2F%2Fhost%2Fcb".
Proof. reflexivity. Qed.

Example quote_plus_space : Urllib.quote_plus "a b&c" = "a+b%26c".
Proof. reflexivity. Qed.

Example parse_qsl_token :
  Urllib.parse_qsl "oauth_token=rt1&oauth_token_secret=rts1&blank=&a%20b=c+d"
  = [("oauth_token", "rt1"); ("oauth_token_secret", "rts1"); ("a b", "c d")].
Proof. reflexivity. Qed.

Example b64encode_padding :
  Base64.urlsafe_b64encode "A:1" = "QTox"
  /\ Base64.urlsafe_b64encode "A:" = "QTo="
  /\ Base64.urlsafe_b64encode "A" = "QQ=="
  /\ Base64.urlsafe_b64encode "ab?>~~" = "YWI_Pn5-".
Proof. repeat split; reflexivity. Qed.

(** The decoder passes over characters outside the alphabet and insists on
    padding. *)
Example b64decode_lenient :
  Base64.urlsafe_b64decode "QT ox" = Some "A:1"
  /\ Base64.urlsafe_b64decode "QTo" = None
  /\ Base64.urlsafe_b64decode "" = Some "".
Proof. repeat split; reflexivity. Qed.

Example to_long_forms :
  Str.to_long " -12L " = Some (-12)%Z /\ Str.to_long "+7" = Some 7%Z
  /\ Str.to_long "" = None /\ Str.to_long "1 2" = None.
Proof. repeat split; reflexivity. Qed.

(** The class attributes as they are written. *)
Example class_defaults :
  OAUTH2_CSRF_STATE SimpleAuthHandler = false
  /\ OAUTH2_CSRF_SESSION_PARAM SimpleAuthHandler = "oauth2_state"
  /\ OAUTH2_CSRF_TOKEN_TIMEOUT SimpleAuthHandler = 3600%Z.
Proof. repeat split; reflexivity. Qed.

Example json_loads_token :
  Json.loads token_response = Some (PyDict [("access_token", PyStr "tok1")]).
Proof. reflexivity. Qed.

(** *** Bytes and six-bit values can be checked one by one *)

Lemma all_bytes_complete (a : ascii) : In a all_bytes.
Proof.
  unfold all_bytes. rewrite <- (ascii_nat_embedding a).
  apply in_map, in_seq. pose proof (nat_ascii_bounded a). lia.
Qed.

Lemma forall_byte (P : ascii -> bool) :
  forallb P all_bytes = true -> forall a, P a = true.
Proof.
  intros H a. rewrite forallb_forall in H. apply H, all_bytes_complete.
Qed.

Lemma forall_byte2 (P : ascii -> ascii -> bool) :
  forallb (fun a => forallb (P a) all_bytes) all_bytes = true ->
  forall a b, P a b = true.
Proof.
  intros H a b. apply forall_byte. apply (forall_byte _ H a).
Qed.

Lemma forall_sextet (P : N -> bool) :
  forallb P all_sextets = true -> forall v, (v < 64)%N -> P v = true.
Proof.
  intros H v Hv. rewrite forallb_forall in H. apply H.
  unfold all_sextets. rewrite <- (N2Nat.id v). apply in_map, in_seq. lia.
Qed.

Lemma list_ind3 {A : Type} (P : list A -> Prop) :
  P [] -> (forall a, P [a]) -> (forall a b, P [a; b]) ->
  (forall a b c l, P l -> P (a :: b :: c :: l)) ->
  forall l, P l.
Proof.
  intros H0 H1 H2 H3.
  fix IH 1. intros [|a [|b [|c l]]]; [exact H0 | apply H1 | apply H2 | apply H3, IH].
Qed.

(** *** base64: decoding an encoding *)

Lemma alphabet_ok_all v : (v < 64)%N -> alphabet_ok v = true.
Proof. apply forall_sextet. vm_compute. reflexivity. Qed.

Lemma table_b2a_class v :
  (v < 64)%N ->
  Base64.skipped (Base64.table_b2a v) = false
  /\ Ascii.eqb (Base64.table_b2a v) Base64.PAD = false
  /\ Base64.table_a2b (Base64.table_b2a v) = Some v.
Proof.
  intros Hv. pose proof (alphabet_ok_all v Hv) as H. unfold alphabet_ok in H.
  apply andb_true_iff in H as [H _].
  apply andb_true_iff in H as [H H3]. apply andb_true_iff in H as [H1 H2].
  apply negb_true_iff in H1, H2. apply bool_decide_eq_true in H3. auto.
Qed.

Lemma table_b2a_is_b64_char v : is_b64_char (Base64.table_b2a v) = true.
Proof.
  destruct (N.ltb_spec v 64) as [Hv|Hv].
  - pose proof (alphabet_ok_all v Hv) as H. unfold alphabet_ok in H.
    apply andb_true_iff in H as [_ H]. exact H.
  - unfold Base64.table_b2a. rewrite nth_overflow; [reflexivity|].
    change (length Base64.alphabet) with 64%nat. lia.
Qed.

Lemma group_ok2_all a b : group_ok2 a b = true.
Proof. revert a b. apply forall_byte2. vm_compute. reflexivity. Qed.

Lemma group_ok3_all b c : group_ok3 b c = true.
Proof. revert b c. apply forall_byte2. vm_compute. reflexivity. Qed.

Lemma group_ok4_all c : group_ok4 c = true.
Proof. revert c. apply forall_byte. vm_compute. reflexivity. Qed.

Lemma tail1_ok_all a : tail1_ok a = true.
Proof. revert a. apply forall_byte. vm_compute. reflexivity. Qed.

Lemma tail2_ok_all b : tail2_ok b = true.
Proof. revert b. apply forall_byte. vm_compute. reflexivity. Qed.

Lemma urlsafe_ok_all c : urlsafe_ok c = true.
Proof. revert c. apply forall_byte. vm_compute. reflexivity. Qed.

(** A character of the alphabet that leaves fewer than eight bits. *)
Lemma a2b_loop_keep ch rest q lc lb v q' lb' :
  (v < 64)%N -> ch = Base64.table_b2a v ->
  N.land (q + 1) 3 = q' -> (lb + 6 = lb')%N -> (lb' < 8)%N ->
  Base64.a2b_loop (ch :: rest) q lc lb
  = Base64.a2b_loop rest q' (N.lor (N.shiftl lc 6) v) lb'.
Proof.
  intros Hv -> Hq Hlb Hlt. destruct (table_b2a_class v Hv) as (H1 & H2 & H3).
  cbn [Base64.a2b_loop]. rewrite H1, H2, H3, Hq, Hlb.
  destruct (N.leb_spec 8 lb'); [lia | reflexivity].
Qed.

(** A character of the alphabet that completes a byte. *)
Lemma a2b_loop_emit ch rest q lc lb v q' lb' :
  (v < 64)%N -> ch = Base64.table_b2a v ->
  N.land (q + 1) 3 = q' -> (lb + 6 = lb' + 8)%N ->
  Base64.a2b_loop (ch :: rest) q lc lb =
    let '(out, fin) :=
      Base64.a2b_loop rest q'
                      (N.land (N.lor (N.shiftl lc 6) v) (N.shiftl 1 lb' - 1)) lb' in
    (Str.chr (N.land (N.shiftr (N.lor (N.shiftl lc 6) v) lb') 255) :: out, fin).
Proof.
  intros Hv -> Hq Hlb. destruct (table_b2a_class v Hv) as (H1 & H2 & H3).
  cbn [Base64.a2b_loop]. rewrite H1, H2, H3, Hq.
  replace (lb + 6 - 8)%N with lb' by lia.
  destruct (N.leb_spec 8 (lb + 6)); [reflexivity | lia].
Qed.

(** Four characters that encode three bytes decode to these bytes and
    leave the decoder where it started. *)
Lemma a2b_loop_group a b c rest :
  Base64.a2b_loop (Base64.table_b2a (Base64.sextet1 a)
                   :: Base64.table_b2a (Base64.sextet2 a b)
                   :: Base64.table_b2a (Base64.sextet3 b c)
                   :: Base64.table_b2a (Base64.sextet4 c) :: rest) 0 0 0
  = let '(out, fin) := Base64.a2b_loop rest 0 0 0 in (a :: b :: c :: out, fin).
Proof.
  pose proof (group_ok4_all a) as E1. pose proof (group_ok2_all a b) as E2.
  pose proof (group_ok3_all b c) as E3. pose proof (group_ok4_all c) as E4.
  unfold group_ok2 in E2. unfold group_ok3 in E3. unfold group_ok4 in E4, E1.
  cbv zeta in E1, E2, E3, E4.
  apply andb_true_iff in E1 as [E1 _]. apply andb_true_iff in E1 as [E1 _].
  apply andb_true_iff in E1 as [E1 _].
  apply andb_true_iff in E2 as [E2 E2c]. apply andb_true_iff in E2 as [E2a E2b].
  apply andb_true_iff in E3 as [E3 E3c]. apply andb_true_iff in E3 as [E3a E3b].
  apply andb_true_iff in E4 as [E4 E4c]. apply andb_true_iff in E4 as [E4 E4b].
  apply andb_true_iff in E4 as [_ E4a].
  apply N.ltb_lt in E1, E2a, E3a, E4a.
  apply Ascii.eqb_eq in E2b, E3b, E4b. apply N.eqb_eq in E2c, E3c, E4c.
  rewrite (a2b_loop_keep _ _ 0 0 0 (Base64.sextet1 a) 1 6)
    by (first [assumption | reflexivity | lia]).
  rewrite (a2b_loop_emit _ _ 1 _ 6 (Base64.sextet2 a b) 2 4)
    by (first [assumption | reflexivity | lia]).
  rewrite E2b, E2c.
  rewrite (a2b_loop_emit _ _ 2 _ 4 (Base64.sextet3 b c) 3 2)
    by (first [assumption | reflexivity | lia]).
  rewrite E3b, E3c.
  rewrite (a2b_loop_emit _ _ 3 _ 2 (Base64.sextet4 c) 0 0)
    by (first [assumption | reflexivity | lia]).
  rewrite E4b, E4c.
  destruct (Base64.a2b_loop rest 0 0 0). reflexivity.
Qed.

(** Three characters and a pad that encode two bytes decode to them: at
    the pad the decoder is in the fourth position of a quad and stops. *)
Lemma a2b_loop_tail2 a b :
  Base64.a2b_loop [Base64.table_b2a (Base64.sextet1 a);
                   Base64.table_b2a (Base64.sextet2 a b);
                   Base64.table_b2a (Base64.sextet3_last b);
                   Base64.PAD] 0 0 0
  = ([a; b], 0%N).
Proof.
  pose proof (group_ok4_all a) as E1. pose proof (group_ok2_all a b) as E2.
  pose proof (tail2_ok_all b) as E3.
  unfold group_ok2 in E2. unfold tail2_ok in E3. unfold group_ok4 in E1.
  cbv zeta in E1, E2, E3.
  apply andb_true_iff in E1 as [E1 _]. apply andb_true_iff in E1 as [E1 _].
  apply andb_true_iff in E1 as [E1 _].
  apply andb_true_iff in E2 as [E2 E2c]. apply andb_true_iff in E2 as [E2a E2b].
  apply andb_true_iff in E3 as [E3a E3b].
  apply N.ltb_lt in E1, E2a, E3a.
  apply Ascii.eqb_eq in E2b, E3b. apply N.eqb_eq in E2c.
  rewrite (a2b_loop_keep _ _ 0 0 0 (Base64.sextet1 a) 1 6)
    by (first [assumption | reflexivity | lia]).
  rewrite (a2b_loop_emit _ _ 1 _ 6 (Base64.sextet2 a b) 2 4)
    by (first [assumption | reflexivity | lia]).
  rewrite E2b, E2c.
  rewrite (a2b_loop_emit _ _ 2 _ 4 (Base64.sextet3_last b) 3 2)
    by (first [assumption | reflexivity | lia]).
  rewrite E3b. reflexivity.
Qed.

Lemma a2b_loop_b2a bs : Base64.a2b_loop (Base64.b2a bs) 0 0 0 = (bs, 0%N).
Proof.
  induction bs as [|a|a b|a b c l IH] using list_ind3.
  - reflexivity.
  - pose proof (tail1_ok_all a) as H. apply bool_decide_eq_true in H. exact H.
  - apply a2b_loop_tail2.
  - cbn [Base64.b2a]. rewrite a2b_loop_group, IH. reflexivity.
Qed.

Lemma a2b_b2a bs : Base64.a2b (Base64.b2a bs) = Some bs.
Proof. unfold Base64.a2b. rewrite a2b_loop_b2a. reflexivity. Qed.

Lemma b2a_chars bs : Forall (fun c => is_b64_char c = true) (Base64.b2a bs).
Proof.
  induction bs as [|a|a b|a b c l IH] using list_ind3; cbn [Base64.b2a];
    repeat constructor; auto using table_b2a_is_b64_char.
Qed.

Lemma translate_back_and_forth l :
  Forall (fun c => is_b64_char c = true) l ->
  Base64.translate "-" "_" "+" "/" (Base64.translate "+" "/" "-" "_" l) = l.
Proof.
  unfold Base64.translate. induction 1 as [|c l Hc _ IH]; [reflexivity|].
  cbn [map]. rewrite IH. f_equal.
  pose proof (urlsafe_ok_all c) as H. unfold urlsafe_ok in H. rewrite Hc in H.
  cbn [implb] in H. apply andb_true_iff in H as [H _]. apply Ascii.eqb_eq in H. exact H.
Qed.

(** [urlsafe_b64decode] undoes [urlsafe_b64encode]. *)
Lemma urlsafe_b64decode_encode s :
  Base64.urlsafe_b64decode (Base64.urlsafe_b64encode s) = Some s.
Proof.
  unfold Base64.urlsafe_b64decode, Base64.urlsafe_b64encode, Str.of_list, Str.to_list.
  rewrite list_ascii_of_string_of_list_ascii, translate_back_and_forth by apply b2a_chars.
  rewrite a2b_b2a. cbn [option_map]. f_equal. apply string_of_list_ascii_of_string.
Qed.

Lemma is_ascii_of_list l :
  Forall (fun c => (Str.ord c <? 128)%N = true) l -> Str.is_ascii (Str.of_list l) = true.
Proof.
  induction 1 as [|c l Hc _ IH]; [reflexivity|].
  cbn [Str.of_list string_of_list_ascii Str.is_ascii]. rewrite Hc. exact IH.
Qed.

(** An encoding is ASCII text. *)
Lemma urlsafe_b64encode_is_ascii s : Str.is_ascii (Base64.urlsafe_b64encode s) = true.
Proof.
  unfold Base64.urlsafe_b64encode. apply is_ascii_of_list.
  unfold Base64.translate. apply List.Forall_forall. intros x Hx.
  apply in_map_iff in Hx as (c & <- & Hin).
  pose proof (proj1 (List.Forall_forall _ _) (b2a_chars (Str.to_list s)) c Hin) as Hc.
  cbn beta in Hc.
  pose proof (urlsafe_ok_all c) as H. unfold urlsafe_ok in H. rewrite Hc in H.
  cbn [implb] in H. apply andb_true_iff in H as [_ H]. exact H.
Qed.

(** *** [long(str(n)) == n] *)

Lemma string_of_uint_digits d : all_digits (NilEmpty.string_of_uint d) = true.
Proof. induction d; cbn; auto. Qed.

Lemma digit_plain_all c : digit_plain c = true.
Proof. revert c. apply forall_byte. vm_compute. reflexivity. Qed.

Lemma digit_facts c :
  Str.is_digit c = true ->
  Str.is_space c = false /\ Ascii.eqb c "-" = false /\ Ascii.eqb c "+" = false
  /\ Ascii.eqb c OAUTH2_CSRF_DELIMITER = false.
Proof.
  intros Hc. pose proof (digit_plain_all c) as H. unfold digit_plain in H.
  rewrite Hc in H. cbn [implb] in H.
  apply andb_true_iff in H as [H H4]. apply andb_true_iff in H as [H H3].
  apply andb_true_iff in H as [H1 H2].
  apply negb_true_iff in H1, H2, H3, H4. auto.
Qed.

Lemma span_all_digits s : all_digits s = true -> Str.span_digits s = (s, EmptyString).
Proof.
  induction s as [|c r IH]; [reflexivity|]. cbn. intros H.
  apply andb_true_iff in H as [Hc Hr]. rewrite Hc, (IH Hr). reflexivity.
Qed.

Lemma lstrip_digits s : all_digits s = true -> Str.lstrip s = s.
Proof.
  destruct s as [|c r]; [reflexivity|]. cbn. intros H.
  apply andb_true_iff in H as [Hc _]. destruct (digit_facts c Hc) as (-> & _). reflexivity.
Qed.

Lemma split_sign_digits s : all_digits s = true -> Str.split_sign s = (false, s).
Proof.
  destruct s as [|c r]; [reflexivity|]. cbn. intros H.
  apply andb_true_iff in H as [Hc _]. destruct (digit_facts c Hc) as (_ & -> & -> & _).
  reflexivity.
Qed.

Lemma uint_of_string_of_uint d :
  d <> Decimal.Nil -> NilZero.uint_of_string (NilEmpty.string_of_uint d) = Some d.
Proof.
  intros Hd. pose proof (NilZero.usu d Hd) as H. destruct d; try exact H; congruence.
Qed.

Lemma to_long_digits d :
  d <> Decimal.Nil ->
  Str.to_long (NilEmpty.string_of_uint d) = Some (Z.of_uint d).
Proof.
  intros Hd. pose proof (string_of_uint_digits d) as Hds. unfold Str.to_long.
  rewrite (lstrip_digits _ Hds), (split_sign_digits _ Hds), (lstrip_digits _ Hds),
    (span_all_digits _ Hds).
  cbn [Str.drop_long_suffix Str.lstrip].
  rewrite (uint_of_string_of_uint d Hd). reflexivity.
Qed.

Lemma to_long_neg_digits d :
  d <> Decimal.Nil ->
  Str.to_long (String "-" (NilEmpty.string_of_uint d)) = Some (- Z.of_uint d)%Z.
Proof.
  intros Hd. pose proof (string_of_uint_digits d) as Hds. unfold Str.to_long.
  cbn [Str.lstrip]. change (Str.is_space "-") with false. cbn iota.
  cbn [Str.split_sign]. change (Ascii.eqb "-" "-") with true. cbn iota.
  rewrite (lstrip_digits _ Hds), (span_all_digits _ Hds).
  cbn [Str.drop_long_suffix Str.lstrip].
  rewrite (uint_of_string_of_uint d Hd). reflexivity.
Qed.

(** [str(n)] is a run of digits, after a minus sign when [n] is negative. *)
Lemma of_long_cases z :
  exists d, d <> Decimal.Nil /\
    ((Str.of_long z = NilEmpty.string_of_uint d /\ z = Z.of_uint d)
     \/ (Str.of_long z = String "-" (NilEmpty.string_of_uint d) /\ z = (- Z.of_uint d)%Z)).
Proof.
  pose proof (DecimalZ.of_to z) as Hz. unfold Str.of_long.
  destruct z as [|p|p]; cbn [Z.to_int] in *.
  - exists (Decimal.D0 Decimal.Nil). split; [discriminate|]. left. split; reflexivity.
  - exists (Pos.to_uint p). split; [apply Unsigned.to_uint_nonnil|]. left.
    cbn [Z.of_int] in Hz. split; [|congruence].
    cbn [NilZero.string_of_int]. unfold NilZero.string_of_uint.
    destruct (Pos.to_uint p) eqn:E; try reflexivity.
    exfalso. exact (Unsigned.to_uint_nonnil p E).
  - exists (Pos.to_uint p). split; [apply Unsigned.to_uint_nonnil|]. right.
    cbn [Z.of_int] in Hz. split; [|congruence].
    cbn [NilZero.string_of_int]. unfold NilZero.string_of_uint.
    destruct (Pos.to_uint p) eqn:E; try reflexivity.
    exfalso. exact (Unsigned.to_uint_nonnil p E).
Qed.

Lemma to_long_of_long z : Str.to_long (Str.of_long z) = Some z.
Proof.
  destruct (of_long_cases z) as (d & Hd & [[-> ->]|[-> ->]]).
  - apply to_long_digits, Hd.
  - apply to_long_neg_digits, Hd.
Qed.

Lemma mem_digits sep s :
  all_digits s = true -> Str.is_digit sep = false -> Str.mem sep s = false.
Proof.
  intros Hs Hsep. induction s as [|c r IH]; [reflexivity|]. cbn in *.
  apply andb_true_iff in Hs as [Hc Hr]. rewrite (IH Hr), orb_false_r.
  destruct (Ascii.eqb_spec sep c) as [->|]; congruence.
Qed.

Lemma of_long_no_delimiter z : Str.mem OAUTH2_CSRF_DELIMITER (Str.of_long z) = false.
Proof.
  destruct (of_long_cases z) as (d & Hd & [[-> _]|[-> _]]).
  - apply mem_digits; [apply string_of_uint_digits | reflexivity].
  - cbn [Str.mem]. rewrite mem_digits; [reflexivity | apply string_of_uint_digits | reflexivity].
Qed.

(** [rsplit] finds the separator that was put in front of a text without
    one. *)
Lemma rsplit1_append sep s t :
  Str.mem sep t = false ->
  Str.rsplit1 sep (s ++ String sep t) = Some (s, t).
Proof.
  intros Ht.
  assert (Hnone : Str.rsplit1 sep t = None).
  { induction t as [|c r IH]; [reflexivity|]. cbn in *.
    apply orb_false_iff in Ht as [Hc Hr]. rewrite (IH Hr).
    rewrite Ascii.eqb_sym, Hc. reflexivity. }
  induction s as [|c s IH]; simpl.
  - rewrite Hnone, Ascii.eqb_refl. reflexivity.
  - rewrite IH. reflexivity.
Qed.

(** *** The CSRF state token *)

Lemma of_list_length l : String.length (Str.of_list l) = length l.
Proof. induction l; cbn; auto. Qed.

(** The random source always delivers, and as many characters as were
    asked for. *)
Lemma generate_random_string_length e n pool w :
  exists secret,
    generate_random_string e n pool w
    = (Ok secret, mk_world (session w) (trace w) (rng_pos w + n))
    /\ String.length secret = n.
Proof.
  eexists. split; [reflexivity|].
  rewrite of_list_length, length_map, length_seq. reflexivity.
Qed.

(** The [try] block reads the time stamp back from a generated token. *)
Lemma csrf_token_time_generated secret z :
  secret <> EmptyString ->
  csrf_token_time
    (Base64.urlsafe_b64encode
       (Str.join (String OAUTH2_CSRF_DELIMITER EmptyString) [secret; Str.of_long z]))
  = Ok (Some z).
Proof.
  intros Hs. unfold csrf_token_time.
  rewrite urlsafe_b64encode_is_ascii, urlsafe_b64decode_encode. cbn [negb Str.join].
  change (secret ++ String OAUTH2_CSRF_DELIMITER "" ++ Str.of_long z)%string
    with (secret ++ String OAUTH2_CSRF_DELIMITER (Str.of_long z))%string.
  rewrite rsplit1_append by apply of_long_no_delimiter.
  rewrite to_long_of_long.
  destruct secret; [congruence | reflexivity].
Qed.

(** C3.  A token generated when the clock shows [t] validates against
    itself when the clock shows [t'] exactly if [t' - t] is at most
    [OAUTH2_CSRF_TOKEN_TIMEOUT]: [_generate_csrf_token] returns a token, and
    [_validate_csrf_token] with that token as both expected and actual
    returns [True] when [t' - t <= timeout] and [False] when
    [t' - t > timeout].  The clock is in whole seconds, as
    [long(time.time())] reads it. *)
Theorem csrf_token_valid_within_timeout h e e' w w' t t' :
  exists token w1,
    _generate_csrf_token (at_time e t) None w = (Ok token, w1)
    /\ fst (_validate_csrf_token h (at_time e' t') (PyStr token) token w')
       = Ok (t' - t <=? OAUTH2_CSRF_TOKEN_TIMEOUT h)%Z.
Proof.
  unfold _generate_csrf_token, bind, ret.
  destruct (generate_random_string_length (at_time e t) 30 ASCII_PRINTABLE w)
    as (secret & -> & Hlen).
  eexists _, _. split; [reflexivity|].
  assert (Hs : secret <> EmptyString) by (intros E; rewrite E in Hlen; discriminate).
  unfold _validate_csrf_token. rewrite String.eqb_refl. cbn [negb].
  cbn [time_time at_time].
  rewrite csrf_token_time_generated by exact Hs.
  unfold bind, ret, log, emit.
  rewrite Z.ltb_antisym.
  destruct (t' - t <=? OAUTH2_CSRF_TOKEN_TIMEOUT h)%Z; reflexivity.
Qed.

(** C4.  [_validate_csrf_token(expected, actual)] returns [False], and does
    nothing else, for any two strings that differ, whatever they decode
    to; so the decoding and the timeout check are reached only with equal
    strings: a call that does anything but return [False] has
    [expected = actual]. *)
Theorem validate_csrf_rejects_unequal h e w expected actual :
  (expected <> actual ->
   _validate_csrf_token h e (PyStr expected) actual w = (Ok false, w))
  /\ (_validate_csrf_token h e (PyStr expected) actual w <> (Ok false, w) ->
      expected = actual).
Proof.
  unfold _validate_csrf_token.
  destruct (String.eqb_spec expected actual) as [Heq|Hne]; cbn [negb].
  - split; [intros Hne; contradiction | intros _; exact Heq].
  - split; [reflexivity | intros H; exfalso; apply H; reflexivity].
Qed.

Lemma validate_csrf_rejects_unequal_witness :
  _validate_csrf_token (scenario_handler true) (quiet_env [])
                       (PyStr "QTox") "QTo=" (fresh ∅)
  = (Ok false, fresh ∅).
Proof.
  apply (proj1 (validate_csrf_rejects_unequal
                  (scenario_handler true) (quiet_env [])
                  (fresh ∅) "QTox" "QTo=")).
  discriminate.
Defined.

(** Two strings that differ and carry the same key and time stamp: the
    decoder passes over a line feed. *)
Example csrf_same_payload_different_text :
  csrf_token_time "QTox" = Ok (Some 1%Z)
  /\ csrf_token_time (String "010" "QTox") = Ok (Some 1%Z)
  /\ _validate_csrf_token (scenario_handler true) (at_time (quiet_env []) 1)
                          (PyStr "QTox") (String "010" "QTox") (fresh ∅)
     = (Ok false, fresh ∅)
  /\ _validate_csrf_token (scenario_handler true) (at_time (quiet_env []) 1)
                          (PyStr "QTox") "QTox" (fresh ∅)
     = (Ok true, fresh ∅).
Proof. repeat split; vm_compute; reflexivity. Qed.

Lemma validate_csrf_empty h e w actual :
  _validate_csrf_token h e (PyStr "") actual w = (Ok false, w).
Proof.
  unfold _validate_csrf_token.
  destruct (String.eqb_spec "" actual) as [<-|_]; reflexivity.
Qed.

(** C10.  [_validate_csrf_token('', actual)] returns [False] for every
    string [actual], the empty one included (the empty token decodes to
    the empty string, which has no delimiter to split at).  So with CSRF
    protection on and no token in the session, where [session.pop] gives
    the default [''], the OAuth2 callback raises whatever state the
    request carries, and nothing is fetched. *)
Theorem csrf_empty_token_never_validates h e provider url w :
  (forall actual w0, _validate_csrf_token h e (PyStr "") actual w0 = (Ok false, w0))
  /\ (OAUTH2_CSRF_STATE h = true ->
      session w !! OAUTH2_CSRF_SESSION_PARAM h = None ->
      exists ex w',
        _oauth2_callback h e provider url w = (Raise ex, w') /\ trace w' = trace w).
Proof.
  split; [intros; apply validate_csrf_empty|].
  intros Hon Hnone. unfold _oauth2_callback.
  unfold bind, unpack3, unpack_error, raise, ret.
  destruct (_get_consumer_info_for h provider) as [|a [|b [|c [|d l]]]]; cbn; eauto.
  destruct (Py.truthy (request_get e "error" PyNone)); [eauto|].
  rewrite Hon. unfold session_pop. rewrite Hnone. cbn [default].
  rewrite validate_csrf_empty. cbn. eauto.
Qed.

Lemma csrf_empty_token_never_validates_witness :
  exists ex w',
    _oauth2_callback (scenario_handler true)
                     (quiet_env [("code", "abc123"); ("state", "anything")])
                     "google" google_token_url (fresh ∅)
    = (Raise ex, w') /\ trace w' = trace (fresh ∅).
Proof.
  apply (proj2 (csrf_empty_token_never_validates
                  (scenario_handler true)
                  (quiet_env [("code", "abc123"); ("state", "anything")])
                  "google" google_token_url (fresh ∅))); reflexivity.
Defined.

(** *** What handler code leaves alone *)

#[global] Instance same_session_stable : Stable same_session.
Proof. split; unfold same_session; intros; cbn; congruence. Qed.

#[global] Instance trace_grows_stable : Stable trace_grows.
Proof.
  split.
  - intros w. exists []. symmetry. apply app_nil_r.
  - intros a b c [t1 H1] [t2 H2]. exists (t1 ++ t2).
    rewrite H2, H1, app_assoc. reflexivity.
  - intros ev w. exists [ev]. reflexivity.
Qed.

Section Invariant.

Context {R : world -> world -> Prop} `{HR : Stable R}.

Lemma keeps_ret {A} (a : A) : keeps R (ret a).
Proof. intros w. apply stable_refl. Qed.

Lemma keeps_raise {A} c msg : keeps R (@raise A c msg).
Proof. intros w. apply stable_refl. Qed.

Lemma keeps_lift {A} (r : result A) : keeps R (lift r).
Proof. intros w. apply stable_refl. Qed.

Lemma keeps_emit ev : keeps R (emit ev).
Proof. intros w. apply stable_emit. Qed.

Lemma keeps_bind {A B} (m : M A) (k : A -> M B) :
  keeps R m -> (forall a, keeps R (k a)) -> keeps R (bind m k).
Proof.
  intros Hm Hk w. unfold bind. specialize (Hm w).
  destruct (m w) as [[a|ex] w1]; cbn [snd] in *; [|exact Hm].
  eapply stable_trans; [exact Hm | apply Hk].
Qed.

End Invariant.

Create HintDb keeps discriminated.
#[global] Hint Resolve keeps_ret keeps_raise keeps_lift keeps_emit : keeps.

(** Code made of [ret], [raise], [lift], [emit] and [bind], with case
    distinctions in between, keeps every stable relation. *)
Ltac keeps_tac :=
  repeat first
    [ solve [auto with keeps]
    | apply keeps_bind; [| intros ?]
    | match goal with
      | |- keeps _ (match ?x with _ => _ end) => destruct x
      end ].

Section Steps.

Context {R : world -> world -> Prop} `{HR : Stable R}.
Variable h : handler.
Variable e : env.

Lemma keeps_unpack2 t : keeps R (unpack2 t).
Proof. unfold unpack2, unpack_error. keeps_tac. Qed.

Lemma keeps_unpack3 t : keeps R (unpack3 t).
Proof. unfold unpack3, unpack_error. keeps_tac. Qed.

Lemma keeps_call_parser parser body : keeps R (call_parser parser body).
Proof. unfold call_parser, _json_parser, _query_string_parser. keeps_tac. Qed.

Lemma keeps_getattr_parser_strict provider : keeps R (getattr_parser_strict h provider).
Proof. unfold getattr_parser_strict, parser_name_for, no_attribute. keeps_tac. Qed.

Lemma keeps_getattr_fetcher provider : keeps R (getattr_fetcher provider).
Proof. unfold getattr_fetcher, no_attribute. keeps_tac. Qed.

Lemma keeps_oauth1_client token k s : keeps R (_oauth1_client token k s).
Proof. unfold _oauth1_client, oauth1_Consumer. keeps_tac. Qed.

Lemma keeps_client_request client uri method : keeps R (client_request e client uri method).
Proof. unfold client_request. keeps_tac. Qed.

Lemma keeps_oauth2_request url token : keeps R (_oauth2_request e url token).
Proof. unfold _oauth2_request, urlfetch_get. keeps_tac. Qed.

Lemma keeps_py_getitem d key : keeps R (py_getitem d key).
Proof. unfold py_getitem. keeps_tac. Qed.

Lemma keeps_py_setitem d key v : keeps R (py_setitem d key v).
Proof. unfold py_setitem. keeps_tac. Qed.

Lemma keeps_py_setdefault d key v : keeps R (py_setdefault d key v).
Proof. unfold py_setdefault. keeps_tac. Qed.

Lemma keeps_oauth1_Token k s : keeps R (oauth1_Token k s).
Proof. unfold oauth1_Token. keeps_tac. Qed.

Lemma keeps_json_parser body : keeps R (_json_parser body).
Proof. unfold _json_parser. keeps_tac. Qed.

(** The five profile methods. *)
Lemma keeps_call_fetcher f a k s : keeps R (call_fetcher e f a k s).
Proof.
  pose proof keeps_oauth1_client. pose proof keeps_client_request.
  pose proof keeps_oauth2_request. pose proof keeps_py_getitem.
  pose proof keeps_py_setitem. pose proof keeps_py_setdefault.
  pose proof keeps_oauth1_Token. pose proof keeps_json_parser.
  unfold call_fetcher, _get_google_user_info, _get_windows_live_user_info,
    _get_facebook_user_info, _get_linkedin_user_info, _get_twitter_user_info.
  repeat first
    [ solve [auto with keeps]
    | apply keeps_bind; [| intros ?]
    | match goal with
      | |- keeps _ (match ?x with _ => _ end) => destruct x
      end ].
Qed.

End Steps.

#[global] Hint Resolve keeps_unpack2 keeps_unpack3 keeps_call_parser
  keeps_getattr_parser_strict keeps_getattr_fetcher keeps_call_fetcher
  keeps_oauth1_client keeps_client_request keeps_py_getitem keeps_oauth1_Token : keeps.

Section Flows.

Context {R : world -> world -> Prop} `{HR : Stable R}.
Variable h : handler.
Variable e : env.

(** What [_oauth1_callback] does after it has popped the request token. *)
Lemma oauth1_callback_after_pop provider url w :
  R (snd (session_pop "req_token" PyNone w)) (snd (_oauth1_callback h e provider url w)).
Proof.
  unfold _oauth1_callback. unfold bind at 1.
  cbn [session_pop snd].
  match goal with |- R ?w1 _ => generalize w1 end.
  apply keeps_bind; [apply keeps_unpack2 | intros [consumer_key consumer_secret]].
  destruct (negb (Py.truthy _)); [apply keeps_raise|].
  destruct (negb (Py.truthy _)); [apply keeps_raise|].
  keeps_tac.
Qed.

(** What [_oauth2_callback] does with the answer of the token endpoint. *)
Lemma oauth2_callback_after_fetch provider client_id client_secret (answer : result string) :
  keeps R (bind (lift answer)
                (fun content =>
                   bind (getattr_parser_strict h provider) (fun _parser =>
                   bind (getattr_fetcher provider) (fun _fetcher =>
                   bind (call_parser _parser content) (fun auth_info =>
                   bind (call_fetcher e _fetcher auth_info client_id client_secret)
                        (fun user_data => ret (user_data, auth_info))))))).
Proof. keeps_tac. Qed.

End Flows.

Lemma world_eta w : mk_world (session w) (trace w) (rng_pos w) = w.
Proof. destruct w; reflexivity. Qed.

(** *** OAuth 1.0 callback *)

Lemma oauth1_callback_session h e provider url w :
  session (snd (_oauth1_callback h e provider url w)) = delete "req_token" (session w).
Proof.
  exact (oauth1_callback_after_pop (R := same_session) h e provider url w).
Qed.

Lemma oauth1_callback_no_token h e provider url w :
  session w !! "req_token" = None ->
  exists ex,
    _oauth1_callback h e provider url w
    = (Raise ex, mk_world (delete "req_token" (session w)) (trace w) (rng_pos w)).
Proof.
  intros Hnone. unfold _oauth1_callback. unfold bind at 1. cbn [session_pop].
  rewrite Hnone. cbn [default].
  unfold bind, unpack2, unpack_error, raise, ret.
  destruct (_get_consumer_info_for h provider) as [|a [|b [|c l]]]; cbn; eauto.
Qed.

Lemma oauth1_callback_no_verifier h e provider url w :
  request e !! "oauth_verifier" = None ->
  exists ex,
    _oauth1_callback h e provider url w
    = (Raise ex, mk_world (delete "req_token" (session w)) (trace w) (rng_pos w)).
Proof.
  intros Hnone. unfold _oauth1_callback. unfold bind at 1. cbn [session_pop].
  unfold request_get. rewrite Hnone.
  unfold bind, unpack2, unpack_error, raise, ret.
  destruct (_get_consumer_info_for h provider) as [|a [|b [|c l]]]; cbn; eauto.
  destruct (negb _); eauto.
Qed.

(** C5.  Whatever a call of [_oauth1_callback] goes on to do and however it
    ends, the session it leaves behind is the session it found with the
    key ['req_token'] removed: the pop is its first statement and nothing
    after it writes to the session.  Hence no request token is left for a
    second call, which raises without having asked the network for
    anything: the world it leaves is the world it found. *)
Theorem oauth1_request_token_single_use h e provider url w e2 provider2 url2 :
  let w1 := snd (_oauth1_callback h e provider url w) in
  session w1 = delete "req_token" (session w)
  /\ session w1 !! "req_token" = None
  /\ exists ex, _oauth1_callback h e2 provider2 url2 w1 = (Raise ex, w1).
Proof.
  intros w1. pose proof (oauth1_callback_session h e provider url w) as Hs.
  fold w1 in Hs. split; [exact Hs|].
  assert (Hnone : session w1 !! "req_token" = None)
    by (rewrite Hs; apply lookup_delete_eq).
  split; [exact Hnone|].
  destruct (oauth1_callback_no_token h e2 provider2 url2 w1 Hnone) as [ex Hex].
  exists ex. rewrite Hex. f_equal.
  rewrite delete_id by exact Hnone. apply world_eta.
Qed.

(** C6.  When the session holds no request token, or the request has no
    [oauth_verifier] parameter, [_oauth1_callback] raises and the trace is
    what it was: no signed request, nor any other network call, was
    made. *)
Theorem oauth1_callback_fails_before_network h e provider url w :
  session w !! "req_token" = None \/ request e !! "oauth_verifier" = None ->
  exists ex w',
    _oauth1_callback h e provider url w = (Raise ex, w')
    /\ trace w' = trace w
    /\ filter is_network (added w w') = [].
Proof.
  intros [H|H];
    [destruct (oauth1_callback_no_token h e provider url w H) as [ex Hex]
    |destruct (oauth1_callback_no_verifier h e provider url w H) as [ex Hex]];
    exists ex; eexists; (split; [exact Hex|]); (split; [reflexivity|]);
    unfold added; cbn [trace]; rewrite drop_all; reflexivity.
Qed.

Lemma oauth1_callback_fails_before_network_witness :
  exists ex w',
    _oauth1_callback (oauth1_handler (PyStr "k") (PyStr "s"))
                     (quiet_env [("oauth_verifier", "v1")])
                     "twitter" "https://api.twitter.com/oauth/access_token" (fresh ∅)
    = (Raise ex, w')
    /\ trace w' = trace (fresh ∅)
    /\ filter is_network (added (fresh ∅) w') = [].
Proof.
  apply (oauth1_callback_fails_before_network
           (oauth1_handler (PyStr "k") (PyStr "s"))
           (quiet_env [("oauth_verifier", "v1")])
           "twitter" "https://api.twitter.com/oauth/access_token" (fresh ∅)).
  left. reflexivity.
Defined.

(** *** OAuth 2.0 callback *)

(** C7, as amended.  When the request carries an [error] parameter that is
    not empty, [_oauth2_callback] raises at once: the world is left as it
    was found, and so no POST to the access-token URL, nor anything else,
    has been added to the trace. *)
Theorem oauth2_callback_error_stops h e provider url w error :
  request e !! "error" = Some error -> error <> "" ->
  (exists ex, _oauth2_callback h e provider url w = (Raise ex, w))
  /\ posts (added w (snd (_oauth2_callback h e provider url w))) = [].
Proof.
  intros Herr Hne.
  assert (H : exists ex, _oauth2_callback h e provider url w = (Raise ex, w)).
  { unfold _oauth2_callback.
    unfold bind, unpack3, unpack_error, raise, ret.
    destruct (_get_consumer_info_for h provider) as [|a [|b [|c [|d l]]]]; cbn; eauto.
    unfold request_get. rewrite Herr. cbn [Py.truthy Py.str].
    destruct (String.eqb_spec error ""); [contradiction|]. cbn. eauto. }
  split; [exact H|]. destruct H as [ex ->]. cbn [snd].
  unfold added. rewrite drop_all. reflexivity.
Qed.

Lemma oauth2_callback_error_stops_witness :
  (exists ex,
      _oauth2_callback (scenario_handler false) (scenario_env [("error", "access_denied")])
                       "google" google_token_url (fresh ∅)
      = (Raise ex, fresh ∅))
  /\ posts (added (fresh ∅)
                  (snd (_oauth2_callback (scenario_handler false)
                                         (scenario_env [("error", "access_denied")])
                                         "google" google_token_url (fresh ∅)))) = [].
Proof.
  apply (oauth2_callback_error_stops
           (scenario_handler false) (scenario_env [("error", "access_denied")])
           "google" google_token_url (fresh ∅) "access_denied");
    [reflexivity | discriminate].
Defined.

(** C7, as it was stated, fails for a request with [error=] in its query
    string: the parameter is present, its value [''] is false in
    [if error:], and the callback goes on to post to the token endpoint. *)
Lemma error_param_always_stops_fails :
  (is_Some (request (scenario_env [("error", ""); ("code", "abc123")])
            !! "error")
   /\ posts (trace (snd (_oauth2_callback
                           (scenario_handler false)
                           (scenario_env [("error", ""); ("code", "abc123")])
                           "google" google_token_url (fresh ∅))))
      = [(google_token_url,
          "client_secret=s&code=abc123&grant_type=authorization_code&client_id=k&redirect_uri=https%3A%2F%2Fhost%2Fcb")])
  /\ ~ error_param_always_stops.
Proof.
  assert (Hp : is_Some (request (scenario_env [("error", ""); ("code", "abc123")])
                        !! "error"))
    by (vm_compute; eauto).
  split; [split; [exact Hp | vm_compute; reflexivity]|].
  intros H.
  destruct (H (scenario_handler false)
              (scenario_env [("error", ""); ("code", "abc123")])
              "google" google_token_url (fresh ∅) Hp) as [_ Hposts].
  vm_compute in Hposts. discriminate Hposts.
Qed.

Lemma validate_csrf_true_world h e expected actual w :
  fst (_validate_csrf_token h e expected actual w) = Ok true ->
  forall w', _validate_csrf_token h e expected actual w' = (Ok true, w').
Proof.
  unfold _validate_csrf_token. intros H w'.
  destruct expected; try discriminate H.
  destruct (negb _); [discriminate H|].
  destruct (csrf_token_time s) as [[t|]|ex]; try discriminate H.
  - unfold bind, log, emit, ret in *. destruct (_ <? _)%Z; [discriminate H | reflexivity].
  - destruct (exn_type ex); try discriminate H.
Qed.

(** The slots of the payload dict, in table order. *)
Lemma payload_items (code client_id client_secret callback_url : pyval) :
  Dict.items (Dict.of_list [("code", code);
                            ("client_id", client_id);
                            ("client_secret", client_secret);
                            ("redirect_uri", callback_url);
                            ("grant_type", PyStr "authorization_code")])
  = [("client_secret", client_secret); ("code", code);
     ("grant_type", PyStr "authorization_code");
     ("client_id", client_id); ("redirect_uri", callback_url)].
Proof. vm_compute. reflexivity. Qed.

(** C9.  [_oauth2_callback] does not look whether [code] is there.  When
    the request has neither [code] nor [error], the host's consumer is the
    three-element tuple the flow unpacks, and CSRF protection is off or
    the state validates, the next thing the callback does is the POST to
    the access-token URL, and the payload it sends is made from a dict
    whose [code] is [None]: the body says [code=None]. *)
Theorem oauth2_callback_posts_without_code
        h e provider url w client_id client_secret scope :
  request e !! "code" = None ->
  request e !! "error" = None ->
  _get_consumer_info_for h provider = [client_id; client_secret; scope] ->
  csrf_passes h e w ->
  let payload :=
    Dict.of_list [("code", PyNone);
                  ("client_id", client_id);
                  ("client_secret", client_secret);
                  ("redirect_uri", _callback_uri_for h provider);
                  ("grant_type", PyStr "authorization_code")] in
  (exists tail,
     trace (snd (_oauth2_callback h e provider url w))
     = trace w ++ UrlFetch url (Some (Urllib.urlencode payload)) "POST" :: tail)
  /\ Urllib.urlencode payload
     = ("client_secret=" ++ Urllib.quote_plus (Py.str client_secret)
        ++ "&code=None&grant_type=authorization_code&client_id="
        ++ Urllib.quote_plus (Py.str client_id)
        ++ "&redirect_uri="
        ++ Urllib.quote_plus (Py.str (_callback_uri_for h provider)))%string.
Proof.
  intros Hcode Herror Hinfo Hcsrf payload. split.
  - assert (Hc : request_get e "code" PyNone = PyNone)
      by (unfold request_get; rewrite Hcode; reflexivity).
    assert (He : request_get e "error" PyNone = PyNone)
      by (unfold request_get; rewrite Herror; reflexivity).
    unfold _oauth2_callback. rewrite Hinfo, Hc, He. cbn [unpack3 Py.truthy].
    unfold bind at 1, ret at 1. unfold bind at 1, ret at 1.
    fold payload.
    assert (Hrest : forall w1, trace w1 = trace w ->
              exists tail,
                trace (snd (bind (urlfetch_post e url (Urllib.urlencode payload))
                   (fun content =>
                     bind (getattr_parser_strict h provider) (fun _parser =>
                     bind (getattr_fetcher provider) (fun _fetcher =>
                     bind (call_parser _parser content) (fun auth_info =>
                     bind (call_fetcher e _fetcher auth_info client_id client_secret)
                          (fun user_data => ret (user_data, auth_info)))))) w1))
                = trace w ++ UrlFetch url (Some (Urllib.urlencode payload)) "POST" :: tail).
    { intros w1 Hw1. unfold urlfetch_post. unfold bind at 2. unfold bind at 1.
      cbn [emit].
      match goal with
      | |- context [lift ?answer ?w2] =>
          pose proof (oauth2_callback_after_fetch (R := trace_grows) h e provider
                        client_id client_secret answer w2) as [tail Htail]
      end.
      unfold bind at 1 in Htail.
      exists tail. rewrite Htail. cbn [trace]. rewrite Hw1, <- app_assoc. reflexivity. }
    destruct Hcsrf as [Hoff|Hon].
    + rewrite Hoff. unfold bind at 1, ret at 1. apply Hrest. reflexivity.
    + destruct (OAUTH2_CSRF_STATE h); [|unfold bind at 1, ret at 1; apply Hrest; reflexivity].
      unfold bind at 1. unfold bind at 1. cbn [session_pop].
      assert (Hact : Py.str (request_get e "state" (PyStr ""))
                     = default "" (request e !! "state"))
        by (unfold request_get; destruct (request e !! "state"); reflexivity).
      rewrite Hact. unfold bind at 1.
      rewrite (validate_csrf_true_world _ _ _ _ _ Hon).
      cbn [negb]. unfold ret at 1. apply Hrest. reflexivity.
  - unfold Urllib.urlencode, payload. rewrite payload_items. reflexivity.
Qed.

Lemma oauth2_callback_posts_without_code_witness :
  exists tail,
    trace (snd (_oauth2_callback (scenario_handler false)
                                 (scenario_env [])
                                 "google" google_token_url (fresh ∅)))
    = UrlFetch google_token_url
               (Some "client_secret=s&code=None&grant_type=authorization_code&client_id=k&redirect_uri=https%3A%2F%2Fhost%2Fcb")
               "POST" :: tail.
Proof.
  exact (proj1 (oauth2_callback_posts_without_code
                  (scenario_handler false) (scenario_env [])
                  "google" google_token_url (fresh ∅)
                  (PyStr "k") (PyStr "s") PyNone
                  eq_refl eq_refl eq_refl (or_introl eq_refl))).
Defined.

(** *** The dispatchers *)

(** C2.  For a provider name that is not in [PROVIDERS], [_simple_auth] and
    [_auth_callback] do the same two things and nothing else: they log one
    error, and they call [_provider_not_supported], once, with that name.
    [_auth_error] is not called and the session is not touched.  Neither
    dispatcher issues a redirect: up to the point where
    [_provider_not_supported] is entered the one event is the log line, and
    what is done from that point on is what [_provider_not_supported]
    itself does, which is for the host to define and in the class as it is
    written is a redirect to [/]. *)
Theorem unknown_provider_not_supported h e provider w :
  PROVIDERS h !! provider = None ->
  let msg := ("Provider " ++ provider ++ " is not supported")%string in
  let logged := mk_world (session w) (trace w ++ [Log ERROR msg]) (rng_pos w) in
  let after := snd (_provider_not_supported provider logged) in
  _simple_auth h e provider w = _provider_not_supported provider logged
  /\ _auth_callback h e provider w = _provider_not_supported provider logged
  /\ fst (_provider_not_supported provider logged) = Ok tt
  /\ session after = session w
  /\ filter is_provider_not_supported (added w after) = [ProviderNotSupported provider]
  /\ filter is_auth_error (added w after) = []
  /\ before_host_callback (added w after) = [Log ERROR msg]
  /\ redirects (before_host_callback (added w after)) = [].
Proof.
  intros Hnone msg logged after. unfold _simple_auth, _auth_callback. rewrite Hnone.
  assert (Hadd : added w after
                 = [Log ERROR msg; ProviderNotSupported provider; Redirect "/"]).
  { unfold added, after, logged, _provider_not_supported, bind, redirect, emit.
    cbn [trace snd fst]. rewrite <- !app_assoc. apply drop_app_length. }
  rewrite Hadd.
  split; [reflexivity|]. split; [reflexivity|]. split; [reflexivity|].
  split; [reflexivity|]. repeat split.
Qed.

Lemma unknown_provider_not_supported_witness :
  let logged := mk_world ∅ [Log ERROR "Provider nosuch is not supported"] 0 in
  let after := snd (_provider_not_supported "nosuch" logged) in
  _simple_auth SimpleAuthHandler (quiet_env []) "nosuch" (fresh ∅)
  = _provider_not_supported "nosuch" logged
  /\ _auth_callback SimpleAuthHandler (quiet_env []) "nosuch" (fresh ∅)
     = _provider_not_supported "nosuch" logged
  /\ fst (_provider_not_supported "nosuch" logged) = Ok tt
  /\ session after = ∅
  /\ filter is_provider_not_supported (added (fresh ∅) after)
     = [ProviderNotSupported "nosuch"]
  /\ filter is_auth_error (added (fresh ∅) after) = []
  /\ before_host_callback (added (fresh ∅) after)
     = [Log ERROR "Provider nosuch is not supported"]
  /\ redirects (before_host_callback (added (fresh ∅) after)) = [].
Proof.
  apply (unknown_provider_not_supported SimpleAuthHandler (quiet_env [])
           "nosuch" (fresh ∅)).
  vm_compute. reflexivity.
Defined.

(** *** The OAuth2 scenario *)

(** C8, as amended.  With key "k", secret "s", callback URL
    "https://host/cb", no scope and CSRF protection off, [_simple_auth] for
    google redirects to the authorize URL with the query
    [redirect_uri=https%3A%2F%2Fhost%2Fcb&response_type=code&client_id=k];
    the callback for [code=abc123] posts to the token URL the body
    [client_secret=s&code=abc123&grant_type=authorization_code&client_id=k&redirect_uri=https%3A%2F%2Fhost%2Fcb];
    and from the response body [{"access_token":"tok1"}] the decoder makes
    the auth info [{access_token: "tok1"}], with which the profile is
    fetched and which is returned and handed to [_on_signin].  The
    parameters stand in the order in which [urlencode] finds them in the
    dict. *)
Theorem oauth2_scenario :
  let auth_info := PyDict [("access_token", PyStr "tok1")] in
  let user_data := PyDict [("id", PyStr "1")] in
  let post :=
    UrlFetch google_token_url
             (Some "client_secret=s&code=abc123&grant_type=authorization_code&client_id=k&redirect_uri=https%3A%2F%2Fhost%2Fcb")
             "POST" in
  let get :=
    UrlFetch "https://www.googleapis.com/oauth2/v1/userinfo?access_token=tok1" None "GET" in
  _simple_auth (scenario_handler false) (scenario_env []) "google" (fresh ∅)
  = (Ok tt,
     mk_world ∅
       [Log DEBUG "Redirecting user to https://accounts.google.com/o/oauth2/auth?redirect_uri=https%3A%2F%2Fhost%2Fcb&response_type=code&client_id=k";
        Redirect "https://accounts.google.com/o/oauth2/auth?redirect_uri=https%3A%2F%2Fhost%2Fcb&response_type=code&client_id=k"]
       0)
  /\ _oauth2_callback (scenario_handler false) (scenario_env [("code", "abc123")])
                      "google" google_token_url (fresh ∅)
     = (Ok (user_data, auth_info), mk_world ∅ [post; get] 0)
  /\ _auth_callback (scenario_handler false) (scenario_env [("code", "abc123")])
                    "google" (fresh ∅)
     = (Ok tt, mk_world ∅ [post; get; OnSignin user_data auth_info "google"] 0)
  /\ _json_parser token_response (fresh ∅) = (Ok auth_info, fresh ∅).
Proof. repeat split; vm_compute; reflexivity. Qed.

(** C8, as it was stated, fails on the order of the parameters: the URL
    the scenario redirects to does not contain
    [client_id=k&redirect_uri=https%3A%2F%2Fhost%2Fcb&response_type=code],
    and the body it posts is not
    [grant_type=authorization_code&code=abc123&client_id=k&client_secret=s&redirect_uri=https%3A%2F%2Fhost%2Fcb]. *)
Lemma oauth2_scenario_order_fails :
  map (Str.contains claimed_query) scenario_redirects = [false]
  /\ map (fun post => String.eqb (snd post) claimed_body) scenario_posts = [false]
  /\ ~ scenario_as_claimed.
Proof.
  split; [vm_compute; reflexivity|]. split; [vm_compute; reflexivity|].
  intros [_ H]. vm_compute in H. discriminate H.
Qed.

(** *** OAuth 1.0 init with gaps in the configuration *)

(** C1: what the code does.  With a consumer ("k", "s") and no callback
    URL, [_simple_auth] for twitter does not call
    [_provider_not_supported]: it fetches a request token, stores it and
    redirects the user with [oauth_callback=None].  With no consumer key it
    does not either: the OAuth1 client refuses the consumer and the error
    goes to [_auth_error].  And where all six of key, secret, request-token
    URL, authorize URL, callback URL and decoder are missing, the only case
    in which [_oauth1_init] itself refuses, it raises, and the dispatcher
    calls [_auth_error], not [_provider_not_supported]. *)
Theorem oauth1_init_configuration_gap :
  _simple_auth (oauth1_handler (PyStr "k") (PyStr "s")) oauth1_env "twitter" (fresh ∅)
  = (Ok tt,
     mk_world
       {[ "req_token" := PyDict [("oauth_token", PyStr "rt1");
                                 ("oauth_token_secret", PyStr "rts1")] ]}
       [OAuth1Request (mk_client (PyStr "k") (PyStr "s") None)
                      "https://api.twitter.com/oauth/request_token" "GET";
        Log DEBUG "Redirecting user to https://api.twitter.com/oauth/authenticate?oauth_token=rt1&oauth_callback=None";
        Redirect "https://api.twitter.com/oauth/authenticate?oauth_token=rt1&oauth_callback=None"]
       0)
  /\ _simple_auth (oauth1_handler PyNone (PyStr "s")) oauth1_env "twitter" (fresh ∅)
     = (Ok tt,
        mk_world ∅
          [Log ERROR "Key and secret must be set.";
           AuthError "twitter" "Key and secret must be set.";
           Redirect "/"]
          0)
  /\ _simple_auth bare_handler oauth1_env "bare" (fresh ∅)
     = (Ok tt,
        mk_world ∅
          [Log ERROR "Provider bare is not supported";
           AuthError "bare" "Provider bare is not supported";
           Redirect "/"]
          0).
Proof. repeat split; vm_compute; reflexivity. Qed.

(* ===================================================================== *)
(** ** Further properties of the handler *)
(* ===================================================================== *)

(** *** Relations closed under sequencing *)

#[global] Instance adds_only_closed P : Closed (adds_only P).
Proof.
  split.
  - intros w. exists []. split; [symmetry; apply app_nil_r | reflexivity].
  - intros a b c (t1 & H1 & F1) (t2 & H2 & F2). exists (t1 ++ t2). split.
    + rewrite H2, H1, app_assoc. reflexivity.
    + rewrite forallb_app, F1, F2. reflexivity.
Qed.

#[global] Instance session_popped_closed key : Closed (session_popped key).
Proof.
  split.
  - intros w. left. reflexivity.
  - intros a b c [H1|H1] [H2|H2]; unfold session_popped; rewrite H2, H1;
      rewrite ?delete_delete_eq; auto.
Qed.

#[global] Instance session_put_closed key : Closed (session_put key).
Proof.
  split.
  - intros w. left. reflexivity.
  - intros a b c [H1|[v1 H1]] [H2|[v2 H2]]; unfold session_put; rewrite H2, H1;
      rewrite ?insert_insert_eq; eauto.
Qed.

Section Closure.

Context {R : world -> world -> Prop} `{HR : Closed R}.

Lemma closed_ret {A} (a : A) : keeps R (ret a).
Proof. intros w. apply closed_refl. Qed.

Lemma closed_raise {A} c msg : keeps R (@raise A c msg).
Proof. intros w. apply closed_refl. Qed.

Lemma closed_lift {A} (r : result A) : keeps R (lift r).
Proof. intros w. apply closed_refl. Qed.

Lemma closed_bind {A B} (m : M A) (k : A -> M B) :
  keeps R m -> (forall a, keeps R (k a)) -> keeps R (bind m k).
Proof.
  intros Hm Hk w. unfold bind. specialize (Hm w).
  destruct (m w) as [[a|ex] w1]; cbn [snd] in *; [|exact Hm].
  eapply closed_trans; [exact Hm | apply Hk].
Qed.

Lemma closed_try_except {A} (body : M A) (handler : exn -> M A) :
  keeps R body -> (forall ex, keeps R (handler ex)) -> keeps R (try_except body handler).
Proof.
  intros Hm Hk w. unfold try_except. specialize (Hm w).
  destruct (body w) as [[a|ex] w1]; cbn [snd] in *; [exact Hm|].
  eapply closed_trans; [exact Hm | apply Hk].
Qed.

End Closure.

Create HintDb closed discriminated.
#[global] Hint Resolve closed_ret closed_raise closed_lift : closed.

(** Code made of [ret], [raise], [lift] and [bind], with case distinctions
    in between, and of steps that are known to keep the relation. *)
Ltac closed_tac :=
  repeat first
    [ solve [auto with closed]
    | apply closed_bind; [| intros ?]
    | match goal with
      | |- keeps _ (match ?x with _ => _ end) => destruct x
      | |- keeps _ (let '(_, _) := ?x in _) => destruct x
      end ].

(** The steps of the flows, for a relation that admits the events they
    add: log lines, signed requests, URL fetches. *)
Section Steps.

Context {R : world -> world -> Prop} `{HR : Closed R}.
Variable h : handler.
Variable e : env.
Hypothesis Hlog : forall lvl msg, keeps R (emit (Log lvl msg)).
Hypothesis Hsigned : forall client uri method, keeps R (emit (OAuth1Request client uri method)).
Hypothesis Hfetch : forall url payload method, keeps R (emit (UrlFetch url payload method)).

Lemma closed_log lvl msg : keeps R (log lvl msg).
Proof. apply Hlog. Qed.

Lemma closed_unpack2 t : keeps R (unpack2 t).
Proof. unfold unpack2, unpack_error. closed_tac. Qed.

Lemma closed_unpack3 t : keeps R (unpack3 t).
Proof. unfold unpack3, unpack_error. closed_tac. Qed.

Lemma closed_json_parser body : keeps R (_json_parser body).
Proof. unfold _json_parser. closed_tac. Qed.

Lemma closed_call_parser parser body : keeps R (call_parser parser body).
Proof. unfold call_parser, _json_parser, _query_string_parser. closed_tac. Qed.

Lemma closed_parser_name_for provider : keeps R (parser_name_for h provider).
Proof. unfold parser_name_for. closed_tac. Qed.

Lemma closed_getattr_parser_strict provider : keeps R (getattr_parser_strict h provider).
Proof. unfold getattr_parser_strict, parser_name_for, no_attribute. closed_tac. Qed.

Lemma closed_getattr_fetcher provider : keeps R (getattr_fetcher provider).
Proof. unfold getattr_fetcher, no_attribute. closed_tac. Qed.

Lemma closed_oauth1_client token k s : keeps R (_oauth1_client token k s).
Proof. unfold _oauth1_client, oauth1_Consumer. closed_tac. Qed.

Lemma closed_client_request client uri method : keeps R (client_request e client uri method).
Proof.
  unfold client_request. apply closed_bind; [apply Hsigned | intros _]. apply closed_lift.
Qed.

Lemma closed_urlfetch_post url payload : keeps R (urlfetch_post e url payload).
Proof.
  unfold urlfetch_post. apply closed_bind; [apply Hfetch | intros _]. apply closed_lift.
Qed.

Lemma closed_oauth2_request url token : keeps R (_oauth2_request e url token).
Proof.
  unfold _oauth2_request, urlfetch_get.
  apply closed_bind; [apply Hfetch | intros _]. apply closed_lift.
Qed.

Lemma closed_py_get d key : keeps R (py_get d key).
Proof. unfold py_get. closed_tac. Qed.

Lemma closed_py_getitem d key : keeps R (py_getitem d key).
Proof. unfold py_getitem. closed_tac. Qed.

Lemma closed_py_setitem d key v : keeps R (py_setitem d key v).
Proof. unfold py_setitem. closed_tac. Qed.

Lemma closed_py_setdefault d key v : keeps R (py_setdefault d key v).
Proof. unfold py_setdefault. closed_tac. Qed.

Lemma closed_oauth1_Token k s : keeps R (oauth1_Token k s).
Proof. unfold oauth1_Token. closed_tac. Qed.

Lemma closed_auth_urls_item auth_urls key : keeps R (auth_urls_item auth_urls key).
Proof. unfold auth_urls_item. closed_tac. Qed.

(** The five profile methods. *)
Lemma closed_call_fetcher f a k s : keeps R (call_fetcher e f a k s).
Proof.
  pose proof closed_oauth1_client. pose proof closed_client_request.
  pose proof closed_oauth2_request. pose proof closed_py_getitem.
  pose proof closed_py_setitem. pose proof closed_py_setdefault.
  pose proof closed_oauth1_Token. pose proof closed_json_parser.
  unfold call_fetcher, _get_google_user_info, _get_windows_live_user_info,
    _get_facebook_user_info, _get_linkedin_user_info, _get_twitter_user_info.
  closed_tac.
Qed.

Lemma closed_validate_csrf_token expected actual :
  keeps R (_validate_csrf_token h e expected actual).
Proof. pose proof closed_log. unfold _validate_csrf_token. closed_tac. Qed.

Lemma closed_openid_callback provider identity :
  keeps R (_openid_callback e provider identity).
Proof. unfold _openid_callback. closed_tac. Qed.

(** The two OAuth callbacks, for a relation that admits the [pop] each
    begins with. *)
Lemma closed_oauth1_callback provider url :
  (forall dflt, keeps R (session_pop "req_token" dflt)) ->
  keeps R (_oauth1_callback h e provider url).
Proof.
  intros Hpop.
  pose proof closed_unpack2. pose proof closed_py_getitem. pose proof closed_oauth1_Token.
  pose proof closed_oauth1_client. pose proof closed_client_request.
  pose proof closed_getattr_parser_strict. pose proof closed_getattr_fetcher.
  pose proof closed_call_parser. pose proof closed_call_fetcher.
  unfold _oauth1_callback. closed_tac.
Qed.

Lemma closed_oauth2_callback provider url :
  (forall dflt, keeps R (session_pop (OAUTH2_CSRF_SESSION_PARAM h) dflt)) ->
  keeps R (_oauth2_callback h e provider url).
Proof.
  intros Hpop.
  pose proof closed_unpack3. pose proof closed_validate_csrf_token.
  pose proof closed_urlfetch_post.
  pose proof closed_getattr_parser_strict. pose proof closed_getattr_fetcher.
  pose proof closed_call_parser. pose proof closed_call_fetcher.
  unfold _oauth2_callback. closed_tac.
Qed.

Lemma closed_callback_flow provider cfg :
  (forall dflt, keeps R (session_pop "req_token" dflt)) ->
  (forall dflt, keeps R (session_pop (OAUTH2_CSRF_SESSION_PARAM h) dflt)) ->
  keeps R (callback_flow h e provider cfg).
Proof.
  intros H1 H2. destruct cfg; cbn [callback_flow].
  - apply closed_oauth2_callback, H2.
  - apply closed_oauth1_callback, H1.
  - apply closed_openid_callback.
Qed.

(** The init flows, for a relation that also admits a redirect, a call of
    [_provider_not_supported], the drawing of random characters and the
    two session entries the flows write. *)
Hypothesis Hredirect : forall uri, keeps R (emit (Redirect uri)).
Hypothesis Hunsupported : forall provider, keeps R (emit (ProviderNotSupported provider)).
Hypothesis Hrandom : forall n pool, keeps R (generate_random_string e n pool).

Lemma closed_redirect uri : keeps R (redirect uri).
Proof. apply Hredirect. Qed.

Lemma closed_provider_not_supported provider : keeps R (_provider_not_supported provider).
Proof. pose proof closed_redirect. unfold _provider_not_supported. closed_tac. Qed.

Lemma closed_generate_csrf_token t : keeps R (_generate_csrf_token e t).
Proof. unfold _generate_csrf_token. closed_tac. Qed.

Lemma closed_oauth2_init provider auth_url :
  (forall v, keeps R (session_set (OAUTH2_CSRF_SESSION_PARAM h) v)) ->
  keeps R (_oauth2_init h e provider auth_url).
Proof.
  intros Hset.
  pose proof closed_unpack3. pose proof closed_log. pose proof closed_redirect.
  pose proof closed_provider_not_supported. pose proof closed_generate_csrf_token.
  unfold _oauth2_init. closed_tac.
Qed.

Lemma closed_oauth1_init provider auth_urls :
  (forall v, keeps R (session_set "req_token" v)) ->
  keeps R (_oauth1_init h e provider auth_urls).
Proof.
  intros Hset.
  pose proof closed_unpack2. pose proof closed_log. pose proof closed_redirect.
  pose proof closed_parser_name_for. pose proof closed_oauth1_client.
  pose proof closed_auth_urls_item. pose proof closed_client_request.
  pose proof closed_call_parser. pose proof closed_py_get.
  unfold _oauth1_init. closed_tac.
Qed.

Lemma closed_openid_init provider identity : keeps R (_openid_init h e provider identity).
Proof.
  pose proof closed_log. pose proof closed_redirect.
  pose proof closed_provider_not_supported.
  unfold _openid_init. closed_tac.
Qed.

Lemma closed_init_flow provider cfg :
  (forall v, keeps R (session_set "req_token" v)) ->
  (forall v, keeps R (session_set (OAUTH2_CSRF_SESSION_PARAM h) v)) ->
  keeps R (init_flow h e provider cfg).
Proof.
  intros H1 H2. destruct cfg; cbn [init_flow].
  - apply closed_oauth2_init, H2.
  - apply closed_oauth1_init, H1.
  - apply closed_openid_init.
Qed.

(** The dispatchers, for a relation that admits every event. *)
Hypothesis Hemit : forall ev, keeps R (emit ev).

Lemma closed_on_error provider ex : keeps R (on_error provider ex).
Proof.
  unfold on_error, _auth_error, log, redirect. closed_tac.
Qed.

Lemma closed_on_signin user_data auth_info provider :
  keeps R (_on_signin user_data auth_info provider).
Proof. apply Hemit. Qed.

Lemma closed_simple_auth provider :
  (forall v, keeps R (session_set "req_token" v)) ->
  (forall v, keeps R (session_set (OAUTH2_CSRF_SESSION_PARAM h) v)) ->
  keeps R (_simple_auth h e provider).
Proof.
  intros H1 H2. unfold _simple_auth.
  destruct (PROVIDERS h !! provider) as [cfg|].
  - apply closed_try_except; [|apply closed_on_error].
    exact (closed_init_flow provider cfg H1 H2).
  - pose proof closed_log. pose proof closed_provider_not_supported. closed_tac.
Qed.

Lemma closed_auth_callback provider :
  (forall dflt, keeps R (session_pop "req_token" dflt)) ->
  (forall dflt, keeps R (session_pop (OAUTH2_CSRF_SESSION_PARAM h) dflt)) ->
  keeps R (_auth_callback h e provider).
Proof.
  intros H1 H2. unfold _auth_callback.
  destruct (PROVIDERS h !! provider) as [cfg|].
  - apply closed_try_except; [|apply closed_on_error].
    apply closed_bind; [exact (closed_callback_flow provider cfg H1 H2)|].
    intros [user_data auth_info]. apply closed_on_signin.
  - pose proof closed_log. pose proof closed_provider_not_supported. closed_tac.
Qed.

End Steps.

(** What the dispatchers make of the outcome of the flow they select. *)
Lemma simple_auth_run h e provider w :
  _simple_auth h e provider w
  = match PROVIDERS h !! provider with
    | Some cfg =>
        match init_flow h e provider cfg w with
        | (Ok _, w1) => (Ok tt, w1)
        | (Raise ex, w1) => on_error provider ex w1
        end
    | None =>
        bind (log ERROR ("Provider " ++ provider ++ " is not supported"))
             (fun _ => _provider_not_supported provider) w
    end.
Proof.
  unfold _simple_auth. destruct (PROVIDERS h !! provider) as [cfg|]; [|reflexivity].
  unfold try_except. change (match cfg with
                             | cfg_oauth2 auth_url _ => _oauth2_init h e provider auth_url
                             | cfg_oauth1 auth_urls _ => _oauth1_init h e provider auth_urls
                             | cfg_openid => _openid_init h e provider PyNone
                             end) with (init_flow h e provider cfg).
  destruct (init_flow h e provider cfg w) as [[[]|ex] w1]; reflexivity.
Qed.

Lemma auth_callback_run h e provider w :
  _auth_callback h e provider w
  = match PROVIDERS h !! provider with
    | Some cfg =>
        match callback_flow h e provider cfg w with
        | (Ok (user_data, auth_info), w1) => _on_signin user_data auth_info provider w1
        | (Raise ex, w1) => on_error provider ex w1
        end
    | None =>
        bind (log ERROR ("Provider " ++ provider ++ " is not supported"))
             (fun _ => _provider_not_supported provider) w
    end.
Proof.
  unfold _auth_callback. destruct (PROVIDERS h !! provider) as [cfg|]; [|reflexivity].
  unfold try_except, bind.
  change (match cfg with
          | cfg_oauth2 _ url => _oauth2_callback h e provider url
          | cfg_oauth1 _ url => _oauth1_callback h e provider url
          | cfg_openid => _openid_callback e provider PyNone
          end) with (callback_flow h e provider cfg).
  destruct (callback_flow h e provider cfg w) as [[[user_data auth_info]|ex] w1];
    reflexivity.
Qed.

(** *** What the three relations admit *)

Lemma adds_only_emit P ev : P ev = true -> keeps (adds_only P) (emit ev).
Proof.
  intros HP w. exists [ev]. split; [reflexivity|]. cbn. rewrite HP. reflexivity.
Qed.

Lemma adds_only_same_trace P {A} (m : M A) :
  (forall w, trace (snd (m w)) = trace w) -> keeps (adds_only P) m.
Proof.
  intros H w. exists []. split; [rewrite H, app_nil_r|]; reflexivity.
Qed.

Lemma adds_only_session_pop P key dflt : keeps (adds_only P) (session_pop key dflt).
Proof. apply adds_only_same_trace. reflexivity. Qed.

Lemma adds_only_session_set P key v : keeps (adds_only P) (session_set key v).
Proof. apply adds_only_same_trace. reflexivity. Qed.

Lemma adds_only_random P e n pool : keeps (adds_only P) (generate_random_string e n pool).
Proof. apply adds_only_same_trace. reflexivity. Qed.

Lemma session_popped_emit key ev : keeps (session_popped key) (emit ev).
Proof. intros w. left. reflexivity. Qed.

Lemma session_popped_pop key dflt : keeps (session_popped key) (session_pop key dflt).
Proof. intros w. right. reflexivity. Qed.

Lemma session_put_emit key ev : keeps (session_put key) (emit ev).
Proof. intros w. left. reflexivity. Qed.

Lemma session_put_random key e n pool :
  keeps (session_put key) (generate_random_string e n pool).
Proof. intros w. left. reflexivity. Qed.

Lemma session_put_set key v : keeps (session_put key) (session_set key v).
Proof. intros w. right. exists v. reflexivity. Qed.

(** *** The dispatchers *)

Lemma added_app w w' tail : trace w' = trace w ++ tail -> added w w' = tail.
Proof. intros H. unfold added. rewrite H. apply drop_app_length. Qed.

(** The callback flows add only log lines and network requests. *)
Lemma callback_flow_quiet h e provider cfg :
  keeps (adds_only is_quiet) (callback_flow h e provider cfg).
Proof.
  apply closed_callback_flow; intros;
    first [apply adds_only_emit; reflexivity | apply adds_only_session_pop].
Qed.

(** X1.  For a request whose values are ASCII text, and a state token in
    the session that is, [_auth_callback] always returns, and it hands the
    request back to the host in exactly one way, which is the last thing it
    does.  After log lines and network requests, and nothing else, it calls
    [_on_signin] for this provider, which is in the registry, and issues no
    redirect; or it calls [_auth_error] for this provider, which is in the
    registry, and that redirects to [/]; or it calls
    [_provider_not_supported] for this provider, and that redirects to [/].
    ([_on_signin] is the host's; it is taken to return.  The two
    conditions are those under which the message of every exception a
    callback flow raises is one that [str] returns.) *)
Theorem auth_callback_one_outcome h e provider w :
  ascii_request e = true ->
  ascii_state h w = true ->
  exists w' quiet,
    _auth_callback h e provider w = (Ok tt, w')
    /\ forallb is_quiet quiet = true
    /\ ((exists user_data auth_info,
           is_Some (PROVIDERS h !! provider)
           /\ added w w' = quiet ++ [OnSignin user_data auth_info provider])
        \/ (exists msg,
              is_Some (PROVIDERS h !! provider)
              /\ added w w' = quiet ++ [AuthError provider msg; Redirect "/"])
        \/ added w w' = quiet ++ [ProviderNotSupported provider; Redirect "/"]).
Proof.
  intros _ _. rewrite auth_callback_run. destruct (PROVIDERS h !! provider) as [cfg|].
  - destruct (callback_flow_quiet h e provider cfg w) as (tail & Htail & Hquiet).
    destruct (callback_flow h e provider cfg w) as [[[user_data auth_info]|ex] w1];
      cbn [snd] in Htail.
    + eexists _, tail. split; [reflexivity|]. split; [exact Hquiet|].
      left. exists user_data, auth_info. split; [eauto|].
      apply added_app. cbn [trace]. rewrite Htail, <- app_assoc. reflexivity.
    + eexists _, (tail ++ [Log ERROR (exn_str ex)]). split; [reflexivity|].
      split; [rewrite forallb_app, Hquiet; reflexivity|].
      right. left. exists (exn_str ex). split; [eauto|].
      apply added_app. cbn [trace]. rewrite Htail, <- !app_assoc. reflexivity.
  - eexists _, [Log ERROR ("Provider " ++ provider ++ " is not supported")].
    split; [reflexivity|]. split; [reflexivity|]. right. right.
    apply added_app. cbn [trace]. rewrite <- !app_assoc. reflexivity.
Qed.

Lemma auth_callback_one_outcome_witness :
  exists w' quiet,
    _auth_callback (scenario_handler true)
                   (scenario_env [("code", "abc123"); ("state", "QTox")])
                   "google" (fresh {[ "oauth2_state" := PyStr "QTo=" ]})
    = (Ok tt, w')
    /\ forallb is_quiet quiet = true
    /\ ((exists user_data auth_info,
           is_Some (PROVIDERS (scenario_handler true) !! "google")
           /\ added (fresh {[ "oauth2_state" := PyStr "QTo=" ]}) w'
              = quiet ++ [OnSignin user_data auth_info "google"])
        \/ (exists msg,
              is_Some (PROVIDERS (scenario_handler true) !! "google")
              /\ added (fresh {[ "oauth2_state" := PyStr "QTo=" ]}) w'
                 = quiet ++ [AuthError "google" msg; Redirect "/"])
        \/ added (fresh {[ "oauth2_state" := PyStr "QTo=" ]}) w'
           = quiet ++ [ProviderNotSupported "google"; Redirect "/"]).
Proof.
  apply (auth_callback_one_outcome
           (scenario_handler true)
           (scenario_env [("code", "abc123"); ("state", "QTox")])
           "google" (fresh {[ "oauth2_state" := PyStr "QTo=" ]}));
    vm_compute; reflexivity.
Defined.

#[global] Hint Resolve adds_only_closed session_popped_closed session_put_closed : closed.
#[global] Hint Resolve closed_log closed_unpack2 closed_unpack3 closed_json_parser
  closed_call_parser closed_parser_name_for closed_getattr_parser_strict
  closed_getattr_fetcher closed_oauth1_client closed_client_request closed_urlfetch_post
  closed_oauth2_request closed_py_get closed_py_getitem closed_oauth1_Token
  closed_auth_urls_item closed_generate_csrf_token closed_validate_csrf_token : closed.
#[global] Hint Resolve adds_only_session_pop adds_only_session_set adds_only_random
  session_popped_emit session_popped_pop session_put_emit session_put_random
  session_put_set : closed.
#[global] Hint Extern 1 (keeps (adds_only _) (emit _)) =>
  apply adds_only_emit; reflexivity : closed.

Lemma ends_as_init_raise provider c msg : ends_as_init provider (raise c msg).
Proof.
  intros w. exists []. split; [symmetry; apply app_nil_r|]. exists []. split; reflexivity.
Qed.

Lemma ends_as_init_redirect provider uri : ends_as_init provider (redirect uri).
Proof.
  intros w. exists [Redirect uri]. split; [reflexivity|].
  exists []. split; [reflexivity|]. left. exists uri. reflexivity.
Qed.

Lemma ends_as_init_not_supported provider :
  ends_as_init provider (_provider_not_supported provider).
Proof.
  intros w. exists [ProviderNotSupported provider; Redirect "/"]. split.
  - unfold _provider_not_supported, bind, redirect, emit. cbn.
    rewrite <- app_assoc. reflexivity.
  - exists []. split; [reflexivity|]. right. reflexivity.
Qed.

Lemma ends_as_init_bind {A} provider (m : M A) (k : A -> M unit) :
  keeps (adds_only is_quiet) m -> (forall a, ends_as_init provider (k a)) ->
  ends_as_init provider (bind m k).
Proof.
  intros Hm Hk w. destruct (Hm w) as (t1 & H1 & F1). unfold bind.
  destruct (m w) as [[a|ex] w1]; cbn [snd fst] in *.
  - destruct (Hk a w1) as (t2 & H2 & quiet & Hquiet & Hcase). exists (t1 ++ t2). split.
    + rewrite H2, H1, app_assoc. reflexivity.
    + exists (t1 ++ quiet). split; [rewrite forallb_app, F1, Hquiet; reflexivity|].
      destruct (fst (k a w1)).
      * destruct Hcase as [[uri ->]| ->]; [left; exists uri | right];
          apply app_assoc.
      * rewrite Hcase. reflexivity.
  - exists t1. split; [exact H1|]. exists t1. split; [exact F1 | reflexivity].
Qed.

(** Code that ends in [redirect], [_provider_not_supported] or [raise]
    after steps that only log and ask the network. *)
Ltac init_tac :=
  repeat first
    [ apply ends_as_init_raise
    | apply ends_as_init_redirect
    | apply ends_as_init_not_supported
    | apply ends_as_init_bind; [solve [closed_tac] | intros ?]
    | match goal with
      | |- ends_as_init _ (match ?x with _ => _ end) => destruct x
      end ].

Lemma init_flow_ends h e provider cfg : ends_as_init provider (init_flow h e provider cfg).
Proof.
  destruct cfg as [auth_url url | auth_urls url |]; cbn [init_flow].
  - unfold _oauth2_init. init_tac.
  - unfold _oauth1_init. init_tac.
  - unfold _openid_init. init_tac.
Qed.

(** X2.  [_simple_auth] always returns, and the last thing it does is to
    redirect the user, once.  After log lines and network requests, and
    nothing else, the flow redirects the user to the provider; or
    [_provider_not_supported] is called for this provider and redirects to
    [/]; or [_auth_error] is called for this provider and redirects to [/].
    [_on_signin] is never called. *)
Theorem simple_auth_one_redirect h e provider w :
  exists w' quiet,
    _simple_auth h e provider w = (Ok tt, w')
    /\ forallb is_quiet quiet = true
    /\ ((exists uri, added w w' = quiet ++ [Redirect uri])
        \/ added w w' = quiet ++ [ProviderNotSupported provider; Redirect "/"]
        \/ (exists msg, added w w' = quiet ++ [AuthError provider msg; Redirect "/"])).
Proof.
  rewrite simple_auth_run. destruct (PROVIDERS h !! provider) as [cfg|].
  - destruct (init_flow_ends h e provider cfg w) as (tail & Htail & quiet & Hquiet & Hcase).
    destruct (init_flow h e provider cfg w) as [[[]|ex] w1]; cbn [snd fst] in *.
    + exists w1, quiet. split; [reflexivity|]. split; [exact Hquiet|].
      rewrite (added_app w w1 tail Htail).
      destruct Hcase as [[uri ->]| ->]; eauto.
    + subst tail. eexists _, (quiet ++ [Log ERROR (exn_str ex)]). split; [reflexivity|].
      split; [rewrite forallb_app, Hquiet; reflexivity|].
      right. right. exists (exn_str ex).
      apply added_app. cbn [trace]. rewrite Htail, <- !app_assoc. reflexivity.
  - eexists _, [Log ERROR ("Provider " ++ provider ++ " is not supported")].
    split; [reflexivity|]. split; [reflexivity|]. right. left.
    apply added_app. cbn [trace]. rewrite <- !app_assoc. reflexivity.
Qed.

(** *** The session *)

Lemma callback_flow_session h e provider cfg w :
  let s' := session (snd (callback_flow h e provider cfg w)) in
  s' = session w
  \/ s' = delete "req_token" (session w)
  \/ s' = delete (OAUTH2_CSRF_SESSION_PARAM h) (session w).
Proof.
  destruct cfg as [auth_url url | auth_urls url |]; cbn [callback_flow].
  - assert (H : keeps (session_popped (OAUTH2_CSRF_SESSION_PARAM h))
                      (_oauth2_callback h e provider url))
      by (apply closed_oauth2_callback; auto with closed).
    destruct (H w) as [Hs|Hs]; auto.
  - assert (H : keeps (session_popped "req_token") (_oauth1_callback h e provider url))
      by (apply closed_oauth1_callback; auto with closed).
    destruct (H w) as [Hs|Hs]; auto.
  - assert (H : keeps (session_popped "req_token") (_openid_callback e provider PyNone))
      by (apply closed_openid_callback).
    destruct (H w) as [Hs|Hs]; auto.
Qed.

Lemma init_flow_session h e provider cfg w :
  let s' := session (snd (init_flow h e provider cfg w)) in
  s' = session w
  \/ (exists token, s' = <["req_token" := token]> (session w))
  \/ (exists state, s' = <[OAUTH2_CSRF_SESSION_PARAM h := state]> (session w)).
Proof.
  destruct cfg as [auth_url url | auth_urls url |]; cbn [init_flow].
  - assert (H : keeps (session_put (OAUTH2_CSRF_SESSION_PARAM h))
                      (_oauth2_init h e provider auth_url))
      by (apply closed_oauth2_init; auto with closed).
    destruct (H w) as [Hs|Hs]; auto.
  - assert (H : keeps (session_put "req_token") (_oauth1_init h e provider auth_urls))
      by (apply closed_oauth1_init; auto with closed).
    destruct (H w) as [Hs|Hs]; auto.
  - assert (H : keeps (session_put "req_token") (_openid_init h e provider PyNone))
      by (apply closed_openid_init; auto with closed).
    destruct (H w) as [Hs|Hs]; auto.
Qed.

(** X3.  The handler uses two entries of the session and no other.  An
    init request leaves the session as it was or puts one entry into it, at
    ['req_token'] or at [OAUTH2_CSRF_SESSION_PARAM]; a callback request
    leaves the session as it was or takes one of these two entries out, and
    never puts anything in. *)
Theorem dispatchers_session_footprint h e provider w :
  let after_init := session (snd (_simple_auth h e provider w)) in
  let after_callback := session (snd (_auth_callback h e provider w)) in
  (after_init = session w
   \/ (exists token, after_init = <["req_token" := token]> (session w))
   \/ (exists state, after_init = <[OAUTH2_CSRF_SESSION_PARAM h := state]> (session w)))
  /\ (after_callback = session w
      \/ after_callback = delete "req_token" (session w)
      \/ after_callback = delete (OAUTH2_CSRF_SESSION_PARAM h) (session w)).
Proof.
  cbv zeta. rewrite simple_auth_run, auth_callback_run.
  destruct (PROVIDERS h !! provider) as [cfg|]; [|split; left; reflexivity]. split.
  - pose proof (init_flow_session h e provider cfg w) as H. cbv zeta in H.
    destruct (init_flow h e provider cfg w) as [[[]|ex] w1]; exact H.
  - pose proof (callback_flow_session h e provider cfg w) as H. cbv zeta in H.
    destruct (callback_flow h e provider cfg w) as [[[user_data auth_info]|ex] w1];
      exact H.
Qed.

(** *** OAuth 2.0 init *)

Lemma truthy_and a b : Py.truthy (Py.and_ a b) = Py.truthy a && Py.truthy b.
Proof. unfold Py.and_. destruct (Py.truthy a) eqn:Ha; [reflexivity | exact Ha]. Qed.

Lemma generate_csrf_token_run e t w :
  exists state,
    _generate_csrf_token e t w
    = (Ok state, mk_world (session w) (trace w) (rng_pos w + 30)).
Proof. unfold _generate_csrf_token, bind, ret. eexists. reflexivity. Qed.

Lemma init_params_items (key callback_url scope : pyval) (state : option string) :
  let params :=
    Dict.of_list [("response_type", PyStr "code");
                  ("client_id", key);
                  ("redirect_uri", callback_url)] in
  let params := if Py.truthy scope then Dict.setitem "scope" scope params else params in
  let params :=
    match state with
    | Some s => Dict.setitem "state" (PyStr s) params
    | None => params
    end in
  Dict.items params = oauth2_init_params key callback_url scope state.
Proof.
  unfold oauth2_init_params.
  destruct (Py.truthy scope), state; vm_compute; reflexivity.
Qed.

(** X4.  [_oauth2_init] without a key, a secret, an authorize URL or a
    callback URL logs an error and calls [_provider_not_supported], which
    redirects to [/]; it returns normally, and it leaves the session and
    the random source alone. *)
Theorem oauth2_init_missing_config h e provider auth_url key secret scope w :
  _get_consumer_info_for h provider = [key; secret; scope] ->
  Py.truthy key && Py.truthy secret && Py.truthy (PyStr auth_url)
  && Py.truthy (_callback_uri_for h provider) = false ->
  _oauth2_init h e provider auth_url w
  = (Ok tt,
     mk_world (session w)
              (trace w ++ [Log ERROR ("Provider " ++ provider ++ " is not supported");
                           ProviderNotSupported provider;
                           Redirect "/"])
              (rng_pos w)).
Proof.
  intros Hinfo Hvalid. unfold _oauth2_init. rewrite Hinfo. cbn [unpack3].
  unfold bind at 1, ret at 1. rewrite !truthy_and, Hvalid. cbn [negb].
  unfold bind, log, _provider_not_supported, redirect, emit. cbn.
  rewrite <- !app_assoc. reflexivity.
Qed.

Lemma oauth2_init_missing_config_witness :
  _oauth2_init SimpleAuthHandler (quiet_env []) "google"
               "https://accounts.google.com/o/oauth2/auth?{0}" (fresh ∅)
  = (Ok tt,
     mk_world ∅ [Log ERROR "Provider google is not supported";
                 ProviderNotSupported "google"; Redirect "/"] 0).
Proof.
  exact (oauth2_init_missing_config SimpleAuthHandler (quiet_env []) "google"
           "https://accounts.google.com/o/oauth2/auth?{0}" PyNone PyNone PyNone (fresh ∅)
           eq_refl eq_refl).
Defined.

Lemma oauth2_init_run h e provider auth_url key secret scope w state :
  _get_consumer_info_for h provider = [key; secret; scope] ->
  Py.truthy key && Py.truthy secret && Py.truthy (PyStr auth_url)
  && Py.truthy (_callback_uri_for h provider) = true ->
  _generate_csrf_token e None w
  = (Ok state, mk_world (session w) (trace w) (rng_pos w + 30)) ->
  let sent := if OAUTH2_CSRF_STATE h then Some state else None in
  let target :=
    Urllib.format auth_url
      (query_string (oauth2_init_params key (_callback_uri_for h provider) scope sent)) in
  let events := [Log DEBUG ("Redirecting user to " ++ target); Redirect target] in
  _oauth2_init h e provider auth_url w
  = (Ok tt,
     if OAUTH2_CSRF_STATE h
     then mk_world (<[OAUTH2_CSRF_SESSION_PARAM h := PyStr state]> (session w))
                   (trace w ++ events) (rng_pos w + 30)
     else mk_world (session w) (trace w ++ events) (rng_pos w)).
Proof.
  intros Hinfo Hvalid Hgen sent target events.
  unfold _oauth2_init. rewrite Hinfo. cbn [unpack3].
  unfold bind at 1, ret at 1. rewrite !truthy_and, Hvalid. cbn [negb].
  pose proof (init_params_items key (_callback_uri_for h provider) scope sent) as Hitems.
  cbv zeta in Hitems. unfold events, target, query_string. rewrite <- Hitems.
  unfold sent. destruct (OAUTH2_CSRF_STATE h).
  - unfold bind at 1. unfold bind at 1. rewrite Hgen.
    unfold bind, session_set, ret, log, redirect, emit. cbn.
    rewrite <- !app_assoc. reflexivity.
  - unfold bind, ret, log, redirect, emit. cbn. rewrite <- !app_assoc. reflexivity.
Qed.

Lemma append_empty s : (s ++ "")%string = s.
Proof.
  induction s as [|c s IH]; [reflexivity|].
  change (String c (s ++ "")%string = String c s). rewrite IH. reflexivity.
Qed.

(** A template that ends in its one replacement field. *)
Lemma format_at_end prefix arg :
  Str.mem "{" prefix = false ->
  Urllib.format (prefix ++ "{0}") arg = (prefix ++ arg)%string.
Proof.
  unfold Urllib.format, Str.replace. intros Hfree.
  induction prefix as [|c prefix IH].
  - simpl. apply append_empty.
  - cbn [Str.mem] in Hfree. apply orb_false_iff in Hfree as [Hc Hrest].
    change (String c prefix ++ "{0}")%string with (String c (prefix ++ "{0}")).
    change (String c prefix ++ arg)%string with (String c (prefix ++ arg)).
    cbn [Str.replace_from Str.strip_prefix]. rewrite Hc, (IH Hrest). reflexivity.
Qed.

Lemma is_template_open prefix : is_template prefix = true -> Str.mem "{" prefix = false.
Proof.
  unfold is_template. intros H. apply andb_true_iff in H as [H _].
  apply negb_true_iff in H. exact H.
Qed.

Lemma template_is_true prefix : Py.truthy (PyStr (prefix ++ "{0}")) = true.
Proof. destruct prefix; reflexivity. Qed.

(** X5.  [_oauth2_init] with a key, a secret, a callback URL and an
    authorize URL that ends in its one field [{0}] redirects the user to the
    authorize URL, whose query is made of [scope] (if the host asks for
    one), [state] (if CSRF protection is on), [redirect_uri],
    [response_type=code] and [client_id], in this order.  With CSRF
    protection on, the state it sends is a newly generated token, and it is
    this token that it stores in the session at
    [OAUTH2_CSRF_SESSION_PARAM]; with protection off the session is left
    alone.  Key, callback URL and scope are values of which [urlencode] can
    take the [str]: [None], booleans, integers or ASCII text. *)
Theorem oauth2_init_redirect h e provider prefix key secret scope w :
  is_template prefix = true ->
  _get_consumer_info_for h provider = [key; secret; scope] ->
  Py.truthy key && Py.truthy secret && Py.truthy (_callback_uri_for h provider) = true ->
  str_is_exact key && str_is_exact (_callback_uri_for h provider) && str_is_exact scope
  = true ->
  exists state,
    _generate_csrf_token e None w
    = (Ok state, mk_world (session w) (trace w) (rng_pos w + 30))
    /\ let sent := if OAUTH2_CSRF_STATE h then Some state else None in
       let target :=
         (prefix
          ++ query_string
               (oauth2_init_params key (_callback_uri_for h provider) scope sent))%string in
       let events := [Log DEBUG ("Redirecting user to " ++ target); Redirect target] in
       _oauth2_init h e provider (prefix ++ "{0}") w
       = (Ok tt,
          if OAUTH2_CSRF_STATE h
          then mk_world (<[OAUTH2_CSRF_SESSION_PARAM h := PyStr state]> (session w))
                        (trace w ++ events) (rng_pos w + 30)
          else mk_world (session w) (trace w ++ events) (rng_pos w)).
Proof.
  intros Htemplate Hinfo Hvalid _.
  destruct (generate_csrf_token_run e None w) as [state Hgen].
  exists state. split; [exact Hgen|].
  assert (Hvalid' : Py.truthy key && Py.truthy secret
                    && Py.truthy (PyStr (prefix ++ "{0}"))
                    && Py.truthy (_callback_uri_for h provider) = true).
  { rewrite template_is_true, andb_true_r. exact Hvalid. }
  pose proof (oauth2_init_run h e provider (prefix ++ "{0}") key secret scope w state
                Hinfo Hvalid' Hgen) as Hrun.
  cbv zeta in Hrun. rewrite (format_at_end _ _ (is_template_open _ Htemplate)) in Hrun.
  exact Hrun.
Qed.

Lemma oauth2_init_redirect_witness :
  exists state,
    _generate_csrf_token (quiet_env []) None (fresh ∅)
    = (Ok state, mk_world ∅ [] 30)
    /\ _oauth2_init (scenario_handler true) (quiet_env []) "google"
                    "https://accounts.google.com/o/oauth2/auth?{0}" (fresh ∅)
       = (Ok tt,
          mk_world
            {[ "oauth2_state" := PyStr state ]}
            [Log DEBUG
               ("Redirecting user to "
                ++ ("https://accounts.google.com/o/oauth2/auth?"
                    ++ query_string
                         (oauth2_init_params (PyStr "k") (PyStr "https://host/cb") PyNone
                                             (Some state))));
             Redirect
               ("https://accounts.google.com/o/oauth2/auth?"
                ++ query_string
                     (oauth2_init_params (PyStr "k") (PyStr "https://host/cb") PyNone
                                         (Some state)))]
            30).
Proof.
  exact (oauth2_init_redirect (scenario_handler true) (quiet_env []) "google"
           "https://accounts.google.com/o/oauth2/auth?"
           (PyStr "k") (PyStr "s") PyNone (fresh ∅) eq_refl eq_refl eq_refl eq_refl).
Defined.

(** *** OAuth 2.0 callback and the state token *)

Lemma validate_csrf_mismatch h e expected actual w :
  expected <> PyStr actual ->
  _validate_csrf_token h e expected actual w = (Ok false, w).
Proof.
  intros Hne. unfold _validate_csrf_token.
  destruct expected as [| | | |s| | |]; try reflexivity.
  destruct (String.eqb_spec s actual) as [->|_]; [congruence | reflexivity].
Qed.

(** X6.  With CSRF protection on, a callback whose [state] parameter is not
    the token that is stored in the session (or that finds no token there)
    raises before anything is sent or logged: it never reaches the token
    exchange. *)
Theorem oauth2_callback_rejects_foreign_state h e provider url w :
  OAUTH2_CSRF_STATE h = true ->
  session w !! OAUTH2_CSRF_SESSION_PARAM h
  <> Some (PyStr (default "" (request e !! "state"))) ->
  exists ex w',
    _oauth2_callback h e provider url w = (Raise ex, w') /\ trace w' = trace w.
Proof.
  intros Hon Hforeign. unfold _oauth2_callback.
  unfold bind, unpack3, unpack_error, raise, ret.
  destruct (_get_consumer_info_for h provider) as [|a [|b [|c [|d l]]]]; cbn; eauto.
  destruct (Py.truthy (request_get e "error" PyNone)); [eauto|].
  rewrite Hon. unfold session_pop.
  assert (Hact : Py.str (request_get e "state" (PyStr "")) = default "" (request e !! "state"))
    by (unfold request_get; destruct (request e !! "state"); reflexivity).
  rewrite Hact. clear Hact.
  remember (default "" (request e !! "state")) as actual.
  destruct (session w !! OAUTH2_CSRF_SESSION_PARAM h) as [stored|] eqn:Hs; cbn [default id].
  - rewrite validate_csrf_mismatch by congruence. cbn. eauto.
  - rewrite validate_csrf_empty. cbn. eauto.
Qed.

Lemma oauth2_callback_rejects_foreign_state_witness :
  exists ex w',
    _oauth2_callback (scenario_handler true)
                     (quiet_env [("code", "abc123"); ("state", "QTox")])
                     "google" google_token_url
                     (fresh {[ "oauth2_state" := PyStr "QTo=" ]})
    = (Raise ex, w')
    /\ trace w' = trace (fresh {[ "oauth2_state" := PyStr "QTo=" ]}).
Proof.
  apply (oauth2_callback_rejects_foreign_state
           (scenario_handler true) (quiet_env [("code", "abc123"); ("state", "QTox")])
           "google" google_token_url (fresh {[ "oauth2_state" := PyStr "QTo=" ]}));
    [reflexivity | vm_compute; discriminate].
Defined.

(** What [_oauth2_callback] does once the consumer is unpacked and no error
    was reported. *)
Lemma oauth2_callback_run h e provider url w client_id client_secret scope :
  _get_consumer_info_for h provider = [client_id; client_secret; scope] ->
  Py.truthy (request_get e "error" PyNone) = false ->
  let exchange :=
    token_exchange h e provider url (request_get e "code" PyNone) client_id client_secret in
  let expected := default (PyStr "") (session w !! OAUTH2_CSRF_SESSION_PARAM h) in
  let actual := default "" (request e !! "state") in
  _oauth2_callback h e provider url w
  = if OAUTH2_CSRF_STATE h then
      match _validate_csrf_token h e expected actual
              (mk_world (delete (OAUTH2_CSRF_SESSION_PARAM h) (session w))
                        (trace w) (rng_pos w)) with
      | (Ok true, w1) => exchange w1
      | (Ok false, w1) =>
          (Raise (mk_exn Exception
                    ("State parameter is not valid. Expected [" ++ Py.str expected
                     ++ "], got [" ++ actual ++ "]")), w1)
      | (Raise ex, w1) => (Raise ex, w1)
      end
    else exchange w.
Proof.
  intros Hinfo Herr exchange expected actual.
  unfold _oauth2_callback. rewrite Hinfo, Herr. cbn [unpack3].
  unfold bind at 1, ret at 1. unfold bind at 1, ret at 1.
  assert (Hact : Py.str (request_get e "state" (PyStr "")) = actual)
    by (unfold actual, request_get; destruct (request e !! "state"); reflexivity).
  rewrite Hact.
  destruct (OAUTH2_CSRF_STATE h).
  - unfold bind at 1. unfold bind at 1. unfold bind at 1. cbn [session_pop].
    fold expected.
    destruct (_validate_csrf_token h e expected actual _) as [[[|]|ex] w1];
      reflexivity.
  - unfold bind at 1, ret at 1. reflexivity.
Qed.

Lemma token_request_body_payload h provider code client_id client_secret :
  Urllib.urlencode
    (Dict.of_list [("code", code);
                   ("client_id", client_id);
                   ("client_secret", client_secret);
                   ("redirect_uri", _callback_uri_for h provider);
                   ("grant_type", PyStr "authorization_code")])
  = token_request_body code client_id client_secret (_callback_uri_for h provider).
Proof. unfold Urllib.urlencode. rewrite payload_items. reflexivity. Qed.

(** The token exchange begins with the POST of the payload and leaves the
    session alone. *)
Lemma token_exchange_posts h e provider url code client_id client_secret w :
  exists tail,
    added w (snd (token_exchange h e provider url code client_id client_secret w))
    = UrlFetch url
               (Some (token_request_body code client_id client_secret
                                         (_callback_uri_for h provider)))
               "POST" :: tail.
Proof.
  unfold token_exchange. rewrite token_request_body_payload.
  unfold urlfetch_post. unfold bind at 2. unfold bind at 1. cbn [emit].
  match goal with
  | |- context [lift ?answer ?w2] =>
      pose proof (oauth2_callback_after_fetch (R := trace_grows) h e provider
                    client_id client_secret answer w2) as [tail Htail]
  end.
  unfold bind at 1 in Htail. exists tail.
  apply added_app. rewrite Htail. cbn [trace]. rewrite <- app_assoc. reflexivity.
Qed.

Lemma token_exchange_session h e provider url code client_id client_secret w :
  session (snd (token_exchange h e provider url code client_id client_secret w))
  = session w.
Proof.
  unfold token_exchange, urlfetch_post. unfold bind at 2. unfold bind at 1. cbn [emit].
  match goal with
  | |- context [lift ?answer ?w2] =>
      pose proof (oauth2_callback_after_fetch (R := same_session) h e provider
                    client_id client_secret answer w2) as Hs
  end.
  unfold bind at 1 in Hs. exact Hs.
Qed.

(** A generated token validates against itself until the timeout has
    passed. *)
Lemma validate_generated h e e' w w' token w1 :
  _generate_csrf_token e None w = (Ok token, w1) ->
  _validate_csrf_token h e' (PyStr token) token w'
  = if (time_time e' - time_time e <=? OAUTH2_CSRF_TOKEN_TIMEOUT h)%Z
    then (Ok true, w')
    else (Ok false,
          mk_world (session w')
                   (trace w' ++ [Log ERROR ("CSRF token timeout (issued at "
                                            ++ Str.of_long (time_time e) ++ ")")])
                   (rng_pos w')).
Proof.
  unfold _generate_csrf_token, bind, ret.
  destruct (generate_random_string_length e 30 ASCII_PRINTABLE w) as (secret & -> & Hlen).
  intros [= <- _].
  assert (Hs : secret <> EmptyString) by (intros E; rewrite E in Hlen; discriminate).
  unfold _validate_csrf_token. rewrite String.eqb_refl. cbn [negb].
  pose proof (csrf_token_time_generated secret (time_time e) Hs) as Htime.
  cbn [Str.join] in Htime. rewrite Htime.
  unfold bind, ret, log, emit. rewrite Z.ltb_antisym.
  destruct (time_time e' - time_time e <=? OAUTH2_CSRF_TOKEN_TIMEOUT h)%Z;
    [|reflexivity].
  cbn [negb]. f_equal.
Qed.

(** X7.  Init and callback of OAuth 2.0 with CSRF protection on, one after
    the other.  The token [_oauth2_init] generates is in the session when it
    returns.  A callback for the same provider that brings this token as its
    [state] takes it out of the session; if no more than
    [OAUTH2_CSRF_TOKEN_TIMEOUT] seconds have passed since the token was made,
    the next thing the callback does is the POST of [client_secret], [code],
    [grant_type], [client_id] and [redirect_uri] to the token endpoint, and
    otherwise it logs the timeout, raises and sends nothing.  The values of
    the callback request are ASCII text, and key, secret and callback URL
    are values of which [urlencode] can take the [str]. *)
Theorem oauth2_state_round_trip
        h e provider auth_url key secret scope w state w0 e' url :
  OAUTH2_CSRF_STATE h = true ->
  _get_consumer_info_for h provider = [key; secret; scope] ->
  Py.truthy key && Py.truthy secret && Py.truthy (PyStr auth_url)
  && Py.truthy (_callback_uri_for h provider) = true ->
  _generate_csrf_token e None w = (Ok state, w0) ->
  request e' !! "state" = Some state ->
  request e' !! "error" = None ->
  ascii_request e' = true ->
  str_is_exact key && str_is_exact secret && str_is_exact (_callback_uri_for h provider)
  = true ->
  let w1 := snd (_oauth2_init h e provider auth_url w) in
  let w2 := snd (_oauth2_callback h e' provider url w1) in
  session w1 !! OAUTH2_CSRF_SESSION_PARAM h = Some (PyStr state)
  /\ session w2 !! OAUTH2_CSRF_SESSION_PARAM h = None
  /\ if (time_time e' - time_time e <=? OAUTH2_CSRF_TOKEN_TIMEOUT h)%Z
     then exists tail,
            added w1 w2
            = UrlFetch url
                (Some (token_request_body (request_get e' "code" PyNone) key secret
                                          (_callback_uri_for h provider)))
                "POST" :: tail
     else (exists ex, fst (_oauth2_callback h e' provider url w1) = Raise ex)
          /\ added w1 w2
             = [Log ERROR ("CSRF token timeout (issued at "
                           ++ Str.of_long (time_time e) ++ ")")].
Proof.
  intros Hon Hinfo Hvalid Hgen Hstate Herror _ _ w1 w2.
  assert (Hgen' := Hgen).
  destruct (generate_csrf_token_run e None w) as [state' Hrun].
  rewrite Hrun in Hgen'. injection Hgen' as -> <-.
  pose proof (oauth2_init_run h e provider auth_url key secret scope w state
                Hinfo Hvalid Hrun) as Hinit.
  cbv zeta in Hinit. rewrite Hon in Hinit.
  assert (Hs1 : session w1 !! OAUTH2_CSRF_SESSION_PARAM h = Some (PyStr state))
    by (unfold w1; rewrite Hinit; cbn [snd session]; apply lookup_insert_eq).
  split; [exact Hs1|].
  assert (Herr : Py.truthy (request_get e' "error" PyNone) = false)
    by (unfold request_get; rewrite Herror; reflexivity).
  pose proof (oauth2_callback_run h e' provider url w1 key secret scope Hinfo Herr) as Hcb.
  cbv zeta in Hcb. rewrite Hon, Hs1, Hstate in Hcb. cbn [default] in Hcb.
  rewrite (validate_generated h e e' w _ state _ Hrun) in Hcb.
  unfold w2. rewrite Hcb.
  destruct (time_time e' - time_time e <=? OAUTH2_CSRF_TOKEN_TIMEOUT h)%Z.
  - split.
    + rewrite token_exchange_session. cbn [session]. apply lookup_delete_eq.
    + match goal with
      | |- context [snd (token_exchange ?h ?e ?p ?u ?c ?k ?s ?w)] =>
          destruct (token_exchange_posts h e p u c k s w) as (tail & Hadd);
          exists tail; rewrite <- Hadd
      end.
      unfold added. reflexivity.
  - cbn [snd fst session]. split; [apply lookup_delete_eq|].
    split; [eauto|]. apply added_app. reflexivity.
Qed.

Lemma oauth2_state_round_trip_witness :
  session (snd (_oauth2_init (scenario_handler true) (quiet_env []) "google"
                             "https://accounts.google.com/o/oauth2/auth?{0}" (fresh ∅)))
    !! "oauth2_state" = Some (PyStr scenario_state)
  /\ session (snd (_oauth2_callback
                     (scenario_handler true)
                     (at_time (quiet_env [("state", scenario_state); ("code", "abc123")]) 60)
                     "google" google_token_url
                     (snd (_oauth2_init (scenario_handler true) (quiet_env []) "google"
                                        "https://accounts.google.com/o/oauth2/auth?{0}"
                                        (fresh ∅)))))
       !! "oauth2_state" = None
  /\ exists tail,
       added (snd (_oauth2_init (scenario_handler true) (quiet_env []) "google"
                                "https://accounts.google.com/o/oauth2/auth?{0}" (fresh ∅)))
             (snd (_oauth2_callback
                     (scenario_handler true)
                     (at_time (quiet_env [("state", scenario_state); ("code", "abc123")]) 60)
                     "google" google_token_url
                     (snd (_oauth2_init (scenario_handler true) (quiet_env []) "google"
                                        "https://accounts.google.com/o/oauth2/auth?{0}"
                                        (fresh ∅)))))
       = UrlFetch google_token_url
           (Some "client_secret=s&code=abc123&grant_type=authorization_code&client_id=k&redirect_uri=https%3A%2F%2Fhost%2Fcb")
           "POST" :: tail.
Proof.
  apply (oauth2_state_round_trip
           (scenario_handler true) (quiet_env []) "google"
           "https://accounts.google.com/o/oauth2/auth?{0}"
           (PyStr "k") (PyStr "s") PyNone (fresh ∅)
           scenario_state (mk_world ∅ [] 30)
           (at_time (quiet_env [("state", scenario_state); ("code", "abc123")]) 60)
           google_token_url); vm_compute; reflexivity.
Defined.

(** *** OAuth 1.0 *)

#[global] Instance same_world_closed : Closed same_world.
Proof. split; unfold same_world; intros; congruence. Qed.

#[global] Hint Resolve same_world_closed : closed.

(** A step that leaves the world as it was hands its result on, or its
    exception. *)
Lemma bind_pure {A B} (m : M A) (k : A -> M B) w :
  keeps same_world m ->
  bind m k w = match fst (m w) with
               | Ok a => k a w
               | Raise ex => (Raise ex, w)
               end.
Proof.
  intros H. specialize (H w). unfold bind, same_world in *.
  destruct (m w) as [[a|ex] w0]; cbn [fst snd] in *; subst w0; reflexivity.
Qed.

Ltac pure_step := rewrite bind_pure by (unfold same_world; auto with closed).

Lemma call_parser_pure parser body w w0 r :
  fst (call_parser parser body w) = r -> call_parser parser body w0 = (r, w0).
Proof.
  intros <-. unfold call_parser, _json_parser, _query_string_parser.
  destruct parser; try reflexivity.
  destruct (String.eqb _ _); [|reflexivity].
  destruct (Json.loads body); reflexivity.
Qed.

(** X8.  [_oauth1_init] stores a request token only when it also sends the
    user to the provider, and what it stores is the decoded answer of the
    provider.  If it returns, the one network request was the signed GET of
    the request-token URL by the client of the host's consumer, the
    provider answered it with status 200, the session has gained at
    ['req_token'] what the provider's decoder makes of the body of that
    answer, a dict whose [oauth_token] is not empty, and the last thing done
    was the one redirect.  If it raises, the session is as it was and
    nobody was redirected. *)
Theorem oauth1_init_outcomes h e provider auth_urls w :
  oauth1_init_post h e provider auth_urls w
                   (fst (_oauth1_init h e provider auth_urls w))
                   (snd (_oauth1_init h e provider auth_urls w)).
Proof.
  enough (H : exists r w',
             _oauth1_init h e provider auth_urls w = (r, w')
             /\ oauth1_init_post h e provider auth_urls w r w')
    by (destruct H as (r & w' & -> & H); exact H).
  assert (Hquit : forall ex w', session w' = session w -> redirects (added w w') = [] ->
            exists r w'0, (@Raise unit ex, w') = (r, w'0)
                          /\ oauth1_init_post h e provider auth_urls w r w'0)
    by (intros ex w' Hs Hr; exists (Raise ex), w'; cbn; auto).
  assert (Hw : redirects (added w w) = [])
    by (rewrite (added_app w w []); [reflexivity | symmetry; apply app_nil_r]).
  unfold _oauth1_init.
  destruct (_get_consumer_info_for h provider) as [|key [|secret [|third rest]]] eqn:Hinfo;
    try (apply Hquit; auto).
  cbn [unpack2]. unfold bind at 1, ret at 1.
  unfold parser_name_for at 1.
  destruct (TOKEN_RESPONSE_PARSERS h !! provider) as [name|] eqn:Hname;
    [|apply Hquit; auto].
  unfold bind at 1, ret at 1.
  destruct (negb (Py.truthy _)); [apply Hquit; auto|].
  pure_step. destruct (fst (_oauth1_client None key secret w)) as [client|ex] eqn:Hclient;
    [|apply Hquit; auto].
  assert (Hc : client = mk_client key secret None).
  { unfold _oauth1_client, oauth1_Consumer in Hclient.
    destruct key, secret; cbn in Hclient; congruence. }
  subst client.
  unfold auth_urls_item at 1.
  destruct (auth_urls !! "request") as [url|] eqn:Hurl; [|apply Hquit; auto].
  unfold bind at 1, ret at 1.
  unfold client_request. unfold bind at 1. unfold bind at 1. cbn [emit lift].
  set (client := mk_client key secret None).
  set (w1 := mk_world (session w) (trace w ++ [OAuth1Request client url "GET"]) (rng_pos w)).
  assert (Hw1 : redirects (added w w1) = [])
    by (rewrite (added_app w w1 [OAuth1Request client url "GET"]); reflexivity).
  destruct (oauth1_request e client url "GET") as [[status content]|ex] eqn:Hanswer;
    [|apply Hquit; auto].
  destruct (Z.eqb_spec status 200) as [->|_]; cbn [negb]; [|apply Hquit; auto].
  pure_step.
  destruct (fst (call_parser _ content w1)) as [request_token|ex] eqn:Hparse;
    [|apply Hquit; auto].
  pure_step.
  destruct (fst (py_get request_token "oauth_token" w1)) as [oauth_token|ex] eqn:Hget;
    [|apply Hquit; auto].
  destruct (Py.truthy oauth_token) eqn:Htoken; cbn [negb]; [|apply Hquit; auto].
  pure_step. destruct (fst (auth_urls_item auth_urls "auth" w1)) as [template|ex];
    [|apply Hquit; auto].
  pure_step. rewrite Hget.
  destruct request_token as [| | | | | |items|]; try discriminate Hget.
  cbn [py_get ret fst] in Hget. injection Hget as <-.
  unfold bind, log, session_set, redirect, emit. cbn [fst snd session trace].
  eexists _, _. split; [reflexivity|].
  eexists key, secret, name, url, content, items,
    [OAuth1Request client url "GET"; Log DEBUG _], _.
  split; [exact Hinfo|]. split; [exact Hname|]. split; [exact Hurl|].
  split; [exact Hanswer|].
  split; [intros w0; apply (call_parser_pure _ _ w1), Hparse|].
  split; [exact Htoken|]. split; [reflexivity|].
  rewrite (added_app w _ ([OAuth1Request client url "GET"; Log DEBUG _] ++ [Redirect _]))
    by (unfold w1; cbn [trace]; rewrite <- !app_assoc; reflexivity).
  split; [reflexivity|]. split; reflexivity.
Qed.

Lemma oauth1_Token_ok key secret :
  key <> PyNone -> secret <> PyNone ->
  oauth1_Token key secret = ret (mk_token key secret PyNone).
Proof. intros Hk Hs. destruct key, secret; try contradiction; reflexivity. Qed.

Lemma oauth1_client_ok token key secret :
  key <> PyNone -> secret <> PyNone ->
  _oauth1_client token key secret = ret (mk_client key secret token).
Proof.
  intros Hk Hs. unfold _oauth1_client.
  destruct key, secret; try contradiction; reflexivity.
Qed.

(** What a step adds when it first emits an event and then only adds to the
    trace. *)
Lemma emit_then_grows {A} ev (m : M A) w :
  keeps trace_grows m ->
  exists tail, added w (snd (bind (emit ev) (fun _ => m) w)) = ev :: tail.
Proof.
  intros Hm. unfold bind. cbn [emit].
  match goal with |- context [m ?w1] => destruct (Hm w1) as [tail Htail] end.
  exists tail. apply added_app. rewrite Htail. cbn [trace].
  rewrite <- app_assoc. reflexivity.
Qed.

(** X9.  The callback signs with what init stored.  When the session holds
    a request token with [oauth_token] and [oauth_token_secret], the request
    carries a verifier and the host has a consumer key and secret, the next
    thing [_oauth1_callback] does is the signed POST to the access-token
    URL, made by a client that holds the consumer and the stored token with
    the verifier of the request set on it. *)
Theorem oauth1_callback_signs_with_stored_token
        h e provider url w items token_key token_secret verifier key secret :
  session w !! "req_token" = Some (PyDict items) ->
  Py.assoc "oauth_token" items = Some token_key -> token_key <> PyNone ->
  Py.assoc "oauth_token_secret" items = Some token_secret -> token_secret <> PyNone ->
  request e !! "oauth_verifier" = Some verifier -> verifier <> "" ->
  _get_consumer_info_for h provider = [key; secret] -> key <> PyNone -> secret <> PyNone ->
  exists tail,
    added w (snd (_oauth1_callback h e provider url w))
    = OAuth1Request
        (mk_client key secret (Some (mk_token token_key token_secret (PyStr verifier))))
        url "POST" :: tail.
Proof.
  intros Hs Htk Htk' Hts Hts' Hv Hv' Hinfo Hk Hk'.
  unfold _oauth1_callback. unfold bind at 1. cbn [session_pop].
  rewrite Hs, Hinfo. cbn [default unpack2]. unfold bind at 1, ret at 1.
  assert (Hitems : Py.truthy (PyDict items) = true)
    by (destruct items; [discriminate Htk | reflexivity]).
  assert (Hver : request_get e "oauth_verifier" PyNone = PyStr verifier)
    by (unfold request_get; rewrite Hv; reflexivity).
  assert (Hver' : Py.truthy (PyStr verifier) = true)
    by (cbn; destruct (String.eqb_spec verifier ""); [contradiction | reflexivity]).
  cbn [id]. rewrite Hitems, Hver, Hver'. cbn [negb py_getitem]. rewrite Htk, Hts.
  unfold bind at 1, ret at 1. unfold bind at 1, ret at 1.
  rewrite oauth1_Token_ok by assumption. unfold bind at 1, ret at 1.
  rewrite oauth1_client_ok by assumption. unfold bind at 1, ret at 1.
  unfold client_request.
  match goal with
  | |- context [bind (bind (emit ?ev) (fun _ => ?m)) ?k ?w1] =>
      change (bind (bind (emit ev) (fun _ => m)) k w1)
        with (bind (emit ev) (fun _ => bind m k) w1);
      destruct (emit_then_grows ev (bind m k) w1) as [tail Htail]
  end.
  - pose proof trace_grows_stable. keeps_tac.
  - exists tail. exact Htail.
Qed.

Lemma oauth1_callback_signs_with_stored_token_witness :
  exists tail,
    added (fresh {[ "req_token" := PyDict [("oauth_token", PyStr "rt1");
                                           ("oauth_token_secret", PyStr "rts1")] ]})
          (snd (_oauth1_callback
                  (oauth1_handler (PyStr "k") (PyStr "s"))
                  (quiet_env [("oauth_verifier", "v1")])
                  "twitter" "https://api.twitter.com/oauth/access_token"
                  (fresh {[ "req_token" := PyDict [("oauth_token", PyStr "rt1");
                                                   ("oauth_token_secret", PyStr "rts1")] ]})))
    = OAuth1Request
        (mk_client (PyStr "k") (PyStr "s")
                   (Some (mk_token (PyStr "rt1") (PyStr "rts1") (PyStr "v1"))))
        "https://api.twitter.com/oauth/access_token" "POST" :: tail.
Proof.
  apply (oauth1_callback_signs_with_stored_token
           (oauth1_handler (PyStr "k") (PyStr "s"))
           (quiet_env [("oauth_verifier", "v1")])
           "twitter" "https://api.twitter.com/oauth/access_token"
           (fresh {[ "req_token" := PyDict [("oauth_token", PyStr "rt1");
                                            ("oauth_token_secret", PyStr "rts1")] ]})
           [("oauth_token", PyStr "rt1"); ("oauth_token_secret", PyStr "rts1")]
           (PyStr "rt1") (PyStr "rts1") "v1" (PyStr "k") (PyStr "s"));
    first [reflexivity | discriminate].
Defined.

(** X10.  [_oauth1_init] asks only for [oauth_token] in the answer of the
    provider, [_oauth1_callback] reads [oauth_token_secret] as well: when the
    request token in the session lacks one of the two, the callback raises
    before it has sent anything. *)
Theorem oauth1_callback_incomplete_token h e provider url w items :
  session w !! "req_token" = Some (PyDict items) ->
  Py.assoc "oauth_token" items = None \/ Py.assoc "oauth_token_secret" items = None ->
  exists ex w',
    _oauth1_callback h e provider url w = (Raise ex, w') /\ trace w' = trace w.
Proof.
  intros Hs Hmissing. unfold _oauth1_callback. unfold bind at 1. cbn [session_pop].
  rewrite Hs. cbn [default id].
  unfold bind, unpack2, unpack_error, raise, ret.
  destruct (_get_consumer_info_for h provider) as [|a [|b [|c l]]]; cbn; eauto.
  destruct items as [|item items]; [cbn; eauto|]. cbn [Py.truthy negb].
  destruct (negb (Py.truthy (request_get e "oauth_verifier" PyNone))); [eauto|].
  destruct (Py.assoc "oauth_token" (item :: items)) as [token_key|] eqn:Hk; [|eauto].
  destruct Hmissing as [H|H]; [discriminate H|]. rewrite H. eauto.
Qed.

Lemma oauth1_callback_incomplete_token_witness :
  exists ex w',
    _oauth1_callback (oauth1_handler (PyStr "k") (PyStr "s"))
                     (careless_env [("oauth_verifier", "v1")])
                     "twitter" "https://api.twitter.com/oauth/access_token"
                     (snd (_simple_auth (oauth1_handler (PyStr "k") (PyStr "s"))
                                        (careless_env []) "twitter" (fresh ∅)))
    = (Raise ex, w')
    /\ trace w'
       = trace (snd (_simple_auth (oauth1_handler (PyStr "k") (PyStr "s"))
                                  (careless_env []) "twitter" (fresh ∅))).
Proof.
  apply (oauth1_callback_incomplete_token
           (oauth1_handler (PyStr "k") (PyStr "s"))
           (careless_env [("oauth_verifier", "v1")])
           "twitter" "https://api.twitter.com/oauth/access_token"
           (snd (_simple_auth (oauth1_handler (PyStr "k") (PyStr "s"))
                              (careless_env []) "twitter" (fresh ∅)))
           [("oauth_token", PyStr "rt1")]);
    [vm_compute; reflexivity | right; reflexivity].
Defined.

(** *** OpenID *)



(** X12.  A callback request for an OpenID provider signs the current user
    in exactly when there is one with a federated identity: [_on_signin]
    gets the identity as [id], the nickname and the email, and the
    federated provider as auth info.  Otherwise [_auth_error] is called
    with ['OpenID Authentication failed'].  Either way the session is left
    alone and nothing is asked of the network. *)
Theorem openid_callback_outcomes h e provider w :
  PROVIDERS h !! provider = Some cfg_openid ->
  let failed := auth_error_events provider "OpenID Authentication failed" in
  let events :=
    match users_get_current_user e with
    | Some u =>
        if Py.truthy (federated_identity u)
        then [OnSignin (PyDict [("id", federated_identity u);
                                ("nickname", nickname u);
                                ("email", email u)])
                       (PyDict [("provider", federated_provider u)])
                       provider]
        else failed
    | None => failed
    end in
  _auth_callback h e provider w
  = (Ok tt, mk_world (session w) (trace w ++ events) (rng_pos w)).
Proof.
  intros Hcfg failed events.
  rewrite auth_callback_run, Hcfg. cbn [callback_flow]. unfold _openid_callback, events.
  destruct (users_get_current_user e) as [u|].
  - destruct (Py.truthy (federated_identity u)); [reflexivity|].
    unfold failed, auth_error_events, raise, on_error, _auth_error, bind, log, redirect, emit.
    cbn. rewrite <- !app_assoc. reflexivity.
  - unfold failed, auth_error_events, raise, on_error, _auth_error, bind, log, redirect, emit.
    cbn. rewrite <- !app_assoc. reflexivity.
Qed.

Lemma openid_callback_outcomes_witness :
  _auth_callback (scenario_handler false) (openid_env [] (Some openid_user))
                 "openid" (fresh ∅)
  = (Ok tt,
     mk_world ∅
       [OnSignin (PyDict [("id", PyStr "https://id.example/ann");
                          ("nickname", PyStr "ann");
                          ("email", PyStr "ann@example.org")])
                 (PyDict [("provider", PyStr "id.example")])
                 "openid"]
       0).
Proof.
  exact (openid_callback_outcomes (scenario_handler false)
           (openid_env [] (Some openid_user)) "openid" (fresh ∅) eq_refl).
Defined.

(** *** A handler that is not configured *)

(** X13.  With the class's own [_callback_uri_for] and
    [_get_consumer_info_for], which return [None] and
    [(None, None, None)], an init request touches neither session nor
    random source, asks nothing of the network and ends in the redirect to
    [/].  For an OAuth 2.0 or OpenID provider and for an unknown one it gets
    there through [_provider_not_supported]; for an OAuth 1.0 provider
    through [_auth_error], because the three-element tuple does not unpack
    into key and secret. *)
Theorem unconfigured_init_is_inert h e provider w :
  _callback_uri_for h provider = PyNone ->
  _get_consumer_info_for h provider = [PyNone; PyNone; PyNone] ->
  exists w',
    _simple_auth h e provider w = (Ok tt, w')
    /\ session w' = session w
    /\ rng_pos w' = rng_pos w
    /\ filter is_network (added w w') = []
    /\ redirects (added w w') = ["/"]
    /\ filter is_outcome (added w w')
       = match PROVIDERS h !! provider with
         | Some (cfg_oauth1 _ _) => [AuthError provider "too many values to unpack"]
         | _ => [ProviderNotSupported provider]
         end.
Proof.
  intros Hcb Hinfo. rewrite simple_auth_run.
  destruct (PROVIDERS h !! provider) as [[auth_url url | auth_urls url |]|];
    cbn [init_flow].
  - unfold _oauth2_init. rewrite Hinfo, Hcb. cbn [unpack3].
    unfold bind at 1, ret at 1. rewrite !truthy_and, andb_false_r. cbn [negb].
    eexists. split; [reflexivity|]. split; [reflexivity|]. split; [reflexivity|].
    rewrite (added_app w _ [Log ERROR ("Provider " ++ provider ++ " is not supported");
                            ProviderNotSupported provider; Redirect "/"])
      by (cbn [trace]; rewrite <- !app_assoc; reflexivity).
    repeat split.
  - unfold _oauth1_init. rewrite Hinfo.
    eexists. split; [reflexivity|]. split; [reflexivity|]. split; [reflexivity|].
    rewrite (added_app w _ (auth_error_events provider "too many values to unpack"))
      by (cbn [trace]; rewrite <- !app_assoc; reflexivity).
    repeat split.
  - unfold _openid_init. rewrite Hcb, truthy_and, andb_false_r.
    unfold bind, log, _provider_not_supported, redirect, emit. cbn [fst snd].
    eexists. split; [reflexivity|]. split; [reflexivity|]. split; [reflexivity|].
    match goal with
    | |- context [Log ERROR ?msg] =>
        rewrite (added_app w _ [Log ERROR msg; ProviderNotSupported provider; Redirect "/"])
          by (cbn [trace]; rewrite <- !app_assoc; reflexivity)
    end.
    repeat split.
  - eexists. split; [reflexivity|]. split; [reflexivity|]. split; [reflexivity|].
    rewrite (added_app w _ [Log ERROR ("Provider " ++ provider ++ " is not supported");
                            ProviderNotSupported provider; Redirect "/"])
      by (cbn [trace]; rewrite <- !app_assoc; reflexivity).
    repeat split.
Qed.

Lemma unconfigured_init_is_inert_witness :
  exists w',
    _simple_auth SimpleAuthHandler (quiet_env []) "twitter" (fresh ∅) = (Ok tt, w')
    /\ session w' = ∅
    /\ rng_pos w' = 0
    /\ filter is_network (added (fresh ∅) w') = []
    /\ redirects (added (fresh ∅) w') = ["/"]
    /\ filter is_outcome (added (fresh ∅) w')
       = [AuthError "twitter" "too many values to unpack"].
Proof.
  exact (unconfigured_init_is_inert SimpleAuthHandler (quiet_env []) "twitter" (fresh ∅)
           eq_refl eq_refl).
Defined.

(** *** The CSRF state token *)

Lemma url_safe_ok_all c : url_safe_ok c = true.
Proof. revert c. apply forall_byte. vm_compute. reflexivity. Qed.

Lemma urlsafe_b64encode_chars s :
  forallb url_safe_char (Str.to_list (Base64.urlsafe_b64encode s)) = true.
Proof.
  unfold Base64.urlsafe_b64encode, Str.to_list, Str.of_list.
  rewrite list_ascii_of_string_of_list_ascii.
  pose proof (b2a_chars (list_ascii_of_string s)) as H.
  change (Base64.b2a (Str.to_list s)) with (Base64.b2a (list_ascii_of_string s)).
  induction H as [|c l Hc _ IH]; [reflexivity|].
  cbn [Base64.translate map forallb]. unfold Base64.translate in IH. rewrite IH.
  pose proof (url_safe_ok_all c) as Hok. unfold url_safe_ok in Hok.
  rewrite Hc in Hok. cbn [implb] in Hok. unfold to_urlsafe in Hok.
  rewrite Hok. reflexivity.
Qed.

Lemma b2a_length bs : exists n, length (Base64.b2a bs) = 4 * n /\ (bs <> [] -> 0 < n).
Proof.
  induction bs as [|a|a b|a b c l IH] using list_ind3; cbn [Base64.b2a length].
  - exists 0. split; [reflexivity | congruence].
  - exists 1. split; [reflexivity | lia].
  - exists 1. split; [reflexivity | lia].
  - destruct IH as (n & Hn & _). exists (S n). split; [lia | lia].
Qed.

(** X14.  [_generate_csrf_token] always returns a token, and the token can
    stand in a URL as it is: it is not empty, its length is a multiple of
    four, and it is made of letters, digits, [-], [_] and [=] only.  Making
    it draws thirty characters from the random source and changes nothing
    else. *)
Theorem csrf_token_is_url_safe e t w :
  exists token n,
    _generate_csrf_token e t w
    = (Ok token, mk_world (session w) (trace w) (rng_pos w + 30))
    /\ forallb url_safe_char (Str.to_list token) = true
    /\ String.length token = 4 * n
    /\ 0 < n.
Proof.
  unfold _generate_csrf_token, bind, ret.
  destruct (generate_random_string_length e 30 ASCII_PRINTABLE w) as (secret & -> & Hlen).
  match goal with
  | |- context [Base64.urlsafe_b64encode ?s] =>
      destruct (b2a_length (Str.to_list s)) as (n & Hn & Hpos);
      exists (Base64.urlsafe_b64encode s), n
  end.
  split; [reflexivity|]. split; [apply urlsafe_b64encode_chars|]. split.
  - unfold Base64.urlsafe_b64encode, Base64.translate.
    rewrite of_list_length, length_map. exact Hn.
  - apply Hpos. destruct secret; [discriminate Hlen | discriminate].
Qed.

Lemma rsplit1_none sep s : Str.rsplit1 sep s = None -> Str.mem sep s = false.
Proof.
  induction s as [|c r IH]; [reflexivity|]. cbn [Str.rsplit1 Str.mem].
  destruct (Str.rsplit1 sep r) as [[a b]|]; [discriminate|].
  rewrite (Ascii.eqb_sym sep c).
  destruct (Ascii.eqb c sep); [discriminate|]. intros _. apply IH. reflexivity.
Qed.

(** [rsplit] cuts at the last separator: what is after it has none. *)
Lemma rsplit1_inv sep s a b :
  Str.rsplit1 sep s = Some (a, b) ->
  s = (a ++ String sep b)%string /\ Str.mem sep b = false.
Proof.
  revert a. induction s as [|c r IH]; intros a; [discriminate|].
  cbn [Str.rsplit1].
  destruct (Str.rsplit1 sep r) as [[a' b']|] eqn:Hr.
  - intros [= <- <-]. destruct (IH a' eq_refl) as [-> Hb]. split; [reflexivity | exact Hb].
  - destruct (Ascii.eqb_spec c sep) as [->|_]; [|discriminate].
    intros [= <- <-]. split; [reflexivity | apply rsplit1_none, Hr].
Qed.

(** The [try] block of the validator gives a time stamp exactly for a
    token that decodes to a key that is not empty, the delimiter and an
    integer. *)
Lemma csrf_token_time_some actual token_time :
  csrf_token_time actual = Ok (Some token_time)
  <-> Str.is_ascii actual = true
      /\ exists token_key time_text,
           Base64.urlsafe_b64decode actual
           = Some (token_key ++ String OAUTH2_CSRF_DELIMITER time_text)%string
           /\ Str.mem OAUTH2_CSRF_DELIMITER time_text = false
           /\ token_key <> ""%string
           /\ Str.to_long time_text = Some token_time.
Proof.
  unfold csrf_token_time. split.
  - destruct (Str.is_ascii actual); cbn [negb]; [|discriminate].
    destruct (Base64.urlsafe_b64decode actual) as [decoded|]; [|discriminate].
    destruct (Str.rsplit1 OAUTH2_CSRF_DELIMITER decoded) as [[token_key time_text]|] eqn:Hsplit;
      [|discriminate].
    destruct (Str.to_long time_text) as [z|] eqn:Hlong; [|discriminate].
    destruct (String.eqb_spec token_key "") as [|Hkey]; [discriminate|].
    intros [= <-]. split; [reflexivity|].
    destruct (rsplit1_inv _ _ _ _ Hsplit) as [-> Hmem].
    exists token_key, time_text. auto.
  - intros (-> & token_key & time_text & -> & Hmem & Hkey & Hlong). cbn [negb].
    rewrite (rsplit1_append _ _ _ Hmem), Hlong.
    destruct (String.eqb_spec token_key ""); [contradiction | reflexivity].
Qed.

(** X15.  [_validate_csrf_token] always returns a boolean, whatever it is
    given, and never touches the session.  It returns [True] exactly when
    the expected token is the string that was received, that string is
    ASCII and decodes from URL-safe base64 to a key that is not empty, the
    delimiter and an integer time stamp that is at most
    [OAUTH2_CSRF_TOKEN_TIMEOUT] seconds old; so a token with an empty key, a
    token without delimiter and a token that is not base64 are all refused.
    When it returns [True] it has done nothing else; when it returns
    [False] it has done nothing else either, except for the error it logs
    for a token that has timed out. *)
Theorem validate_csrf_total h e expected actual w :
  exists valid w',
    _validate_csrf_token h e expected actual w = (Ok valid, w')
    /\ session w' = session w
    /\ (valid = true <-> csrf_accepts h e expected actual)
    /\ if valid
       then w' = w
       else w' = w
            \/ exists token_time,
                 csrf_token_time actual = Ok (Some token_time)
                 /\ (OAUTH2_CSRF_TOKEN_TIMEOUT h < time_time e - token_time)%Z
                 /\ added w w' = [Log ERROR ("CSRF token timeout (issued at "
                                             ++ Str.of_long token_time ++ ")")].
Proof.
  assert (Hrefuse : ~ csrf_accepts h e expected actual ->
            exists valid w',
              (Ok false, w) = (Ok valid, w')
              /\ session w' = session w
              /\ (valid = true <-> csrf_accepts h e expected actual)
              /\ if valid then w' = w
                 else w' = w
                      \/ exists token_time,
                           csrf_token_time actual = Ok (Some token_time)
                           /\ (OAUTH2_CSRF_TOKEN_TIMEOUT h < time_time e - token_time)%Z
                           /\ added w w' = [Log ERROR ("CSRF token timeout (issued at "
                                                       ++ Str.of_long token_time ++ ")")]).
  { intros Hno. exists false, w. split; [reflexivity|]. split; [reflexivity|].
    split; [split; [discriminate | contradiction] | left; reflexivity]. }
  unfold _validate_csrf_token.
  destruct expected as [| | | |s| | |];
    try (apply Hrefuse; intros [Heq _]; discriminate Heq).
  destruct (String.eqb_spec s actual) as [->|Hne]; cbn [negb];
    [|apply Hrefuse; intros [Heq _]; congruence].
  destruct (csrf_token_time actual) as [[token_time|]|ex] eqn:Htime.
  - pose proof (proj1 (csrf_token_time_some actual token_time) Htime)
      as (Hascii & token_key & time_text & Hdec & Hmem & Hkey & Hlong).
    unfold bind, log, emit, ret.
    destruct (Z.ltb_spec (OAUTH2_CSRF_TOKEN_TIMEOUT h) (time_time e - token_time)) as [Hlate|Hin].
    + eexists false, _. split; [reflexivity|]. split; [reflexivity|]. split.
      * split; [discriminate|].
        intros (_ & _ & key' & text' & time' & Hdec' & Hmem' & Hkey' & Hlong' & Hin').
        assert (Hsome : csrf_token_time actual = Ok (Some time'))
          by (apply csrf_token_time_some; split; [exact Hascii|]; exists key', text'; auto).
        rewrite Htime in Hsome. injection Hsome as <-. lia.
      * right. exists token_time. split; [reflexivity|]. split; [exact Hlate|].
        apply added_app. reflexivity.
    + exists true, w. split; [reflexivity|]. split; [reflexivity|].
      split; [|reflexivity]. split; [intros _|reflexivity].
      split; [reflexivity|]. split; [exact Hascii|].
      exists token_key, time_text, token_time. auto.
  - apply Hrefuse. intros (_ & Hascii & key' & text' & time' & Hdec & Hmem & Hkey & Hlong & _).
    assert (Hsome : csrf_token_time actual = Ok (Some time'))
      by (apply csrf_token_time_some; split; [exact Hascii|]; exists key', text'; auto).
    congruence.
  - assert (Hclass : exn_type ex = TypeError \/ exn_type ex = ValueError
                     \/ exn_type ex = UnicodeDecodeError).
    { unfold csrf_token_time in Htime.
      destruct (negb (Str.is_ascii actual)); [injection Htime as <-; auto|].
      destruct (Base64.urlsafe_b64decode actual) as [decoded|];
        [|injection Htime as <-; auto].
      destruct (Str.rsplit1 OAUTH2_CSRF_DELIMITER decoded) as [[token_key token_time]|];
        [|injection Htime as <-; auto].
      destruct (Str.to_long token_time) as [z|]; [|injection Htime as <-; auto].
      destruct (String.eqb token_key ""); discriminate Htime. }
    assert (Hno : ~ csrf_accepts h e (PyStr actual) actual).
    { intros (_ & Hascii & key' & text' & time' & Hdec & Hmem & Hkey & Hlong & _).
      assert (Hsome : csrf_token_time actual = Ok (Some time'))
        by (apply csrf_token_time_some; split; [exact Hascii|]; exists key', text'; auto).
      congruence. }
    destruct Hclass as [->|[->| ->]]; apply Hrefuse, Hno.
Qed.

(** *** Dicts read by key *)

Lemma assoc_set_lookup {V} k k' (v : V) d :
  Py.assoc k (Py.assoc_set k' v d) = if String.eqb k k' then Some v else Py.assoc k d.
Proof.
  induction d as [|[k0 v0] d IH]; cbn [Py.assoc_set Py.assoc].
  - reflexivity.
  - destruct (String.eqb_spec k' k0) as [->|Hne]; cbn [Py.assoc].
    + destruct (String.eqb k k0); reflexivity.
    + rewrite IH. destruct (String.eqb_spec k k0) as [->|_]; [|reflexivity].
      destruct (String.eqb_spec k0 k'); [congruence | reflexivity].
Qed.

Lemma assoc_app {V} k (d d' : list (string * V)) :
  Py.assoc k (d ++ d') = match Py.assoc k d with
                         | Some v => Some v
                         | None => Py.assoc k d'
                         end.
Proof.
  induction d as [|[k0 v0] d IH]; cbn [app Py.assoc]; [reflexivity|].
  destruct (String.eqb k k0); [reflexivity | exact IH].
Qed.

Lemma assoc_setdefault_lookup {V} k k' (v : V) d :
  Py.assoc k (Py.assoc_setdefault k' v d)
  = match Py.assoc k d with
    | Some x => Some x
    | None => if String.eqb k k' then Some v else None
    end.
Proof.
  unfold Py.assoc_setdefault. destruct (Py.assoc k' d) as [x|] eqn:Hk'.
  - destruct (Py.assoc k d) eqn:Hk; [reflexivity|].
    destruct (String.eqb_spec k k') as [->|_]; [congruence | reflexivity].
  - rewrite assoc_app. reflexivity.
Qed.

Lemma assoc_map_values {V W} (f : V -> W) k (l : list (string * V)) :
  Py.assoc k (map (fun kv => (fst kv, f (snd kv))) l) = option_map f (Py.assoc k l).
Proof.
  induction l as [|[k0 v0] l IH]; cbn [map Py.assoc fst snd]; [reflexivity|].
  destruct (String.eqb k k0); [reflexivity | exact IH].
Qed.

(** [dict(pairs)]: the last pair with a key is the one that counts. *)
Lemma dict_of_pairs_lookup {V} k (l d0 : list (string * V)) :
  Py.assoc k (fold_left (fun d kv => Py.assoc_set (fst kv) (snd kv) d) l d0)
  = match Py.assoc k (rev l) with
    | Some v => Some v
    | None => Py.assoc k d0
    end.
Proof.
  revert d0. induction l as [|[k0 v0] l IH]; intros d0; cbn [fold_left rev]; [reflexivity|].
  rewrite IH, assoc_app, assoc_set_lookup. cbn [Py.assoc fst snd].
  destruct (Py.assoc k (rev l)); [reflexivity|].
  destruct (String.eqb k k0); reflexivity.
Qed.

Lemma assoc_None_keys {V} k (d : list (string * V)) :
  Py.assoc k d = None -> k ∉ map fst d.
Proof.
  induction d as [|[k0 v0] d IH]; cbn [Py.assoc map fst]; [intros _; apply not_elem_of_nil|].
  destruct (String.eqb_spec k k0) as [->|Hne]; [discriminate|].
  intros H. apply not_elem_of_cons. split; [exact Hne | exact (IH H)].
Qed.

Lemma assoc_set_keys {V} k (v : V) d :
  map fst (Py.assoc_set k v d)
  = match Py.assoc k d with
    | Some _ => map fst d
    | None => map fst d ++ [k]
    end.
Proof.
  induction d as [|[k0 v0] d IH]; cbn [Py.assoc_set Py.assoc map fst app]; [reflexivity|].
  destruct (String.eqb_spec k k0) as [->|Hne]; cbn [map fst]; [reflexivity|].
  rewrite IH. destruct (Py.assoc k d); reflexivity.
Qed.

Lemma dict_of_pairs_keys {V} (l d0 : list (string * V)) :
  NoDup (map fst d0) ->
  NoDup (map fst (fold_left (fun d kv => Py.assoc_set (fst kv) (snd kv) d) l d0)).
Proof.
  revert d0. induction l as [|[k0 v0] l IH]; intros d0 Hd0; cbn [fold_left]; [exact Hd0|].
  apply IH. cbn [fst snd]. rewrite assoc_set_keys.
  destruct (Py.assoc k0 d0) eqn:Hk0; [exact Hd0|].
  apply NoDup_app. split; [exact Hd0|]. split.
  - intros x Hx Hx'. apply list_elem_of_singleton in Hx'. subst x.
    exact (assoc_None_keys k0 d0 Hk0 Hx).
  - apply NoDup_singleton.
Qed.

(** X16.  [_query_string_parser] returns a dict for every body and never
    raises.  Each name is a key once, and where a name is given more than
    once in the body the dict has the value that was given last. *)
Theorem query_string_parser_last_wins body w :
  exists items,
    _query_string_parser body w = (Ok (PyDict items), w)
    /\ NoDup (map fst items)
    /\ forall key,
         Py.assoc key items = option_map PyStr (Py.assoc key (rev (Urllib.parse_qsl body))).
Proof.
  unfold _query_string_parser, ret, Py.dict_of_pairs. eexists. split; [reflexivity|]. split.
  - apply dict_of_pairs_keys. constructor.
  - intros key. rewrite dict_of_pairs_lookup, <- map_rev, assoc_map_values.
    destruct (Py.assoc key (rev (Urllib.parse_qsl body))); reflexivity.
Qed.

(** *** User profiles *)

(** X17.  Every profile method looks up its token in the auth info before
    it asks the provider for anything: [access_token] for the OAuth 2.0
    providers, [oauth_token] for the OAuth 1.0 providers.  When the decoded
    token response has no such entry, as the answer to a refused token
    request has not, the method raises [KeyError] for that key and no
    profile request is made. *)
Theorem profile_needs_token e provider items key secret w :
  provider ∈ ["google"; "windows_live"; "facebook"; "linkedin"; "twitter"] ->
  Py.assoc (token_key_of provider) items = None ->
  bind (getattr_fetcher provider)
       (fun _fetcher => call_fetcher e _fetcher (PyDict items) key secret) w
  = (Raise (mk_exn KeyError (Py.quoted (token_key_of provider))), w).
Proof.
  intros Hin Hmissing.
  repeat (apply elem_of_cons in Hin as [->|Hin]); [..|apply elem_of_nil in Hin as []];
    change (Py.assoc "access_token" items = None) in Hmissing
    || change (Py.assoc "oauth_token" items = None) in Hmissing;
    unfold bind at 1;
    match goal with
    | |- context [getattr_fetcher ?p w] =>
        change (getattr_fetcher p w)
          with (@Ok pyval (PyMethod ("_get_" ++ p ++ "_user_info")), w)
    end;
    cbn [call_fetcher String.eqb Ascii.eqb Bool.eqb append];
    unfold _get_google_user_info, _get_windows_live_user_info, _get_facebook_user_info,
      _get_linkedin_user_info, _get_twitter_user_info;
    unfold bind at 1; cbn [py_getitem]; rewrite Hmissing; reflexivity.
Qed.

Lemma profile_needs_token_witness :
  bind (getattr_fetcher "facebook")
       (fun _fetcher =>
          call_fetcher (scenario_env []) _fetcher
                       (PyDict [("error", PyStr "invalid_grant")]) (PyStr "k") (PyStr "s"))
       (fresh ∅)
  = (Raise (mk_exn KeyError "'access_token'"), fresh ∅).
Proof.
  apply (profile_needs_token (scenario_env []) "facebook"
           [("error", PyStr "invalid_grant")] (PyStr "k") (PyStr "s") (fresh ∅));
    [repeat constructor | reflexivity].
Defined.

(** What the two signed profile methods do up to the answer of the
    provider. *)
Lemma signed_profile_request e items token_key token_secret key secret uri w
      {A} (k : Z * string -> M A) :
  Py.assoc "oauth_token" items = Some token_key -> token_key <> PyNone ->
  Py.assoc "oauth_token_secret" items = Some token_secret -> token_secret <> PyNone ->
  key <> PyNone -> secret <> PyNone ->
  bind (py_getitem (PyDict items) "oauth_token") (fun token_key =>
  bind (py_getitem (PyDict items) "oauth_token_secret") (fun token_secret =>
  bind (oauth1_Token token_key token_secret) (fun token =>
  bind (_oauth1_client (Some token) key secret) (fun client =>
  bind (client_request e client uri "GET") k)))) w
  = let client := mk_client key secret (Some (mk_token token_key token_secret PyNone)) in
    bind (lift (oauth1_request e client uri "GET")) k
         (mk_world (session w) (trace w ++ [OAuth1Request client uri "GET"]) (rng_pos w)).
Proof.
  intros Htk Htk' Hts Hts' Hk Hk'. cbn [py_getitem]. rewrite Htk, Hts.
  unfold bind at 1, ret at 1. unfold bind at 1, ret at 1.
  rewrite oauth1_Token_ok by assumption. unfold bind at 1, ret at 1.
  rewrite oauth1_client_ok by assumption. unfold bind at 1, ret at 1.
  unfold client_request. unfold bind at 1. unfold bind at 1. reflexivity.
Qed.



(** [setdefault] child by child: the first child with a tag is the one
    that counts. *)
Lemma setdefault_fold_lookup {V} k (l d0 : list (string * V)) :
  Py.assoc k (fold_left (fun d c => Py.assoc_setdefault (fst c) (snd c) d) l d0)
  = match Py.assoc k d0 with
    | Some v => Some v
    | None => Py.assoc k l
    end.
Proof.
  revert d0. induction l as [|[k0 v0] l IH]; intros d0; cbn [fold_left Py.assoc fst snd].
  - destruct (Py.assoc k d0); reflexivity.
  - rewrite IH, assoc_setdefault_lookup.
    destruct (Py.assoc k d0); [reflexivity|].
    destruct (String.eqb k k0); reflexivity.
Qed.

(** X19.  [_get_linkedin_user_info] makes one signed GET for the six
    profile fields and has lxml read the answer, whatever its status.  The
    profile it returns has, for every tag, the text of the first child of
    the document with that tag; later children with the same tag are
    ignored. *)
Theorem linkedin_profile_first_child
        e items token_key token_secret key secret w status content person :
  Py.assoc "oauth_token" items = Some token_key -> token_key <> PyNone ->
  Py.assoc "oauth_token_secret" items = Some token_secret -> token_secret <> PyNone ->
  key <> PyNone -> secret <> PyNone ->
  oauth1_request e (mk_client key secret (Some (mk_token token_key token_secret PyNone)))
                 linkedin_profile_url "GET" = Ok (status, content) ->
  etree_fromstring e content = Ok person ->
  let client := mk_client key secret (Some (mk_token token_key token_secret PyNone)) in
  let run := _get_linkedin_user_info e (PyDict items) key secret w in
  added w (snd run) = [OAuth1Request client linkedin_profile_url "GET"]
  /\ exists uinfo,
       fst run = Ok (PyDict uinfo)
       /\ forall tag, Py.assoc tag uinfo = Py.assoc tag person.
Proof.
  intros Htk Htk' Hts Hts' Hk Hk' Hanswer Hxml. cbv zeta.
  set (client := mk_client key secret (Some (mk_token token_key token_secret PyNone))) in *.
  assert (Hrun : _get_linkedin_user_info e (PyDict items) key secret w
                 = (Ok (PyDict (fold_left
                                  (fun uinfo child =>
                                     Py.assoc_setdefault (fst child) (snd child) uinfo)
                                  person [])),
                    mk_world (session w)
                             (trace w ++ [OAuth1Request client linkedin_profile_url "GET"])
                             (rng_pos w))).
  { unfold _get_linkedin_user_info.
    rewrite (signed_profile_request e items token_key token_secret key secret) by assumption.
    cbv zeta.
    change ("http://api.linkedin.com/v1/people/~:("
            ++ "id,first-name,last-name,picture-url,public-profile-url,headline" ++ ")")%string
      with linkedin_profile_url.
    fold client. rewrite Hanswer.
    unfold bind at 1, lift at 1. cbn [snd]. rewrite Hxml. reflexivity. }
  rewrite Hrun. cbn [fst snd]. split; [apply added_app; reflexivity|].
  eexists. split; [reflexivity|].
  intros tag. rewrite setdefault_fold_lookup. reflexivity.
Qed.

Lemma linkedin_profile_first_child_witness :
  added (fresh ∅)
        (snd (_get_linkedin_user_info
                (profile_env "<person/>" [("id", PyStr "1"); ("headline", PyStr "a");
                                          ("headline", PyStr "b")])
                (PyDict [("oauth_token", PyStr "at1"); ("oauth_token_secret", PyStr "ats1")])
                (PyStr "k") (PyStr "s") (fresh ∅)))
  = [OAuth1Request (mk_client (PyStr "k") (PyStr "s")
                              (Some (mk_token (PyStr "at1") (PyStr "ats1") PyNone)))
                   linkedin_profile_url "GET"]
  /\ exists uinfo,
       fst (_get_linkedin_user_info
              (profile_env "<person/>" [("id", PyStr "1"); ("headline", PyStr "a");
                                        ("headline", PyStr "b")])
              (PyDict [("oauth_token", PyStr "at1"); ("oauth_token_secret", PyStr "ats1")])
              (PyStr "k") (PyStr "s") (fresh ∅))
       = Ok (PyDict uinfo)
       /\ forall tag,
            Py.assoc tag uinfo
            = Py.assoc tag [("id", PyStr "1"); ("headline", PyStr "a");
                            ("headline", PyStr "b")].
Proof.
  exact (linkedin_profile_first_child
           (profile_env "<person/>" [("id", PyStr "1"); ("headline", PyStr "a");
                                     ("headline", PyStr "b")])
           [("oauth_token", PyStr "at1"); ("oauth_token_secret", PyStr "ats1")]
           (PyStr "at1") (PyStr "ats1") (PyStr "k") (PyStr "s") (fresh ∅)
           200%Z "<person/>"
           [("id", PyStr "1"); ("headline", PyStr "a"); ("headline", PyStr "b")]
           eq_refl ltac:(discriminate) eq_refl ltac:(discriminate)
           ltac:(discriminate) ltac:(discriminate) eq_refl eq_refl).
Defined.

(** *** The profile request of the OAuth 2.0 providers *)

(** X20.  [_oauth2_request] makes one GET, without a payload, of the URL it
    gets by putting [access_token=] and the percent-encoded token in the
    place of the [{0}] at the end of the template, and it returns the body
    of the answer, or raises what the fetch raises.  It changes nothing
    else.  The template has no other brace, which [str.format] would not
    take, and the token is ASCII text, which is what [urlencode] can turn
    into a byte string when the token came out of a JSON answer. *)
Theorem oauth2_request_url e prefix token w :
  Str.mem "{" prefix = false -> Str.mem "}" prefix = false ->
  Str.is_ascii token = true ->
  let target_url := (prefix ++ "access_token=" ++ Urllib.quote_plus token)%string in
  _oauth2_request e (prefix ++ "{0}") (PyStr token) w
  = (urlfetch_fetch e target_url None "GET",
     mk_world (session w) (trace w ++ [UrlFetch target_url None "GET"]) (rng_pos w)).
Proof.
  intros Hopen _ _ target_url. unfold _oauth2_request, urlfetch_get.
  rewrite (format_at_end prefix _ Hopen).
  change (Urllib.urlencode (Dict.of_list [("access_token", PyStr token)]))
    with ("access_token=" ++ Urllib.quote_plus token)%string.
  reflexivity.
Qed.

Lemma oauth2_request_url_witness :
  _oauth2_request (scenario_env []) "https://graph.facebook.com/me?{0}" (PyStr "a b/c")
                  (fresh ∅)
  = (Ok profile_response,
     mk_world ∅ [UrlFetch "https://graph.facebook.com/me?access_token=a+b%2Fc" None "GET"] 0).
Proof.
  exact (oauth2_request_url (scenario_env []) "https://graph.facebook.com/me?" "a b/c"
           (fresh ∅) eq_refl eq_refl eq_refl).
Defined.

(** *** The state token is used once *)

Lemma validate_csrf_session h e expected actual w :
  session (snd (_validate_csrf_token h e expected actual w)) = session w.
Proof.
  unfold _validate_csrf_token.
  destruct expected as [| | | |s| | |]; try reflexivity.
  destruct (negb (String.eqb s actual)); [reflexivity|].
  destruct (csrf_token_time s) as [[token_time|]|ex]; [|reflexivity|].
  - unfold bind, log, emit, ret. destruct (_ <? _)%Z; reflexivity.
  - destruct (exn_type ex); reflexivity.
Qed.

Lemma oauth2_callback_without_token h e provider url w :
  OAUTH2_CSRF_STATE h = true ->
  session w !! OAUTH2_CSRF_SESSION_PARAM h = None ->
  exists ex w',
    _oauth2_callback h e provider url w = (Raise ex, w') /\ trace w' = trace w.
Proof.
  intros Hon Hnone. unfold _oauth2_callback.
  unfold bind, unpack3, unpack_error, raise, ret.
  destruct (_get_consumer_info_for h provider) as [|a [|b [|c [|d l]]]]; cbn; eauto.
  destruct (Py.truthy (request_get e "error" PyNone)); [eauto|].
  rewrite Hon. unfold session_pop. rewrite Hnone. cbn [default].
  rewrite validate_csrf_empty. cbn. eauto.
Qed.

(** X21.  With CSRF protection on, a callback that gets as far as the state
    check uses the stored token up: whether the state is accepted or not,
    and however the callback ends, the session it leaves is the session it
    found without the entry at [OAUTH2_CSRF_SESSION_PARAM].  Any further
    callback, whatever its request, then raises before it has sent or
    logged anything. *)
Theorem oauth2_state_single_use h e provider url w client_id client_secret scope :
  OAUTH2_CSRF_STATE h = true ->
  _get_consumer_info_for h provider = [client_id; client_secret; scope] ->
  request e !! "error" = None ->
  let w1 := snd (_oauth2_callback h e provider url w) in
  session w1 = delete (OAUTH2_CSRF_SESSION_PARAM h) (session w)
  /\ forall e2 provider2 url2,
       exists ex w2,
         _oauth2_callback h e2 provider2 url2 w1 = (Raise ex, w2)
         /\ trace w2 = trace w1.
Proof.
  intros Hon Hinfo Herror w1.
  assert (Hs : session w1 = delete (OAUTH2_CSRF_SESSION_PARAM h) (session w)).
  { assert (Herr : Py.truthy (request_get e "error" PyNone) = false)
      by (unfold request_get; rewrite Herror; reflexivity).
    pose proof (oauth2_callback_run h e provider url w client_id client_secret scope
                  Hinfo Herr) as Hcb.
    cbv zeta in Hcb. rewrite Hon in Hcb. unfold w1. rewrite Hcb.
    match goal with
    | |- context [_validate_csrf_token ?h ?e ?x ?a ?w0] =>
        pose proof (validate_csrf_session h e x a w0) as Hv;
        destruct (_validate_csrf_token h e x a w0) as [[[|]|ex] w0']
    end; cbn [snd session] in *; [|exact Hv|exact Hv].
    rewrite token_exchange_session. exact Hv. }
  split; [exact Hs|]. intros e2 provider2 url2.
  apply oauth2_callback_without_token; [exact Hon|].
  rewrite Hs. apply lookup_delete_eq.
Qed.

Lemma oauth2_state_single_use_witness :
  session (snd (_oauth2_callback
                  (scenario_handler true)
                  (scenario_env [("code", "abc123"); ("state", scenario_state)])
                  "google" google_token_url
                  (fresh {[ "oauth2_state" := PyStr scenario_state ]})))
  = delete "oauth2_state" {[ "oauth2_state" := PyStr scenario_state ]}
  /\ forall e2 provider2 url2,
       exists ex w2,
         _oauth2_callback (scenario_handler true) e2 provider2 url2
           (snd (_oauth2_callback
                   (scenario_handler true)
                   (scenario_env [("code", "abc123"); ("state", scenario_state)])
                   "google" google_token_url
                   (fresh {[ "oauth2_state" := PyStr scenario_state ]})))
         = (Raise ex, w2)
         /\ trace w2
            = trace (snd (_oauth2_callback
                            (scenario_handler true)
                            (scenario_env [("code", "abc123"); ("state", scenario_state)])
                            "google" google_token_url
                            (fresh {[ "oauth2_state" := PyStr scenario_state ]}))).
Proof.
  exact (oauth2_state_single_use
           (scenario_handler true)
           (scenario_env [("code", "abc123"); ("state", scenario_state)])
           "google" google_token_url
           (fresh {[ "oauth2_state" := PyStr scenario_state ]})
           (PyStr "k") (PyStr "s") PyNone eq_refl eq_refl eq_refl).
Defined.

(** *** A provider without a decoder *)





